(** * Payment orchestration of app-nutris: a shallow embedding

    The development embeds the Supabase edge functions that make up the
    payment core of the repository:

    - [payment-create]  (src/src/App.tsx, handler starting at line 833),
    - [payment-status]  (src/src/App.tsx, handler starting at line 621),
    - the four webhook receivers: PagSeguro
      (src/supabase/functions/webhook-pagseguro/index.ts), Pagar.me and
      Asaas (src/supabase/functions/webhook-pagarme/index.ts, lines 9 and
      231), Mercado Pago (src/unnamed/part_008),
    - [handlePaymentApproved], the provisioning routine copied into each of
      them.

    Database tables are lists of rows and PostgREST queries are filters over
    them.  Every handler is a computation in a small state-and-exception
    monad over a [World]; the world also carries a trace of the externally
    visible effects (gateway requests, row writes, provisioning calls), so
    that statements such as "no gateway call is made" can be phrased.

    Modelling choices:

    - what the code obtains from outside (the clock, the HTTP replies of
      the providers, generated identifiers and passwords, the result of
      creating an auth user) is an argument of the handler; a handler reads
      the clock once;
    - webhook and poll bodies are untyped JSON values, and reading a
      property of [null] raises, as in JavaScript; the body of
      payment-create has the type [RequestBody] the source declares;
    - database reads and writes do what they are asked (the one exception
      is the insert of payment-create, whose error the handler tests);
    - dates are day numbers, instants are milliseconds, the time zone is UTC
      (the edge runtime's); a [Date] holds the instants up to 8.64e15
      milliseconds from the epoch, a date beyond is the Invalid Date, whose
      [toISOString] raises;
    - turning a JSON value into the text of a query raises for an object
      that has a [toString] property of its own, and a number is printed
      as JavaScript prints the double it is;
    - [toLowerCase] of payment-create is the runtime's function, given to
      the handler like the rest of what comes from outside;
    - a gateway adapter of payment-create is its credentials test followed
      by one exchange with the provider, whose outcome is given. *)

From Stdlib Require Import QArith Qround.
From Stdlib Require Import ZArith List String Ascii Bool Lia DecimalString.
Import ListNotations.

Local Open Scope string_scope.
Local Open Scope Z_scope.
Local Set Warnings "-register-all".

(** ** JavaScript values and the few operators the handlers use on them *)

Inductive outcome (A : Type) : Type :=
| Val (a : A)
| Throw.                      (* a JavaScript exception propagates *)

Arguments Val {A} a.
Arguments Throw {A}.

Module JS.

(** Parsed JSON, plus [undefined] which property access can produce.
    Numbers are restricted to integers: [Num n] is the number that the
    literal [n] denotes, which is the double nearest to [n]. *)
Inductive value : Type :=
| Undefined
| Null
| Bool (b : bool)
| Num (n : Z)
| Str (s : string)
| Arr (items : list value)
| Obj (fields : list (string * value)).

(** [!!v] *)
Definition truthy (v : value) : bool :=
  match v with
  | Undefined | Null => false
  | Bool b => b
  | Num n => negb (n =? 0)
  | Str s => negb (s =? "")%string
  | Arr _ | Obj _ => true
  end.

Fixpoint assoc (k : string) (fields : list (string * value)) : value :=
  match fields with
  | [] => Undefined
  | (k', v) :: rest => if (k =? k')%string then v else assoc k rest
  end.

(** [v.k] for a property name [k] that is neither an index nor a built-in
    of strings and arrays (the handlers only read such names: id, type,
    data, status, ...).  Reading a property of [null] or [undefined]
    raises TypeError. *)
Definition get (v : value) (k : string) : outcome value :=
  match v with
  | Undefined | Null => Throw
  | Obj fields => Val (assoc k fields)
  | Bool _ | Num _ | Str _ | Arr _ => Val Undefined
  end.

(** [v?.k] *)
Definition opt_get (v : value) (k : string) : value :=
  match get v k with
  | Val x => x
  | Throw => Undefined
  end.

(** [v?.[0]] *)
Definition opt_first (v : value) : value :=
  match v with
  | Arr (x :: _) => x
  | Str (String c _) => Str (String c EmptyString)
  | Obj fields => assoc "0" fields
  | _ => Undefined
  end.

(** [a || b] *)
Definition or_else (a b : value) : value := if truthy a then a else b.

(** [v === 'lit'] *)
Definition is_str (v : value) (lit : string) : bool :=
  match v with
  | Str s => (s =? lit)%string
  | _ => false
  end.

Definition decimal (n : Z) : string := NilZero.string_of_int (Z.to_int n).

(** Rounding of the natural number [n] to 53 significant bits, ties to
    the even significand.  This is the double nearest to [n], and as well
    the double nearest to [n] steps of 2^-1074, as long as the result is
    below 2^1024; from there on the double is Infinity.  Every natural
    number up to 2^53 is kept as it is. *)
Definition to_double (n : Z) : Z :=
  let e := Z.log2 n in
  if e <=? 52 then n
  else
    let ulp := 2 ^ (e - 52) in
    let q := n / ulp in
    let r := n mod ulp in
    let half := ulp / 2 in
    let m := if r <? half then q
             else if half <? r then q + 1
             else if Z.even q then q else q + 1 in
    m * ulp.

Definition digits (n : Z) : Z := Z.of_nat (String.length (decimal n)).

(** Number::toString picks the decimal with the fewest significant digits
    that reads back as the same double and, among those, the one closest
    to it (the even one on a tie).  [shortest fuel k x] tries [k], [k + 1],
    ... significant digits; with as many digits as [x] has, [x] itself is
    found. *)
Fixpoint shortest (fuel : nat) (k : Z) (x : Z) : Z :=
  match fuel with
  | O => x
  | S fuel' =>
      let p := 10 ^ (digits x - k) in
      let below := (x / p) * p in
      let above := below + p in
      let below_ok := (0 <? below) && (to_double below =? x) in
      let above_ok := to_double above =? x in
      if below_ok && above_ok
      then if x - below <? above - x then below
           else if above - x <? x - below then above
           else if Z.even (x / p) then below else above
      else if below_ok then below
      else if above_ok then above
      else if digits x <=? k then x
      else shortest fuel' (k + 1) x
  end.

Fixpoint strip_zeros (fuel : nat) (c : Z) : Z :=
  match fuel with
  | O => c
  | S fuel' => if (c mod 10 =? 0) && negb (c =? 0)
               then strip_zeros fuel' (c / 10) else c
  end.

(** [String(x)] for the double nearest to the natural number [n]: the
    digits in full up to 21 of them, the exponent form beyond. *)
Definition natural_text (n : Z) : string :=
  let x := to_double n in
  if 2 ^ 1024 <=? x then "Infinity"
  else
    let c := shortest 18 1 x in
    if digits c <=? 21 then decimal c
    else
      let s := decimal (strip_zeros 400 c) in
      let exponent := decimal (digits c - 1) in
      match s with
      | String d EmptyString => String d ("e+" ++ exponent)
      | String d rest => String d ("." ++ rest ++ "e+" ++ exponent)
      | EmptyString => s
      end.

(** [String(n)] for an integer [n]. *)
Definition number_text (n : Z) : string :=
  if n <? 0 then "-" ++ natural_text (- n) else natural_text n.

Definition join_with (sep : string) (parts : list string) : string :=
  match parts with
  | [] => ""
  | p :: rest => fold_left (fun acc q => acc ++ sep ++ q) rest p
  end.

(** [String(v)], which is what a template literal applies to [v]. *)
Fixpoint to_string (v : value) : string :=
  match v with
  | Undefined => "undefined"
  | Null => "null"
  | Bool true => "true"
  | Bool false => "false"
  | Num n => number_text n
  | Str s => s
  | Arr items =>
      join_with ","
        (map (fun x => match x with
                       | Undefined | Null => ""
                       | _ => to_string x
                       end) items)
  | Obj _ => "[object Object]"
  end.

(** Whether [String(v)] completes.  An object converts through its
    [toString]; in parsed JSON an own [toString] property is never a
    function, so that the conversion of an object that has one raises
    TypeError, as does the one of an array with such an element. *)
Fixpoint converts (v : value) : bool :=
  match v with
  | Obj fields =>
      negb (existsb (fun field => (fst field =? "toString")%string) fields)
  | Arr items => forallb converts items
  | _ => true
  end.

(** The values a [for (const x of v)] loop visits; [Throw] when [v] is not
    iterable. *)
Definition iterate (v : value) : outcome (list value) :=
  match v with
  | Arr items => Val items
  | Str s => Val (map (fun c => Str (String c EmptyString)) (list_ascii_of_string s))
  | _ => Throw
  end.

(** Lowercasing of the letters A to Z, which is what [s.toLowerCase()] does
    to a string of ASCII characters. *)
Definition lower_ascii (c : ascii) : ascii :=
  let n := nat_of_ascii c in
  if (Nat.leb 65 n && Nat.leb n 90)%bool then ascii_of_nat (n + 32) else c.

Fixpoint toLowerCase (s : string) : string :=
  match s with
  | EmptyString => EmptyString
  | String c rest => String (lower_ascii c) (toLowerCase rest)
  end.

End JS.

(** ** Dates

    An instant is a number of milliseconds since the epoch, as in a JS
    [Date]; a calendar date (SQL [DATE], the [YYYY-MM-DD] prefix of an ISO
    string) is a number of days since the epoch.  The functions run in UTC,
    where a calendar day has exactly [ms_per_day] milliseconds.

    A [Date] object holds a time value of at most [max_time] milliseconds
    either side of the epoch; an operation whose result would lie beyond
    yields the Invalid Date.  A [Date] is modelled by the number its time
    value is, or would be without that limit: it is the Invalid Date
    exactly when that number is not [valid].  The Invalid Date compares
    false with everything and [toISOString] raises RangeError on it. *)

Module JSDate.

Definition ms_per_day : Z := 86400000.

Definition max_time : Z := 8640000000000000.

(** The [Date] is not the Invalid Date. *)
Definition valid (instant : Z) : bool := Z.abs instant <=? max_time.

(** [new Date('YYYY-MM-DD')]: midnight UTC of that day. *)
Definition of_date (day : Z) : Z := day * ms_per_day.

(** [d.setDate(d.getDate() + n)] on a valid [d]. *)
Definition add_days (instant n : Z) : Z := instant + n * ms_per_day.

(** The calendar day a time value falls on: the date part of
    [d.toISOString()] for a valid [d]. *)
Definition iso_date (instant : Z) : Z := instant / ms_per_day.

(** [d.toISOString().split('T')[0]], which raises on the Invalid Date. *)
Definition toISOString (instant : Z) : outcome Z :=
  if valid instant then Val (iso_date instant) else Throw.

(** [a > b] on two [Date]s. *)
Definition after (a b : Z) : bool := (valid a && valid b && (b <? a))%bool.

End JSDate.

(** ** Rows of the tables *)

Inductive PaymentStatus : Type :=
| pending | approved | rejected | expired | refunded.

Inductive PaymentMethod : Type :=
| pix | boleto | credit_card.

Definition status_eqb (a b : PaymentStatus) : bool :=
  match a, b with
  | pending, pending | approved, approved | rejected, rejected
  | expired, expired | refunded, refunded => true
  | _, _ => false
  end.

Definition method_eqb (a b : PaymentMethod) : bool :=
  match a, b with
  | pix, pix | boleto, boleto | credit_card, credit_card => true
  | _, _ => false
  end.

(** A nullable text column is falsy in JS when it is null or empty. *)
Definition present (s : option string) : bool :=
  match s with
  | Some t => negb (t =? "")%string
  | None => false
  end.

Definition opt_str_eqb (a : option string) (b : string) : bool :=
  match a with
  | Some t => (t =? b)%string
  | None => false
  end.

Module Plan.
Record t : Type := mk {
  id : string;
  name : string;
  duration_days : Z;
  price_cents : Z;
  is_active : bool
}.
End Plan.

Module Settings.
Record t : Type := mk {
  owner_id : string;
  active_gateway : string;
  mp_access_token : option string;
  asaas_api_key : option string;
  ps_email : option string;
  ps_token : option string;
  pm_api_key : option string;
  pix_enabled : bool;
  boleto_enabled : bool;
  credit_card_enabled : bool
}.
End Settings.

Module Profile.
Record t : Type := mk {
  id : string;
  role : string;
  full_name : string;
  email : option string;
  phone : option string;
  plan_start_date : option Z;
  plan_end_date : option Z;
  is_active : bool
}.

(** [update({ plan_end_date, is_active: true })] *)
Definition renew (end_date : Z) (p : t) : t :=
  mk (id p) (role p) (full_name p) (email p) (phone p)
     (plan_start_date p) (Some end_date) true.
End Profile.

(** The PIX and boleto columns of a payment, which payment-create also
    returns to the caller. *)
Record MethodFields : Type := {
  pix_qr_code : option string;
  pix_qr_code_base64 : option string;
  pix_expiration : option string;
  boleto_url : option string;
  boleto_barcode : option string;
  boleto_expiration : option string
}.

Module Payment.
Record t : Type := mk {
  id : string;
  owner_id : string;
  client_id : option string;
  plan_id : string;
  gateway : string;
  gateway_payment_id : option string;
  amount_cents : Z;
  payment_method : PaymentMethod;
  status : PaymentStatus;
  customer_email : string;
  customer_name : string;
  customer_phone : option string;
  customer_cpf : string;
  method_fields : MethodFields;
  card_last_digits : option string;
  card_brand : option string;
  installments : Z;
  paid_at : option Z;
  webhook_data : option JS.value
}.

(** [update({ status, webhook_data, paid_at? })]: [paid_at] is part of
    the update only when the new status is approved. *)
Definition set_status (s : PaymentStatus) (hook : option JS.value)
           (now : Z) (p : t) : t :=
  mk (id p) (owner_id p) (client_id p) (plan_id p) (gateway p)
     (gateway_payment_id p) (amount_cents p) (payment_method p) s
     (customer_email p) (customer_name p) (customer_phone p)
     (customer_cpf p) (method_fields p) (card_last_digits p) (card_brand p)
     (installments p)
     (if status_eqb s approved then Some now else paid_at p)
     (match hook with Some h => Some h | None => webhook_data p end).

(** [update({ client_id })] *)
Definition set_client (c : string) (p : t) : t :=
  mk (id p) (owner_id p) (Some c) (plan_id p) (gateway p)
     (gateway_payment_id p) (amount_cents p) (payment_method p) (status p)
     (customer_email p) (customer_name p) (customer_phone p)
     (customer_cpf p) (method_fields p) (card_last_digits p) (card_brand p)
     (installments p) (paid_at p) (webhook_data p).
End Payment.

(** ** The world: tables and a trace of effects *)

Inductive Event : Type :=
| GatewayRequest (gateway : string)          (* an HTTP exchange with a provider *)
| PaymentInsert (row : Payment.t)            (* payments.insert(row) *)
| StatusWrite (payment : string) (s : PaymentStatus)
                                             (* payments.update({ status, ... }) *)
| ClientLink (payment client : string)       (* payments.update({ client_id }) *)
| ProvisioningCall (payment : string)        (* handlePaymentApproved is entered *)
| ProfileUpdate (profile : string)           (* profiles.update *)
| UserCreate (email : string)                (* auth.admin.createUser *)
| ProfileInsert (profile : string)           (* profiles.insert *)
| EmailSend (recipient : string).            (* functions.invoke('send-email') *)

Record World : Type := {
  payments : list Payment.t;
  profiles : list Profile.t;
  plans : list Plan.t;
  payment_settings : list Settings.t;
  trace : list Event
}.

Definition M (A : Type) : Type := World -> outcome A * World.

Definition ret {A} (a : A) : M A := fun w => (Val a, w).

Definition bind {A B} (m : M A) (k : A -> M B) : M B :=
  fun w =>
    match m w with
    | (Val a, w') => k a w'
    | (Throw, w') => (Throw, w')
    end.

Notation "x <- m ;; k" := (bind m (fun x => k))
  (at level 61, m at next level, right associativity).
Notation "m ;;; k" := (bind m (fun _ => k))
  (at level 61, right associativity).

(** A pure JS expression that may raise. *)
Definition eval {A} (o : outcome A) : M A := fun w => (o, w).

Definition emit (e : Event) : M unit :=
  fun w =>
    (Val tt, {| payments := payments w; profiles := profiles w;
                plans := plans w; payment_settings := payment_settings w;
                trace := trace w ++ [e] |}).

(** *** PostgREST queries *)

Record QueryResult (A : Type) : Type := { data : option A; error : bool }.
Arguments data {A} _.
Arguments error {A} _.

(** [.single()]: exactly one row, anything else is an error. *)
Definition single {A} (rows : list A) : QueryResult A :=
  match rows with
  | [x] => {| data := Some x; error := false |}
  | _ => {| data := None; error := true |}
  end.

(** [.maybeSingle()]: no row is not an error, several rows are. *)
Definition maybeSingle {A} (rows : list A) : QueryResult A :=
  match rows with
  | [] => {| data := None; error := false |}
  | [x] => {| data := Some x; error := false |}
  | _ => {| data := None; error := true |}
  end.

Definition select_payments (f : Payment.t -> bool) : M (list Payment.t) :=
  fun w => (Val (filter f (payments w)), w).

Definition select_profiles (f : Profile.t -> bool) : M (list Profile.t) :=
  fun w => (Val (filter f (profiles w)), w).

Definition select_plans (f : Plan.t -> bool) : M (list Plan.t) :=
  fun w => (Val (filter f (plans w)), w).

Definition select_settings (f : Settings.t -> bool) : M (list Settings.t) :=
  fun w => (Val (filter f (payment_settings w)), w).

(** [update(...).eq('id', key)] rewrites every row whose id is [key]. *)
Definition update_where {A} (key : A -> string) (k : string) (f : A -> A)
           (rows : list A) : list A :=
  map (fun r => if (key r =? k)%string then f r else r) rows.

Definition update_payment (k : string) (f : Payment.t -> Payment.t) : M unit :=
  fun w =>
    (Val tt, {| payments := update_where Payment.id k f (payments w);
                profiles := profiles w; plans := plans w;
                payment_settings := payment_settings w; trace := trace w |}).

Definition update_profile (k : string) (f : Profile.t -> Profile.t) : M unit :=
  fun w =>
    (Val tt, {| payments := payments w;
                profiles := update_where Profile.id k f (profiles w);
                plans := plans w; payment_settings := payment_settings w;
                trace := trace w |}).

Definition insert_profile (p : Profile.t) : M unit :=
  fun w =>
    (Val tt, {| payments := payments w; profiles := profiles w ++ [p];
                plans := plans w; payment_settings := payment_settings w;
                trace := trace w |}).

Definition insert_payment (p : Payment.t) : M unit :=
  fun w =>
    (Val tt, {| payments := payments w ++ [p]; profiles := profiles w;
                plans := plans w; payment_settings := payment_settings w;
                trace := trace w |}).

(** The status write shared by the reconciliation handlers. *)
Definition write_status (k : string) (s : PaymentStatus)
           (hook : option JS.value) (now : Z) : M unit :=
  emit (StatusWrite k s) ;;;
  update_payment k (Payment.set_status s hook now).

Definition link_client (payment client : string) : M unit :=
  emit (ClientLink payment client) ;;;
  update_payment payment (Payment.set_client client).

Definition renew_profile (k : string) (end_date : Z) : M unit :=
  emit (ProfileUpdate k) ;;;
  update_profile k (Profile.renew end_date).

(** ** Provisioning: [handlePaymentApproved]

    What the routine obtains from outside: the clock, the password drawn by
    [generatePassword], and the result of [auth.admin.createUser] (the id
    of the new user, or [None] for [authError]). *)

Record Outside : Type := {
  now : Z;
  password : string;
  created_user : option string
}.

(** [newEndDate] of the renewal branch. *)
Definition newEndDate (today : Z) (duration_days : Z)
           (existingProfile : option Profile.t) : Z :=
  let planEndDate := JSDate.add_days today duration_days in
  match existingProfile with
  | Some profile =>
      match Profile.plan_end_date profile with
      | Some d =>
          let currentEnd := JSDate.of_date d in
          if JSDate.after currentEnd today
          then JSDate.add_days currentEnd duration_days
          else planEndDate
      | None => planEndDate
      end
  | None => planEndDate
  end.

(** Branch 1 of [handlePaymentApproved]: [payment.client_id] is set.  The
    argument of [update] is built, and [toISOString] may raise, before the
    update is sent. *)
Definition provision_renewal (o : Outside) (client : string) (plan : Plan.t)
  : M unit :=
  let today := now o in
  rows <- select_profiles (fun p => (Profile.id p =? client)%string) ;;
  let existingProfile := data (single rows) in
  plan_end_date <-
    eval (JSDate.toISOString
            (newEndDate today (Plan.duration_days plan) existingProfile)) ;;
  renew_profile client plan_end_date.

(** Branches 2 and 3: look the customer up by email, create the account
    when there is none. *)
Definition provision_by_email (o : Outside) (payment : Payment.t)
           (plan : Plan.t) : M unit :=
  let today := now o in
  let planEndDate := JSDate.add_days today (Plan.duration_days plan) in
  rows <- select_profiles
            (fun p => opt_str_eqb (Profile.email p)
                                  (Payment.customer_email payment)) ;;
  match data (maybeSingle rows) with
  | Some existingUser =>
      plan_end_date <- eval (JSDate.toISOString planEndDate) ;;
      renew_profile (Profile.id existingUser) plan_end_date ;;;
      link_client (Payment.id payment) (Profile.id existingUser)
  | None =>
      emit (UserCreate (Payment.customer_email payment)) ;;;
      match created_user o with
      | None => ret tt
      | Some user =>
          plan_start_date <- eval (JSDate.toISOString today) ;;
          plan_end_date <- eval (JSDate.toISOString planEndDate) ;;
          emit (ProfileInsert user) ;;;
          insert_profile
            (Profile.mk user "client" (Payment.customer_name payment)
               (Some (Payment.customer_email payment))
               (Payment.customer_phone payment)
               (Some plan_start_date) (Some plan_end_date) true) ;;;
          link_client (Payment.id payment) user ;;;
          emit (EmailSend (Payment.customer_email payment))
      end
  end.

(** The body of [handlePaymentApproved] once the plan is at hand: from
    [const today = new Date()] on, the five copies agree. *)
Definition provision (o : Outside) (payment : Payment.t) (plan : Plan.t)
  : M unit :=
  match Payment.client_id payment with
  | Some client =>
      if (client =? "")%string
      then provision_by_email o payment plan
      else provision_renewal o client plan
  | None => provision_by_email o payment plan
  end.

(** [handlePaymentApproved(supabase, payment, plan)] of payment-create
    (src/src/App.tsx:1620). *)
Definition handlePaymentApproved_create (o : Outside) (payment : Payment.t)
           (plan : Plan.t) : M unit :=
  emit (ProvisioningCall (Payment.id payment)) ;;;
  provision o payment plan.

(** [handlePaymentApproved(supabase, payment)] of the webhook receivers: the
    plan is fetched again and nothing happens when it is gone. *)
Definition handlePaymentApproved (o : Outside) (payment : Payment.t) : M unit :=
  emit (ProvisioningCall (Payment.id payment)) ;;;
  rows <- select_plans (fun p => (Plan.id p =? Payment.plan_id payment)%string) ;;
  match data (single rows) with
  | None => ret tt
  | Some plan => provision o payment plan
  end.

(** ** HTTP requests and responses *)

Record Request : Type := {
  method : string;
  body : option JS.value      (* [None]: [req.json()] rejects *)
}.

Inductive Content : Type :=
| Text (s : string)
| ErrorMessage (msg : string)                          (* { error } *)
| StatusOnly (s : PaymentStatus)                       (* { status } *)
| StatusPaid (s : PaymentStatus) (paid_at : option Z)  (* { status, paid_at } *)
| Created (payment : string) (s : PaymentStatus) (fields : MethodFields).

Record Response : Type := { code : Z; content : Content }.

Definition respond (c : Z) (b : Content) : Response :=
  {| code := c; content := b |}.

(** [try { ... } catch (error) { return 500 }]: writes made before the
    exception stay. *)
Definition try_catch (m : M Response) (handler : Response) (w : World)
  : Response * World :=
  match m w with
  | (Val r, w') => (r, w')
  | (Throw, w') => (handler, w')
  end.

Definition parse_body (req : Request) : M JS.value :=
  eval (match body req with Some v => Val v | None => Throw end).

Definition webhook_ok : Response := respond 200 (Text "OK").
Definition webhook_error : Response := respond 500 (Text "Error").
Definition preflight : Response := respond 200 (Text "ok").

(** [.eq(column, v)] and [v.toString()] convert [v] to text before any
    request is sent, and raise when it does not convert. *)
Definition text_of (v : JS.value) : M unit :=
  eval (if JS.converts v then Val tt else Throw).

(** The row filter of [.eq('gateway_payment_id', key).eq('gateway', g)]. *)
Definition by_gateway_id (key : JS.value) (g : string) (p : Payment.t) : bool :=
  (opt_str_eqb (Payment.gateway_payment_id p) (JS.to_string key)
   && (Payment.gateway p =? g)%string)%bool.

(** The tail every webhook receiver shares once the candidate status is
    known: no-op on equal status, else write and, for approved, provision. *)
Definition apply_status (o : Outside) (dbPayment : Payment.t)
           (newStatus : PaymentStatus) (hook : JS.value) : M Response :=
  if status_eqb newStatus (Payment.status dbPayment) then ret webhook_ok
  else
    write_status (Payment.id dbPayment) newStatus (Some hook) (now o) ;;;
    (if status_eqb newStatus approved
     then handlePaymentApproved o dbPayment
     else ret tt) ;;;
    ret webhook_ok.

(** ** PagSeguro webhook (src/supabase/functions/webhook-pagseguro/index.ts) *)

(** The loop over [charges], started from the stored status. *)
Fixpoint scan_charges (newStatus : PaymentStatus) (charges : list JS.value)
  : outcome PaymentStatus :=
  match charges with
  | [] => Val newStatus
  | charge :: rest =>
      match JS.get charge "status" with
      | Throw => Throw
      | Val s =>
          if JS.is_str s "PAID" then Val approved
          else if (JS.is_str s "DECLINED" || JS.is_str s "CANCELED")%bool
               then scan_charges rejected rest
               else scan_charges newStatus rest
      end
  end.

Definition pagseguro_status (stored : PaymentStatus) (payload : JS.value)
  : outcome PaymentStatus :=
  match JS.iterate (JS.or_else (JS.opt_get payload "charges") (JS.Arr [])) with
  | Throw => Throw
  | Val charges =>
      match scan_charges stored charges with
      | Throw => Throw
      | Val s =>
          if JS.is_str
               (JS.opt_get (JS.opt_first (JS.opt_get payload "qr_codes")) "status")
               "PAID"
          then Val approved
          else Val s
      end
  end.

Definition webhook_pagseguro (o : Outside) (req : Request) (w : World)
  : Response * World :=
  if (method req =? "OPTIONS")%string then (preflight, w)
  else
    try_catch
      (payload <- parse_body req ;;
       orderId <- eval (JS.get payload "id") ;;
       if negb (JS.truthy orderId) then ret webhook_ok
       else
         text_of orderId ;;;
         rows <- select_payments (by_gateway_id orderId "pagseguro") ;;
         match data (maybeSingle rows) with
         | None => ret webhook_ok
         | Some dbPayment =>
             newStatus <- eval (pagseguro_status (Payment.status dbPayment) payload) ;;
             apply_status o dbPayment newStatus payload
         end)
      webhook_error w.

(** ** Pagar.me webhook (src/supabase/functions/webhook-pagarme/index.ts:9) *)

Definition includes (lits : list string) (v : JS.value) : bool :=
  existsb (JS.is_str v) lits.

Definition pagarme_relevantEvents : list string :=
  ["order.paid"; "order.payment_failed"; "order.canceled";
   "charge.paid"; "charge.payment_failed"; "charge.refunded"].

(** The [switch (eventType)]. *)
Definition pagarme_status (stored : PaymentStatus) (eventType : JS.value)
  : PaymentStatus :=
  if (JS.is_str eventType "order.paid" || JS.is_str eventType "charge.paid")%bool
  then approved
  else if (JS.is_str eventType "order.payment_failed"
           || JS.is_str eventType "charge.payment_failed")%bool
  then rejected
  else if JS.is_str eventType "order.canceled" then rejected
  else if JS.is_str eventType "charge.refunded" then refunded
  else stored.

Definition webhook_pagarme (o : Outside) (req : Request) (w : World)
  : Response * World :=
  if (method req =? "OPTIONS")%string then (preflight, w)
  else
    try_catch
      (payload <- parse_body req ;;
       eventType <- eval (JS.get payload "type") ;;
       let data_ := JS.opt_get payload "data" in
       if negb (JS.truthy (JS.opt_get data_ "id")) then ret webhook_ok
       else if negb (includes pagarme_relevantEvents eventType) then ret webhook_ok
       else
         let orderId := JS.opt_get data_ "id" in
         text_of orderId ;;;
         rows <- select_payments (by_gateway_id orderId "pagarme") ;;
         match data (maybeSingle rows) with
         | None => ret webhook_ok
         | Some dbPayment =>
             apply_status o dbPayment
               (pagarme_status (Payment.status dbPayment) eventType) payload
         end)
      webhook_error w.

(** ** Asaas webhook (src/supabase/functions/webhook-pagarme/index.ts:231) *)

Definition asaas_paymentEvents : list string :=
  ["PAYMENT_CONFIRMED"; "PAYMENT_RECEIVED"; "PAYMENT_OVERDUE";
   "PAYMENT_DELETED"; "PAYMENT_REFUNDED"].

Definition asaas_status (stored : PaymentStatus) (event : JS.value)
  : PaymentStatus :=
  if (JS.is_str event "PAYMENT_CONFIRMED" || JS.is_str event "PAYMENT_RECEIVED")%bool
  then approved
  else if JS.is_str event "PAYMENT_OVERDUE" then expired
  else if JS.is_str event "PAYMENT_DELETED" then rejected
  else if JS.is_str event "PAYMENT_REFUNDED" then refunded
  else stored.

Definition webhook_asaas (o : Outside) (req : Request) (w : World)
  : Response * World :=
  if (method req =? "OPTIONS")%string then (preflight, w)
  else
    try_catch
      (payload <- parse_body req ;;
       event <- eval (JS.get payload "event") ;;
       let payment := JS.opt_get payload "payment" in
       if negb (JS.truthy (JS.opt_get payment "id")) then ret webhook_ok
       else if negb (includes asaas_paymentEvents event) then ret webhook_ok
       else
         text_of (JS.opt_get payment "id") ;;;
         rows <- select_payments (by_gateway_id (JS.opt_get payment "id") "asaas") ;;
         match data (maybeSingle rows) with
         | None => ret webhook_ok
         | Some dbPayment =>
             apply_status o dbPayment
               (asaas_status (Payment.status dbPayment) event) payload
         end)
      webhook_error w.

(** ** Mercado Pago: status vocabulary and webhook (src/unnamed/part_008) *)

(** The [switch (mpPayment.status)] of the webhook, which is also the one of
    [checkMercadoPagoStatus] up to its default case. *)
Definition mp_status (fallback : PaymentStatus) (native : JS.value)
  : PaymentStatus :=
  if JS.is_str native "approved" then approved
  else if (JS.is_str native "pending" || JS.is_str native "in_process"
           || JS.is_str native "authorized")%bool then pending
  else if (JS.is_str native "rejected" || JS.is_str native "cancelled")%bool
  then rejected
  else if (JS.is_str native "refunded" || JS.is_str native "charged_back")%bool
  then refunded
  else fallback.

(** [mpReply] is the parsed body of the provider's answer to
    [GET /v1/payments/:id]; [None] when [fetch] or [json()] rejects. *)
Definition webhook_mercadopago (o : Outside) (mpReply : option JS.value)
           (req : Request) (w : World) : Response * World :=
  if (method req =? "OPTIONS")%string then (preflight, w)
  else
    try_catch
      (payload <- parse_body req ;;
       type <- eval (JS.get payload "type") ;;
       if (negb (JS.is_str type "payment")
           && negb (JS.is_str (JS.opt_get payload "action") "payment.created")
           && negb (JS.is_str (JS.opt_get payload "action") "payment.updated"))%bool
       then ret webhook_ok
       else
         let paymentId := JS.opt_get (JS.opt_get payload "data") "id" in
         if negb (JS.truthy paymentId) then ret webhook_ok
         else
           text_of paymentId ;;;
           rows <- select_payments (by_gateway_id paymentId "mercado_pago") ;;
           match data (maybeSingle rows) with
           | None => ret webhook_ok
           | Some payment =>
               emit (GatewayRequest "mercado_pago") ;;;
               mpPayment <- eval (match mpReply with
                                  | Some v => Val v
                                  | None => Throw
                                  end) ;;
               native <- eval (JS.get mpPayment "status") ;;
               apply_status o payment
                 (mp_status (Payment.status payment) native) mpPayment
           end)
      webhook_error w.

(** ** payment-status: the polling entry (src/src/App.tsx:621) *)

(** [checkMercadoPagoStatus]: the whole body sits in a try/catch that
    answers pending. *)
Definition checkMercadoPagoStatus (reply : option JS.value) : M PaymentStatus :=
  emit (GatewayRequest "mercado_pago") ;;;
  ret (match reply with
       | None => pending
       | Some data_ =>
           match JS.get data_ "status" with
           | Throw => pending
           | Val native => mp_status pending native
           end
       end).

Definition asaas_live_status (native : JS.value) : PaymentStatus :=
  if (JS.is_str native "RECEIVED" || JS.is_str native "CONFIRMED")%bool
  then approved
  else if (JS.is_str native "PENDING"
           || JS.is_str native "AWAITING_RISK_ANALYSIS")%bool then pending
  else if JS.is_str native "OVERDUE" then expired
  else if (JS.is_str native "REFUNDED"
           || JS.is_str native "REFUND_REQUESTED")%bool then refunded
  else rejected.

Definition checkAsaasStatus (reply : option JS.value) : M PaymentStatus :=
  emit (GatewayRequest "asaas") ;;;
  ret (match reply with
       | None => pending
       | Some data_ =>
           match JS.get data_ "status" with
           | Throw => pending
           | Val native => asaas_live_status native
           end
       end).

Definition json_error (c : Z) (msg : string) : Response :=
  respond c (ErrorMessage msg).

(** [reply] is the parsed answer of the provider's status endpoint, should
    the handler ask for it.  [.eq('id', payment_id)] raises when
    [payment_id] does not convert to text; no payment id (a UUID) is the
    text of such a value, and the exception is raised here where the lookup
    has found no row. *)
Definition payment_status (clock : Z) (reply : option JS.value)
           (req : Request) (w : World) : Response * World :=
  if (method req =? "OPTIONS")%string then (preflight, w)
  else
    try_catch
      (payload <- parse_body req ;;
       payment_id <- eval (JS.get payload "payment_id") ;;
       if negb (JS.truthy payment_id)
       then ret (json_error 400 "payment_id e obrigatorio")
       else
         rows <- select_payments
                   (fun p => (Payment.id p =? JS.to_string payment_id)%string) ;;
         match data (single rows) with
         | None =>
             text_of payment_id ;;;
             ret (json_error 404 "Pagamento nao encontrado")
         | Some payment =>
             if status_eqb (Payment.status payment) approved
             then ret (respond 200 (StatusPaid approved (Payment.paid_at payment)))
             else if (status_eqb (Payment.status payment) expired
                      || status_eqb (Payment.status payment) rejected)%bool
             then ret (respond 200 (StatusOnly (Payment.status payment)))
             else
               srows <- select_settings
                          (fun s => (Settings.owner_id s =? Payment.owner_id payment)%string) ;;
               match data (single srows) with
               | None => ret (respond 200 (StatusOnly (Payment.status payment)))
               | Some settings =>
                   gatewayStatus <-
                     (if (Settings.active_gateway settings =? "mercado_pago")%string
                      then checkMercadoPagoStatus reply
                      else if (Settings.active_gateway settings =? "asaas")%string
                      then checkAsaasStatus reply
                      else ret (Payment.status payment)) ;;
                   (if negb (status_eqb gatewayStatus (Payment.status payment))
                    then write_status (JS.to_string payment_id) gatewayStatus
                                      None clock
                    else ret tt) ;;;
                   ret (respond 200
                          (StatusPaid gatewayStatus
                             (if status_eqb gatewayStatus approved
                              then Some clock else None)))
               end
         end)
      (json_error 500 "Erro interno do servidor") w.

(** ** payment-create: the orchestrator (src/src/App.tsx:833) *)

Module Customer.
Record t : Type := mk {
  name : string;
  email : string;
  phone : option string;
  cpf : string
}.
End Customer.

Module Card.
Record t : Type := mk {
  number : string;
  holder_name : string;
  exp_month : Z;
  exp_year : Z;
  cvv : string;
  installments : Z
}.
End Card.

(** [RequestBody]; the fields the handler tests for presence are options. *)
Record RequestBody : Type := {
  owner_id : option string;
  plan_id : option string;
  payment_method : option PaymentMethod;
  customer : option Customer.t;
  card : option Card.t
}.

Record CreateRequest : Type := {
  create_method : string;
  create_body : option RequestBody      (* [None]: [req.json()] rejects *)
}.

(** What an adapter returns: [{ error }] or the charge data. *)
Inductive PaymentResult : Type :=
| Failed (error_message : string)
| Charged (gateway_payment_id : string) (status : PaymentStatus)
          (fields : MethodFields) (brand : option string).

(** The provider's side of an adapter's HTTP exchange (customer creation,
    tokenisation, charge and QR-code requests taken together): either the
    adapter ends up with an error message (never empty: each adapter falls
    back to a fixed text), or the provider created the charge and reported
    a native status. *)
Inductive Exchange : Type :=
| Refused (message : string)
| Accepted (external_id : string) (native_status : JS.value)
           (fields : MethodFields) (brand : option string).

Definition mapMPStatus (native : JS.value) : PaymentStatus :=
  if JS.is_str native "approved" then approved
  else if (JS.is_str native "pending" || JS.is_str native "in_process"
           || JS.is_str native "authorized")%bool then pending
  else if (JS.is_str native "rejected" || JS.is_str native "cancelled")%bool
  then rejected
  else pending.

Definition mapAsaasStatus (native : JS.value) : PaymentStatus :=
  if (JS.is_str native "RECEIVED" || JS.is_str native "CONFIRMED")%bool
  then approved
  else if (JS.is_str native "PENDING"
           || JS.is_str native "AWAITING_RISK_ANALYSIS")%bool then pending
  else if JS.is_str native "OVERDUE" then expired
  else rejected.

Definition mapPagarmeStatus (native : JS.value) : PaymentStatus :=
  if JS.is_str native "paid" then approved
  else if JS.is_str native "pending" then pending
  else if (JS.is_str native "canceled" || JS.is_str native "failed")%bool
  then rejected
  else pending.

(** An adapter: the credentials test, then the exchange with the provider. *)
Definition adapter (gateway : string) (credentials : bool) (missing : string)
           (map_status : JS.value -> PaymentStatus) (x : Exchange)
  : M PaymentResult :=
  if negb credentials then ret (Failed missing)
  else
    emit (GatewayRequest gateway) ;;;
    ret (match x with
         | Refused message => Failed message
         | Accepted ext native fields brand =>
             Charged ext (map_status native) fields brand
         end).

Definition createMercadoPagoPayment (settings : Settings.t) (x : Exchange)
  : M PaymentResult :=
  adapter "mercado_pago" (present (Settings.mp_access_token settings))
          "Credenciais do Mercado Pago nao configuradas" mapMPStatus x.

Definition createAsaasPayment (settings : Settings.t) (x : Exchange)
  : M PaymentResult :=
  adapter "asaas" (present (Settings.asaas_api_key settings))
          "Credenciais do Asaas nao configuradas" mapAsaasStatus x.

(** PagSeguro reports pending unless a card charge comes back PAID. *)
Definition createPagSeguroPayment (settings : Settings.t)
           (m : PaymentMethod) (x : Exchange) : M PaymentResult :=
  adapter "pagseguro"
          (present (Settings.ps_token settings)
           && present (Settings.ps_email settings))%bool
          "Credenciais do PagSeguro nao configuradas"
          (fun native =>
             if (method_eqb m credit_card && JS.is_str native "PAID")%bool
             then approved else pending) x.

Definition createPagarmePayment (settings : Settings.t) (x : Exchange)
  : M PaymentResult :=
  adapter "pagarme" (present (Settings.pm_api_key settings))
          "Credenciais do Pagar.me nao configuradas" mapPagarmeStatus x.

(** [s.slice(-4)] *)
Definition last4 (s : string) : string :=
  substring (String.length s - 4) 4 s.

(** What payment-create obtains from outside; [toLowerCase] is the
    runtime's [String.prototype.toLowerCase], a mapping over all of
    Unicode. *)
Record CreateOutside : Type := {
  outside : Outside;
  exchange : Exchange;
  inserted_id : option string;    (* id given to the new row; [None]: the insert fails *)
  toLowerCase : string -> string
}.

Definition bad_request (msg : string) : Response := respond 400 (ErrorMessage msg).

Definition method_enabled (m : PaymentMethod) (settings : Settings.t) : bool :=
  match m with
  | pix => Settings.pix_enabled settings
  | boleto => Settings.boleto_enabled settings
  | credit_card => Settings.credit_card_enabled settings
  end.

Definition method_disabled_message (m : PaymentMethod) : string :=
  match m with
  | pix => "PIX nao esta habilitado"
  | boleto => "Boleto nao esta habilitado"
  | credit_card => "Cartao de credito nao esta habilitado"
  end.

(** [existingClient?.id || null] *)
Definition existing_client_id (existingClient : option Profile.t) : option string :=
  match existingClient with
  | Some p => if (Profile.id p =? "")%string then None else Some (Profile.id p)
  | None => None
  end.

Definition new_payment (o : CreateOutside) (row_id owner plan_ref : string)
           (plan : Plan.t) (settings : Settings.t) (m : PaymentMethod)
           (c : Customer.t) (card_ : option Card.t)
           (existingClient : option Profile.t)
           (ext : string) (s : PaymentStatus) (fields : MethodFields)
           (brand : option string) : Payment.t :=
  Payment.mk row_id owner (existing_client_id existingClient) plan_ref
    (Settings.active_gateway settings) (Some ext) (Plan.price_cents plan) m s
    (toLowerCase o (Customer.email c)) (Customer.name c) (Customer.phone c)
    (Customer.cpf c) fields
    (match card_ with Some k => Some (last4 (Card.number k)) | None => None end)
    brand
    (match card_ with
     | Some k => if Card.installments k =? 0 then 1 else Card.installments k
     | None => 1
     end)
    (if status_eqb s approved then Some (now (outside o)) else None)
    None.

(** The [switch (settings.active_gateway)]: the adapter to call, or [None]
    for the default case. *)
Definition select_adapter (settings : Settings.t) (m : PaymentMethod)
           (x : Exchange) : option (M PaymentResult) :=
  let gw := Settings.active_gateway settings in
  if (gw =? "mercado_pago")%string then Some (createMercadoPagoPayment settings x)
  else if (gw =? "asaas")%string then Some (createAsaasPayment settings x)
  else if (gw =? "pagseguro")%string then Some (createPagSeguroPayment settings m x)
  else if (gw =? "pagarme")%string then Some (createPagarmePayment settings x)
  else None.

Definition payment_create (o : CreateOutside) (req : CreateRequest) (w : World)
  : Response * World :=
  if (create_method req =? "OPTIONS")%string then (preflight, w)
  else
    try_catch
      (payload <- eval (match create_body req with
                        | Some b => Val b
                        | None => Throw
                        end) ;;
       match owner_id payload, plan_id payload,
             payment_method payload, customer payload with
       | Some owner, Some plan_ref, Some m, Some c =>
         if ((owner =? "") || (plan_ref =? ""))%string%bool
         then ret (bad_request "Dados incompletos")
         else if (method_eqb m credit_card
                  && match card payload with Some _ => false | None => true end)%bool
         then ret (bad_request "Dados do cartao sao obrigatorios")
         else
           srows <- select_settings (fun s => (Settings.owner_id s =? owner)%string) ;;
           match data (single srows) with
           | None => ret (bad_request "Configuracoes de pagamento nao encontradas")
           | Some settings =>
             if negb (method_enabled m settings)
             then ret (bad_request (method_disabled_message m))
             else
               prows <- select_plans
                          (fun p => ((Plan.id p =? plan_ref)%string
                                     && Plan.is_active p)%bool) ;;
               match data (single prows) with
               | None => ret (bad_request "Plano nao encontrado")
               | Some plan =>
                 crows <- select_profiles
                            (fun p => opt_str_eqb (Profile.email p)
                                        (toLowerCase o (Customer.email c))) ;;
                 let existingClient := data (maybeSingle crows) in
                 match select_adapter settings m (exchange o) with
                 | None => ret (bad_request "Gateway nao configurado")
                 | Some call =>
                   paymentResult <- call ;;
                   match paymentResult with
                   | Failed msg => ret (bad_request msg)
                   | Charged ext s fields brand =>
                     match inserted_id o with
                     | None =>
                         ret (respond 500 (ErrorMessage "Erro ao registrar pagamento"))
                     | Some row_id =>
                       let payment :=
                         new_payment o row_id owner plan_ref plan settings m c
                                     (card payload) existingClient ext s fields brand in
                       emit (PaymentInsert payment) ;;;
                       insert_payment payment ;;;
                       (if (method_eqb m credit_card && status_eqb s approved)%bool
                        then handlePaymentApproved_create (outside o) payment plan
                        else ret tt) ;;;
                       ret (respond 200 (Created row_id s fields))
                     end
                   end
                 end
               end
           end
       | _, _, _, _ => ret (bad_request "Dados incompletos")
       end)
      (respond 500 (ErrorMessage "Erro interno do servidor")) w.

(** * Vocabulary of the statements *)

(** What a renewal must have done to an account, for a plan of [D] days
    bought on calendar day [today]. *)
Definition renewed (today D : Z) (before after : Profile.t) : Prop :=
  Profile.is_active after = true /\
  Profile.id after = Profile.id before /\
  (forall e, Profile.plan_end_date before = Some e -> today < e ->
             Profile.plan_end_date after = Some (e + D)) /\
  (forall e, Profile.plan_end_date before = Some e -> e <= today ->
             Profile.plan_end_date after = Some (today + D)) /\
  (Profile.plan_end_date before = None ->
   Profile.plan_end_date after = Some (today + D)).

(** The dates of a renewal are dates a [Date] can hold: today, the end
    date the account has, and the new end date. *)
Definition representable (today D : Z) (account : Profile.t) : Prop :=
  JSDate.valid today = true /\
  (forall e, Profile.plan_end_date account = Some e ->
             JSDate.valid (JSDate.of_date e) = true) /\
  JSDate.valid (newEndDate today D (Some account)) = true.

(** Classes of trace events. *)
Definition is_status_write (e : Event) : bool :=
  match e with StatusWrite _ _ => true | _ => false end.

Definition is_provisioning (e : Event) : bool :=
  match e with ProvisioningCall _ => true | _ => false end.

Definition is_gateway_request (e : Event) : bool :=
  match e with GatewayRequest _ => true | _ => false end.

Definition is_payment_insert (e : Event) : bool :=
  match e with PaymentInsert _ => true | _ => false end.

(** The events [handlePaymentApproved] produces after its entry. *)
Definition provisioning_detail (e : Event) : bool :=
  match e with
  | ClientLink _ _ | ProfileUpdate _ | UserCreate _ | ProfileInsert _
  | EmailSend _ => true
  | _ => false
  end.

Definition count (f : Event -> bool) (events : list Event) : nat :=
  List.length (filter f events).

(** The status a poll response reports. *)
Definition reported_status (c : Content) : option PaymentStatus :=
  match c with
  | StatusOnly s | StatusPaid s _ => Some s
  | _ => None
  end.


(** The world with more events in its trace and the same tables. *)
Definition with_events (events : list Event) (w : World) : World :=
  {| payments := payments w; profiles := profiles w; plans := plans w;
     payment_settings := payment_settings w;
     trace := trace w ++ events |}.

(** The four webhook receivers, with the field that names the payment, the
    guard a notification must pass to be processed, the candidate status
    and what is stored as webhook_data.  The Mercado Pago receiver comes
    with the answer of the provider, which it asks for the payment. *)
Inductive Receiver : Type :=
| PagSeguro
| PagarMe
| Asaas
| MercadoPago (mpReply : option JS.value).

Definition receiver (R : Receiver) : Outside -> Request -> World -> Response * World :=
  match R with
  | PagSeguro => webhook_pagseguro
  | PagarMe => webhook_pagarme
  | Asaas => webhook_asaas
  | MercadoPago mpReply => fun o => webhook_mercadopago o mpReply
  end.

Definition gateway_of (R : Receiver) : string :=
  match R with
  | PagSeguro => "pagseguro"
  | PagarMe => "pagarme"
  | Asaas => "asaas"
  | MercadoPago _ => "mercado_pago"
  end.

Definition payment_key (R : Receiver) (payload : JS.value) : JS.value :=
  match R with
  | PagSeguro => JS.opt_get payload "id"
  | PagarMe => JS.opt_get (JS.opt_get payload "data") "id"
  | Asaas => JS.opt_get (JS.opt_get payload "payment") "id"
  | MercadoPago _ => JS.opt_get (JS.opt_get payload "data") "id"
  end.

(** The notification passes the type/action test of the Mercado Pago
    receiver. *)
Definition mp_relevant (payload : JS.value) : bool :=
  (JS.is_str (JS.opt_get payload "type") "payment"
   || JS.is_str (JS.opt_get payload "action") "payment.created"
   || JS.is_str (JS.opt_get payload "action") "payment.updated")%bool.

Definition event_accepted (R : Receiver) (payload : JS.value) : bool :=
  match R with
  | PagSeguro => true
  | PagarMe => includes pagarme_relevantEvents (JS.opt_get payload "type")
  | Asaas => includes asaas_paymentEvents (JS.opt_get payload "event")
  | MercadoPago _ => mp_relevant payload
  end.

(** [null] and [undefined], of which no property can be read. *)
Definition nullish (v : JS.value) : bool :=
  match v with
  | JS.Null | JS.Undefined => true
  | _ => false
  end.

Definition asks_provider (R : Receiver) : bool :=
  match R with
  | MercadoPago _ => true
  | _ => false
  end.

(** The world once the receiver has asked the provider, if it does. *)
Definition asked (R : Receiver) (w : World) : World :=
  if asks_provider R then with_events [GatewayRequest (gateway_of R)] w else w.

Definition candidate_of (R : Receiver) (payload : JS.value)
           (stored : PaymentStatus) : outcome PaymentStatus :=
  match R with
  | PagSeguro => pagseguro_status stored payload
  | PagarMe => Val (pagarme_status stored (JS.opt_get payload "type"))
  | Asaas => Val (asaas_status stored (JS.opt_get payload "event"))
  | MercadoPago (Some mpPayment) =>
      match JS.get mpPayment "status" with
      | Val native => Val (mp_status stored native)
      | Throw => Throw
      end
  | MercadoPago None => Throw
  end.

(** What the receiver stores as webhook_data. *)
Definition hook_of (R : Receiver) (payload : JS.value) : JS.value :=
  match R with
  | MercadoPago (Some mpPayment) => mpPayment
  | _ => payload
  end.

(** The core the webhook receivers share once a notification has named a
    payment by [key]: convert the key, find the row, ask the provider if
    the receiver does, compute the candidate status from the stored one,
    apply it.  The receivers are shown below to be instances of it. *)
Definition reconcile (R : Receiver) (payload : JS.value) (o : Outside)
           (w : World) : Response * World :=
  let key := payment_key R payload in
  if negb (JS.converts key) then (webhook_error, w)
  else
    match data (maybeSingle (filter (by_gateway_id key (gateway_of R))
                                    (payments w))) with
    | None => (webhook_ok, w)
    | Some dbPayment =>
        match candidate_of R payload (Payment.status dbPayment) with
        | Throw => (webhook_error, asked R w)
        | Val newStatus =>
            try_catch (apply_status o dbPayment newStatus (hook_of R payload))
                      webhook_error (asked R w)
        end
    end.

(** The world once the status [s] of [dbPayment] has been written. *)
Definition status_written (o : Outside) (dbPayment : Payment.t)
           (s : PaymentStatus) (hook : JS.value) (w : World) : World :=
  {| payments := update_where Payment.id (Payment.id dbPayment)
                   (Payment.set_status s (Some hook) (now o)) (payments w);
     profiles := profiles w;
     plans := plans w;
     payment_settings := payment_settings w;
     trace := trace w ++ [StatusWrite (Payment.id dbPayment) s] |}.

(** The tables are the same and the trace has gained nothing but requests
    to a provider. *)
Definition quiet (before after : World) : Prop :=
  payments after = payments before /\
  profiles after = profiles before /\
  plans after = plans before /\
  payment_settings after = payment_settings before /\
  exists events,
    trace after = (trace before ++ events)%list /\
    forallb is_gateway_request events = true.

(** The preconditions of payment-create that precede the gateway call. *)
Inductive Precondition : Type :=
| MethodEnabled | PlanActive | GatewayConfigured.

(** The plan exists and is active: the query of payment-create, which is
    [.single()], finds it. *)
Definition plan_available (w : World) (plan_ref : string) : Prop :=
  exists plan,
    filter (fun p => ((Plan.id p =? plan_ref)%string && Plan.is_active p)%bool)
           (plans w) = [plan].

Definition gateway_configured (settings : Settings.t) : Prop :=
  In (Settings.active_gateway settings)
     ["mercado_pago"; "asaas"; "pagseguro"; "pagarme"].

Definition violated (p : Precondition) (w : World) (settings : Settings.t)
           (m : PaymentMethod) (plan_ref : string) : Prop :=
  match p with
  | MethodEnabled => method_enabled m settings = false
  | PlanActive => ~ plan_available w plan_ref
  | GatewayConfigured => ~ gateway_configured settings
  end.

(** The message that names an unmet precondition. *)
Definition validation_error (p : Precondition) (m : PaymentMethod) : string :=
  match p with
  | MethodEnabled => method_disabled_message m
  | PlanActive => "Plano nao encontrado"
  | GatewayConfigured => "Gateway nao configurado"
  end.

(** The filter of the [existingClient] query of payment-create. *)
Definition has_email_of (o : CreateOutside) (c : Customer.t) (p : Profile.t)
  : bool :=
  opt_str_eqb (Profile.email p) (toLowerCase o (Customer.email c)).

(** What a payment row says about the charge itself: every column but
    status, paid_at, webhook_data and client_id. *)
Definition charge_of (p : Payment.t)
  : string * string * string * string * option string * Z * PaymentMethod
    * (string * string * option string * string)
    * (MethodFields * option string * option string * Z) :=
  (Payment.id p, Payment.owner_id p, Payment.plan_id p, Payment.gateway p,
   Payment.gateway_payment_id p, Payment.amount_cents p,
   Payment.payment_method p,
   (Payment.customer_email p, Payment.customer_name p,
    Payment.customer_phone p, Payment.customer_cpf p),
   (Payment.method_fields p, Payment.card_last_digits p,
    Payment.card_brand p, Payment.installments p)).

(** [w'] has the same payments as [w] as far as the charges go, and the
    same plans and settings. *)
Definition same_charges (w w' : World) : Prop :=
  map charge_of (payments w') = map charge_of (payments w) /\
  plans w' = plans w /\
  payment_settings w' = payment_settings w.

(** The world after [handlePaymentApproved] has created an account for the
    customer of [payment]: one more profile, valid from today for the
    plan's duration, the payment linked to it, and the five trace events in
    the order of the calls. *)
Definition with_new_account (o : Outside) (user : string) (payment : Payment.t)
           (plan : Plan.t) (w : World) : World :=
  {| payments := update_where Payment.id (Payment.id payment)
                   (Payment.set_client user) (payments w);
     profiles := profiles w
                 ++ [Profile.mk user "client" (Payment.customer_name payment)
                       (Some (Payment.customer_email payment))
                       (Payment.customer_phone payment)
                       (Some (JSDate.iso_date (now o)))
                       (Some (JSDate.iso_date (now o) + Plan.duration_days plan))
                       true];
     plans := plans w;
     payment_settings := payment_settings w;
     trace := trace w
              ++ [ProvisioningCall (Payment.id payment);
                  UserCreate (Payment.customer_email payment);
                  ProfileInsert user;
                  ClientLink (Payment.id payment) user;
                  EmailSend (Payment.customer_email payment)] |}.

Definition is_email (e : Event) : bool :=
  match e with EmailSend _ => true | _ => false end.

Definition is_profile_insert (e : Event) : bool :=
  match e with ProfileInsert _ => true | _ => false end.

(** The status a payment-create response reports. *)
Definition created_status (c : Content) : option PaymentStatus :=
  match c with
  | Created _ s _ => Some s
  | _ => None
  end.

Definition created_id (c : Content) : option string :=
  match c with
  | Created row _ _ => Some row
  | _ => None
  end.

(** * Sample data for the scenarios *)

Module Sample.

Definition today : Z := 20000.                       (* a calendar day *)
Definition clock : Z := today * JSDate.ms_per_day + 36000000.   (* 10:00 UTC *)

Definition env : Outside :=
  {| now := clock; password := "Xk3mP9qA"; created_user := Some "user_new" |}.

Definition no_fields : MethodFields :=
  {| pix_qr_code := None; pix_qr_code_base64 := None; pix_expiration := None;
     boleto_url := None; boleto_barcode := None; boleto_expiration := None |}.

Definition plan30 : Plan.t := Plan.mk "plan_30" "Plano Mensal" 30 9900 true.

(** Settings of the owner: every credential present, credit card disabled. *)
Definition settings (gateway : string) : Settings.t :=
  Settings.mk "owner_1" gateway (Some "mp-token") (Some "asaas-key")
              (Some "owner@example.com") (Some "ps-token") (Some "pm-key")
              true true false.

Definition payment (gateway : string) (s : PaymentStatus)
           (client : option string) : Payment.t :=
  Payment.mk "pay_1" "owner_1" client "plan_30" gateway (Some "ext_1") 9900
             pix s "ana@example.com" "Ana" None "12345678900" no_fields
             None None 1
             (if status_eqb s approved then Some (clock - 1000) else None)
             None.

Definition account (end_date : option Z) : Profile.t :=
  Profile.mk "client_1" "client" "Ana" (Some "ana@example.com") None
             (Some (today - 20)) end_date true.

Definition world (gateway : string) (s : PaymentStatus)
           (client : option string) (accounts : list Profile.t) : World :=
  {| payments := [payment gateway s client];
     profiles := accounts;
     plans := [plan30];
     payment_settings := [settings gateway];
     trace := [] |}.

Definition post (payload : JS.value) : Request :=
  {| method := "POST"; body := Some payload |}.

Definition unparseable : Request := {| method := "POST"; body := None |}.

Definition asaas_event (event : string) : Request :=
  post (JS.Obj [("event", JS.Str event);
                ("payment", JS.Obj [("id", JS.Str "ext_1")])]).

Definition pagarme_event (event : string) : Request :=
  post (JS.Obj [("type", JS.Str event);
                ("data", JS.Obj [("id", JS.Str "ext_1")])]).

Definition pagseguro_charge (charge_status : string) : Request :=
  post (JS.Obj [("id", JS.Str "ext_1");
                ("charges", JS.Arr [JS.Obj [("status", JS.Str charge_status)]])]).

Definition mp_notification : Request :=
  post (JS.Obj [("type", JS.Str "payment");
                ("data", JS.Obj [("id", JS.Str "ext_1")])]).

Definition poll : Request :=
  post (JS.Obj [("payment_id", JS.Str "pay_1")]).

Definition live (native : string) : option JS.value :=
  Some (JS.Obj [("status", JS.Str native)]).

Definition ana : Customer.t :=
  Customer.mk "Ana" "Ana@Example.com" None "12345678900".

Definition visa : Card.t := Card.mk "4111111111111111" "ANA" 12 2030 "123" 1.

Definition checkout (m : PaymentMethod) (card_ : option Card.t) : CreateRequest :=
  {| create_method := "POST";
     create_body := Some {| owner_id := Some "owner_1";
                            plan_id := Some "plan_30";
                            payment_method := Some m;
                            customer := Some ana;
                            card := card_ |} |}.

Definition create_outside (x : Exchange) : CreateOutside :=
  {| outside := env; exchange := x; inserted_id := Some "pay_2";
     toLowerCase := JS.toLowerCase |}.

End Sample.

(** * More of the code

    The rest of the files around the payment core: the password generator
    of the provisioning routine, the pieces of the gateway adapters that
    split the customer's name and phone, the send-email function, the route
    guard of the client area and the helpers of the checkout page. *)

(** ** generatePassword (src/src/App.tsx:1729 and the webhook copies) *)

Definition chars : string :=
  "ABCDEFGHJKLMNPQRSTUVWXYZabcdefghjkmnpqrstuvwxyz23456789".

(** [s.charAt(i)]: the empty string out of range. *)
Definition charAt (s : string) (i : Z) : string :=
  if i <? 0 then ""
  else match String.get (Z.to_nat i) s with
       | Some c => String c EmptyString
       | None => ""
       end.

(** Doubles between 0 and 1 are whole multiples of 2^-1074.  A value of
    [Math.random()] is given by its number of such steps: [one_in_steps] is
    the number 1 and [below_one], which is 1 - 2^-53, the largest double
    below it. *)
Definition one_in_steps : Z := 2 ^ 1074.
Definition below_one : Z := 2 ^ 1074 - 2 ^ 1021.

(** [Math.floor(r * chars.length)] for the double of [r] steps: the
    product is rounded to a double, then floored. *)
Definition random_index (r : Z) : Z :=
  JS.to_double (r * Z.of_nat (String.length chars)) / one_in_steps.

(** The loop of [generatePassword] from iteration [i] on, [steps] iterations
    to go; [random k] is the value of the k-th call of [Math.random()], in
    steps of 2^-1074. *)
Fixpoint generatePassword_loop (random : nat -> Z) (i steps : nat)
         (password : string) : string :=
  match steps with
  | O => password
  | S steps' =>
      generatePassword_loop random (S i) steps'
        (password ++ charAt chars (random_index (random i)))
  end.

Definition generatePassword (random : nat -> Z) : string :=
  generatePassword_loop random 0 8 "".

(** The characters the alphabet leaves out because they look alike. *)
Definition look_alike : string := "0O1lIio".

Definition occurs (c : ascii) (s : string) : bool :=
  existsb (Ascii.eqb c) (list_ascii_of_string s).

(** ** Strings: digits, split and slice *)

Definition is_digit (c : ascii) : bool :=
  (Nat.leb 48 (nat_of_ascii c) && Nat.leb (nat_of_ascii c) 57)%bool.

(** [s.replace(/\D/g, '')] *)
Fixpoint digitsOnly (s : string) : string :=
  match s with
  | EmptyString => EmptyString
  | String c rest =>
      if is_digit c then String c (digitsOnly rest) else digitsOnly rest
  end.

(** [s.split(sep)] for a one-character separator: never an empty list. *)
Fixpoint split (sep : ascii) (s : string) : list string :=
  match s with
  | EmptyString => [EmptyString]
  | String c rest =>
      if Ascii.eqb c sep then EmptyString :: split sep rest
      else match split sep rest with
           | piece :: pieces => String c piece :: pieces
           | [] => [String c EmptyString]
           end
  end.

(** [s.slice(from)] and [s.slice(0, to)] for indices that are not negative. *)
Definition slice_from (from : nat) (s : string) : string :=
  substring from (String.length s - from) s.

Definition slice_to (to : nat) (s : string) : string := substring 0 to s.

(** ** Pieces of the gateway adapters

    The payer of a Mercado Pago charge (src/src/App.tsx:1031-1034). *)

Definition mp_first_name (name : string) : string :=
  hd EmptyString (split " " name).

Definition mp_last_name (name : string) : string :=
  let rest := JS.join_with " " (tl (split " " name)) in
  if (rest =? "")%string then name else rest.

(** The phone of a PagSeguro order (src/src/App.tsx:1328-1333) and of a
    Pagar.me customer (src/src/App.tsx:1469-1475): area code and number. *)
Definition pagseguro_phone (phone : string) : string * string :=
  (slice_to 2 phone, slice_from 2 phone).

Definition pagarme_phone (phone : string) : string * string :=
  (slice_to 2 (digitsOnly phone), slice_from 2 (digitsOnly phone)).

(** ** send-email (src/src/App.tsx:370) *)

(** An email body: the template and the values interpolated into it. *)
Inductive Html : Type :=
| WelcomeHtml (name planName email password_ planEndDate : string)
| RenewalHtml (name planName planEndDate : string)
| ExpiringHtml (name planName planEndDate : string).

Definition interpolate (data_ : JS.value) (k : string) : outcome string :=
  match JS.get data_ k with
  | Val v => Val (JS.to_string v)
  | Throw => Throw
  end.

Definition getWelcomeEmailHtml (data_ : JS.value) : outcome Html :=
  match interpolate data_ "name", interpolate data_ "planName",
        interpolate data_ "email", interpolate data_ "password",
        interpolate data_ "planEndDate" with
  | Val n, Val p, Val e, Val pw, Val d => Val (WelcomeHtml n p e pw d)
  | _, _, _, _, _ => Throw
  end.

Definition getRenewalEmailHtml (data_ : JS.value) : outcome Html :=
  match interpolate data_ "name", interpolate data_ "planName",
        interpolate data_ "planEndDate" with
  | Val n, Val p, Val d => Val (RenewalHtml n p d)
  | _, _, _ => Throw
  end.

Definition getExpiringEmailHtml (data_ : JS.value) : outcome Html :=
  match interpolate data_ "name", interpolate data_ "planName",
        interpolate data_ "planEndDate" with
  | Val n, Val p, Val d => Val (ExpiringHtml n p d)
  | _, _, _ => Throw
  end.

(** The request to the mail provider. *)
Record Mail : Type := { recipient : JS.value; subject : string; html : Html }.

(** The provider's answer: [response.ok] and the parsed body. *)
Record MailReply : Type := { ok : bool; result : JS.value }.

Inductive MailContent : Type :=
| MailText (s : string)
| MailError (msg : string)            (* { error } *)
| MailSent (id : JS.value).           (* { success: true, id } *)

Record MailResponse : Type := { mail_code : Z; mail_content : MailContent }.

(** The subject and body of the [switch (type)]; [None] for its default
    case. *)
Definition compose (type data_ : JS.value) : option (string * outcome Html) :=
  if JS.is_str type "welcome"
  then Some ("Bem-vindo! Suas credenciais de acesso", getWelcomeEmailHtml data_)
  else if JS.is_str type "renewal"
  then Some ("Plano renovado com sucesso!", getRenewalEmailHtml data_)
  else if JS.is_str type "expiring"
  then Some ("Seu plano esta expirando", getExpiringEmailHtml data_)
  else None.

(** The handler answers and says which mail, if any, it handed to the
    provider.  [resendApiKey] is the environment variable; [reply] is the
    provider's answer, [None] when [fetch] or [json()] rejects. *)
Definition send_email (resendApiKey : option string) (reply : option MailReply)
           (req : Request) : MailResponse * option Mail :=
  let internal := {| mail_code := 500;
                     mail_content := MailError "Erro interno do servidor" |} in
  if (method req =? "OPTIONS")%string
  then ({| mail_code := 200; mail_content := MailText "ok" |}, None)
  else if negb (present resendApiKey)
  then ({| mail_code := 500;
           mail_content := MailError "Email service not configured" |}, None)
  else
    match body req with
    | None => (internal, None)
    | Some payload =>
        match JS.get payload "type" with
        | Throw => (internal, None)
        | Val type =>
            match compose type (JS.opt_get payload "data") with
            | None => ({| mail_code := 400;
                          mail_content := MailError "Tipo de email invalido" |},
                       None)
            | Some (_, Throw) => (internal, None)
            | Some (subject_, Val html_) =>
                let mail := {| recipient := JS.opt_get payload "to";
                               subject := subject_; html := html_ |} in
                match reply with
                | None => (internal, Some mail)
                | Some r =>
                    if negb (ok r)
                    then ({| mail_code := 500;
                             mail_content := MailError "Erro ao enviar email" |},
                          Some mail)
                    else match JS.get (result r) "id" with
                         | Throw => (internal, Some mail)
                         | Val id => ({| mail_code := 200;
                                         mail_content := MailSent id |},
                                      Some mail)
                         end
                end
            end
        end
    end.

(** ** The route guard of the client area (src/src/App.tsx:29-108) *)

(** [now] is [Date.now()], [timezoneOffset] is [getTimezoneOffset()], in
    minutes. *)
Definition getBrasiliaDate (now timezoneOffset : Z) : Z :=
  let brasiliaOffset := -3 * 60 in
  let utc := now + timezoneOffset * 60000 in
  let brasiliaTime := utc + brasiliaOffset * 60000 in
  JSDate.iso_date brasiliaTime.

(** [Math.ceil(a / b)] for integers [a] and [b > 0]. *)
Definition ceil_div (a b : Z) : Z := - ((- a) / b).

Record PlanStatus : Type := {
  isExpired : bool;
  daysRemaining : option Z;
  planEndDate : option Z
}.

Definition planStatus (now timezoneOffset : Z) (plan_end_date : option Z)
  : PlanStatus :=
  match plan_end_date with
  | None => {| isExpired := false; daysRemaining := None; planEndDate := None |}
  | Some e =>
      let today := JSDate.of_date (getBrasiliaDate now timezoneOffset) in
      let endDate := JSDate.of_date e in
      let days := ceil_div (endDate - today) (1000 * 60 * 60 * 24) in
      {| isExpired := days <? 0;
         daysRemaining := Some (Z.max 0 days);
         planEndDate := Some e |}
  end.

Inductive Screen : Type :=
| Loading
| Navigate (to : string)
| PlanExpiredScreen (planEndDate_ : option Z)
| Page (banner : option Z).          (* the children, under the banner if any *)

Definition ClientRoute (loading user isAdmin : bool) (pathname : string)
           (now timezoneOffset : Z) (plan_end_date : option Z) : Screen :=
  let status := planStatus now timezoneOffset plan_end_date in
  if loading then Loading
  else if negb user then Navigate "/login"
  else if isAdmin then Navigate "/admin"
  else
    let isProfilePage := (pathname =? "/app/perfil")%string in
    if (isExpired status && negb isProfilePage)%bool
    then PlanExpiredScreen (planEndDate status)
    else
      Page (match daysRemaining status with
            | Some d => if ((d <=? 7) && (0 <? d))%bool then Some d else None
            | None => None
            end).

(** ** Helpers of the checkout page (src/src/pages/public/CheckoutPage.tsx) *)

Definition starts_with_any (prefixes : list string) (s : string) : bool :=
  existsb (fun p => String.prefix p s) prefixes.

Definition elo_prefixes : list string :=
  ["636368"; "438935"; "504175"; "451416"; "636297"; "5067"; "4576"; "4011";
   "506699"].

(** [getCardBrand] (lines 364-372); each regular expression is an anchored
    alternative of prefixes. *)
Definition getCardBrand (number : string) : option string :=
  let cleanNumber := digitsOnly number in
  if starts_with_any ["4"] cleanNumber then Some "Visa"
  else if starts_with_any ["51"; "52"; "53"; "54"; "55"] cleanNumber
  then Some "Mastercard"
  else if starts_with_any elo_prefixes cleanNumber then Some "Elo"
  else if starts_with_any ["34"; "37"] cleanNumber then Some "Amex"
  else if starts_with_any ["6011"; "65"; "644"; "645"; "646"; "647"; "648";
                           "649"; "622"] cleanNumber
  then Some "Discover"
  else None.

(** [installmentOptions] (lines 375-387) for a selected plan: the numbers
    of installments on offer (the labels are left out).  The quotient is
    taken exactly; for a price in whole cents the double-precision quotient
    of the source lies on the same side of 5. *)
Definition installmentOptions (price_cents : Z) : list Z :=
  filter
    (fun n =>
       let installmentValue := (inject_Z price_cents / inject_Z n / 100)%Q in
       Qle_bool 5 installmentValue)       (* not [installmentValue < 5] *)
    [1; 2; 3; 4; 5; 6; 7; 8; 9; 10; 11; 12].

(** ** Vocabulary of the theorems on the added code *)

(** A charge of a PagSeguro notification whose status is one of [lits]. *)
Definition charge_is (lits : list string) (charge : JS.value) : bool :=
  match JS.get charge "status" with
  | Val s => includes lits s
  | Throw => false
  end.

(** [body.qr_codes?.[0]?.status === 'PAID'] *)
Definition qr_paid (payload : JS.value) : bool :=
  JS.is_str (JS.opt_get (JS.opt_first (JS.opt_get payload "qr_codes")) "status")
            "PAID".


(** ** The route table (src/src/App.tsx:110-335) *)

(** [AdminRoute]; its children are [Page None]. *)
Definition AdminRoute (loading user isAdmin : bool) : Screen :=
  if loading then Loading
  else if negb user then Navigate "/admin/login"
  else if negb isAdmin then Navigate "/app"
  else Page None.

(** The route of [AppRoutes] that the router matched. *)
Inductive Matched : Type :=
| RootPath                       (* "/" *)
| LoginPath                      (* "/login" *)
| AdminLoginPath                 (* "/admin/login" *)
| ClientPath (pathname : string) (* "/app" and the pages under it *)
| AdminPath                      (* "/admin" and the pages under it *)
| OtherPath.                     (* "*" *)

Inductive Element : Type :=
| SplashScreen
| Login
| AdminLogin
| Routed (screen : Screen).

Definition AppRoutes (loading user isAdmin : bool) (now timezoneOffset : Z)
           (plan_end_date : option Z) (route : Matched) : Element :=
  if loading then SplashScreen
  else
    match route with
    | RootPath =>
        if negb user then Routed (Navigate "/login")
        else if isAdmin then Routed (Navigate "/admin")
        else Routed (Navigate "/app")
    | LoginPath =>
        if negb user then Login
        else if isAdmin then Routed (Navigate "/admin")
        else Routed (Navigate "/app")
    | AdminLoginPath =>
        if negb user then AdminLogin
        else if isAdmin then Routed (Navigate "/admin")
        else Routed (Navigate "/app")
    | ClientPath pathname =>
        Routed (ClientRoute loading user isAdmin pathname now timezoneOffset
                            plan_end_date)
    | AdminPath => Routed (AdminRoute loading user isAdmin)
    | OtherPath => Routed (Navigate "/")
    end.

(** The route whose [path] is literally [to]; [None] for every other
    string, whose matching is the router's business. *)
Definition target_route (to : string) : option Matched :=
  if (to =? "/")%string then Some RootPath
  else if (to =? "/login")%string then Some LoginPath
  else if (to =? "/admin/login")%string then Some AdminLoginPath
  else if existsb (String.eqb to)
            ["/app"; "/app/orientacoes"; "/app/treino"; "/app/dieta";
             "/app/progresso"; "/app/perfil"]
  then Some (ClientPath to)
  else if existsb (String.eqb to) ["/admin"; "/admin/biblioteca"]
  then Some AdminPath
  else None.

(** Rendering a route and following its redirects, [hops] of them at most:
    the route reached and what it shows. *)
Fixpoint settle (hops : nat) (loading user isAdmin : bool)
         (now timezoneOffset : Z) (plan_end_date : option Z) (route : Matched)
  : option (Matched * Element) :=
  match AppRoutes loading user isAdmin now timezoneOffset plan_end_date route with
  | Routed (Navigate to) =>
      match hops, target_route to with
      | S hops', Some next =>
          settle hops' loading user isAdmin now timezoneOffset plan_end_date next
      | _, _ => None
      end
  | shown => Some (route, shown)
  end.

(** The timer of the splash screen (src/unnamed/part_006): where it
    navigates to, if it does. *)
Definition SplashScreen_timer (loading user isAdmin : bool) : option string :=
  if loading then None
  else Some (if user
             then if isAdmin then "/admin" else "/app"
             else "/login").

(** ** The financial dashboard (src/unnamed/part_005) *)

Module Dashboard.

Record RevenueStats : Type := {
  today : Z;
  week : Z;
  month : Z;
  total : Z;
  pendingCount : nat;
  approvedCount : nat
}.

(** A payment as the dashboard reads it: the row and its [created_at]. *)
Record Row : Type := { payment : Payment.t; created_at : Z }.

Definition has_status (s : PaymentStatus) (r : Row) : bool :=
  status_eqb (Payment.status (payment r)) s.

(** The body of the loop over the approved payments. *)
Definition add (todayStart weekStart monthStart : Z) (stats : RevenueStats)
           (r : Row) : RevenueStats :=
  let paidAt := match Payment.paid_at (payment r) with
                | Some t => t
                | None => created_at r
                end in
  let amount := Payment.amount_cents (payment r) in
  {| total := total stats + amount;
     month := if monthStart <=? paidAt then month stats + amount else month stats;
     week := if weekStart <=? paidAt then week stats + amount else week stats;
     today := if todayStart <=? paidAt then today stats + amount else today stats;
     pendingCount := pendingCount stats;
     approvedCount := approvedCount stats |}.

(** [calculateStats] (lines 123-156).  [todayStart], [weekStart] and
    [monthStart] are the instants the Date arithmetic of the first lines
    gives: local midnight, seven days before it, and the first of the
    month. *)
Definition calculateStats (todayStart weekStart monthStart : Z)
           (payments : list Row) : RevenueStats :=
  let approvedPayments := filter (has_status approved) payments in
  let pendingPayments := filter (has_status pending) payments in
  fold_left (add todayStart weekStart monthStart) approvedPayments
            {| today := 0; week := 0; month := 0; total := 0;
               pendingCount := List.length pendingPayments;
               approvedCount := List.length approvedPayments |}.

(** The windows nest. *)
Definition nested (s : RevenueStats) : Prop :=
  0 <= today s /\ today s <= week s /\ week s <= total s /\
  today s <= month s /\ month s <= total s.

(** The sum of the amounts of the rows. *)
Definition amount_of (rows : list Row) : Z :=
  fold_right (fun r acc => Payment.amount_cents (payment r) + acc) 0 rows.

(** The filter of the query of [loadExpiringClients] (lines 96-107), run
    at the instant [now]; the ordering of the result is left out.
    [setDate] adds seven days on the calendar of the administrator's
    device and keeps the time on its clock: the instant moves by seven
    times 24 hours and by [shift], the milliseconds by which the zone
    offset of the device changes over these days (none without a change
    of clocks, minus one hour when summer time begins).  [toISOString]
    raises when the date is past the last one. *)
Definition expiring_where (now shift : Z) (p : Profile.t) : outcome bool :=
  let today := now in
  let in7Days := JSDate.add_days today 7 + shift in
  match JSDate.toISOString today, JSDate.toISOString in7Days with
  | Val from, Val to =>
      Val ((Profile.role p =? "client")%string
           && match Profile.plan_end_date p with
              | Some e => (from <=? e) && (e <=? to)
              | None => false
              end)%bool
  | _, _ => Throw
  end.

End Dashboard.

(** ** Theme colours (src/src/contexts/ThemeContext.tsx:115) *)

Definition hex_digit (c : ascii) : option Z :=
  let n := Z.of_nat (nat_of_ascii c) in
  if ((48 <=? n) && (n <=? 57))%bool then Some (n - 48)          (* 0-9 *)
  else if ((97 <=? n) && (n <=? 102))%bool then Some (n - 87)    (* a-f *)
  else if ((65 <=? n) && (n <=? 70))%bool then Some (n - 55)     (* A-F *)
  else None.

(** [parseInt(pair, 16)] on two hexadecimal digits. *)
Definition hex_pair (a b : ascii) : option Z :=
  match hex_digit a, hex_digit b with
  | Some x, Some y => Some (16 * x + y)
  | _, _ => None
  end.

(** [hexToRgb]: the expression is an optional # and three pairs of
    hexadecimal digits, in either case, and nothing else. *)
Definition strip_hash (hex : string) : string :=
  match hex with
  | String "#" rest => rest
  | _ => hex
  end.

Definition rgb_of_digits (digits : string) : option (Z * Z * Z) :=
  match list_ascii_of_string digits with
  | [a; b; c; d; e; f] =>
      match hex_pair a b, hex_pair c d, hex_pair e f with
      | Some r, Some g, Some b_ => Some (r, g, b_)
      | _, _, _ => None
      end
  | _ => None
  end.

Definition hexToRgb (hex : string) : option (Z * Z * Z) :=
  rgb_of_digits (strip_hash hex).
(** * Properties *)

Local Open Scope list_scope.

(** ** Dates *)

Lemma iso_date_add_days (t n : Z) :
  JSDate.iso_date (JSDate.add_days t n) = JSDate.iso_date t + n.
Proof.
  unfold JSDate.iso_date, JSDate.add_days.
  apply Z.div_add. unfold JSDate.ms_per_day. lia.
Qed.

Lemma iso_date_of_date (d : Z) : JSDate.iso_date (JSDate.of_date d) = d.
Proof.
  unfold JSDate.iso_date, JSDate.of_date.
  apply Z.div_mul. unfold JSDate.ms_per_day. lia.
Qed.

(** Midnight of day [d] lies after the instant [t] exactly when [d] is a
    later calendar day than the one [t] falls on. *)
Lemma of_date_after (d t : Z) :
  (JSDate.of_date d >? t) = (d >? JSDate.iso_date t).
Proof.
  unfold JSDate.of_date, JSDate.iso_date.
  assert (Hpos : 0 < JSDate.ms_per_day) by (unfold JSDate.ms_per_day; lia).
  pose proof (Z.div_mod t JSDate.ms_per_day ltac:(lia)) as Hdm.
  pose proof (Z.mod_pos_bound t JSDate.ms_per_day Hpos) as Hb.
  destruct (Z.gtb_spec (d * JSDate.ms_per_day) t) as [H|H];
    destruct (Z.gtb_spec d (t / JSDate.ms_per_day)) as [H'|H'];
    try reflexivity; exfalso; nia.
Qed.

(** ** Row updates and filters *)

Section UpdateWhere.
Context {A : Type} (key : A -> string) (k : string) (f : A -> A).

Lemma filter_update_where (P : A -> bool) (rows : list A) :
  (forall r, P (f r) = P r) ->
  filter P (update_where key k f rows)
  = map (fun r => if (key r =? k)%string then f r else r) (filter P rows).
Proof.
  intros HP. unfold update_where.
  induction rows as [|r rows IH]; simpl; [reflexivity|].
  assert (E : P (if (key r =? k)%string then f r else r) = P r)
    by (destruct (key r =? k)%string; auto).
  rewrite E. destruct (P r); simpl; rewrite IH; reflexivity.
Qed.

Lemma update_where_length (rows : list A) :
  List.length (update_where key k f rows) = List.length rows.
Proof. unfold update_where. apply List.length_map. Qed.
End UpdateWhere.

Lemma single_row_key {A} (P : A -> bool) (rows : list A) (r : A) :
  filter P rows = [r] -> P r = true.
Proof.
  intros H.
  assert (Hin : In r (filter P rows)) by (rewrite H; now left).
  apply filter_In in Hin. tauto.
Qed.

(** ** Provisioning: the renewal branch *)

Lemma after_valid (a b : Z) :
  JSDate.valid a = true -> JSDate.valid b = true ->
  JSDate.after a b = (a >? b).
Proof.
  intros Ha Hb. unfold JSDate.after. rewrite Ha, Hb. simpl.
  now rewrite Z.gtb_ltb.
Qed.

Lemma toISOString_valid (t : Z) :
  JSDate.valid t = true -> JSDate.toISOString t = Val (JSDate.iso_date t).
Proof. intros H. unfold JSDate.toISOString. now rewrite H. Qed.

Lemma toISOString_invalid (t : Z) :
  JSDate.valid t = false -> JSDate.toISOString t = Throw.
Proof. intros H. unfold JSDate.toISOString. now rewrite H. Qed.

Lemma newEndDate_law (t D : Z) (account : Profile.t) :
  representable t D account ->
  renewed (JSDate.iso_date t) D account
          (Profile.renew (JSDate.iso_date (newEndDate t D (Some account))) account).
Proof.
  intros (Ht & He & _).
  unfold renewed, newEndDate; simpl.
  repeat split; intros.
  - rewrite H, after_valid, of_date_after by auto.
    destruct (Z.gtb_spec e (JSDate.iso_date t)); [|lia].
    now rewrite iso_date_add_days, iso_date_of_date.
  - rewrite H, after_valid, of_date_after by auto.
    destruct (Z.gtb_spec e (JSDate.iso_date t)); [lia|].
    now rewrite iso_date_add_days.
  - rewrite H. now rewrite iso_date_add_days.
Qed.

(** The renewal branch with the account at hand: it raises, before any
    write, when the new end date is not a date a [Date] can hold, and
    otherwise rewrites the account. *)
Lemma provision_renewal_run (o : Outside) (client : string)
      (plan : Plan.t) (w : World) (account : Profile.t) :
  filter (fun p => (Profile.id p =? client)%string) (profiles w) = [account] ->
  provision_renewal o client plan w
  = if JSDate.valid (newEndDate (now o) (Plan.duration_days plan) (Some account))
    then (Val tt,
          {| payments := payments w;
             profiles :=
               update_where Profile.id client
                 (Profile.renew
                    (JSDate.iso_date
                       (newEndDate (now o) (Plan.duration_days plan)
                                   (Some account))))
                 (profiles w);
             plans := plans w;
             payment_settings := payment_settings w;
             trace := trace w ++ [ProfileUpdate client] |})
    else (Throw, w).
Proof.
  intros Hrow.
  unfold provision_renewal, renew_profile, update_profile, select_profiles,
    emit, bind, eval; simpl.
  rewrite Hrow; simpl. unfold JSDate.toISOString.
  destruct (JSDate.valid _); reflexivity.
Qed.

Lemma provision_renewal_profiles (o : Outside) (client : string)
      (plan : Plan.t) (w : World) (account : Profile.t) :
  filter (fun p => (Profile.id p =? client)%string) (profiles w) = [account] ->
  JSDate.valid (newEndDate (now o) (Plan.duration_days plan) (Some account))
  = true ->
  fst (provision_renewal o client plan w) = Val tt /\
  filter (fun p => (Profile.id p =? client)%string)
         (profiles (snd (provision_renewal o client plan w)))
  = [Profile.renew
       (JSDate.iso_date (newEndDate (now o) (Plan.duration_days plan) (Some account)))
       account].
Proof.
  intros Hrow Hvalid.
  rewrite (provision_renewal_run o client plan w account Hrow), Hvalid. simpl.
  split; [reflexivity|].
  rewrite filter_update_where by reflexivity.
  rewrite Hrow; simpl.
  now rewrite (single_row_key _ _ _ Hrow).
Qed.

(** C4 (as amended). Renewal case of handlePaymentApproved (the payment
    references a client account), whenever today, the end date the account
    has and the new end date are dates a [Date] can hold: the handler
    returns normally and, for a plan of D days, an end date strictly after
    today becomes the old end date plus D days, an end date in the past or
    unset becomes today plus D days, and the account is reactivated.  It
    holds for the copy called by payment-create and for the copy of the
    webhook receivers, which first fetches the plan again. *)
Theorem renewal_extends_or_restarts :
  forall (o : Outside) (payment : Payment.t) (plan : Plan.t) (w : World)
         (client : string) (account : Profile.t),
    Payment.client_id payment = Some client ->
    client <> "" ->
    filter (fun p => (Profile.id p =? client)%string) (profiles w) = [account] ->
    representable (now o) (Plan.duration_days plan) account ->
    (fst (handlePaymentApproved_create o payment plan w) = Val tt /\
     exists after,
        filter (fun p => (Profile.id p =? client)%string)
               (profiles (snd (handlePaymentApproved_create o payment plan w)))
        = [after] /\
        renewed (JSDate.iso_date (now o)) (Plan.duration_days plan) account after)
    /\
    (filter (fun p => (Plan.id p =? Payment.plan_id payment)%string) (plans w)
     = [plan] ->
     fst (handlePaymentApproved o payment w) = Val tt /\
     exists after,
       filter (fun p => (Profile.id p =? client)%string)
              (profiles (snd (handlePaymentApproved o payment w)))
       = [after] /\
       renewed (JSDate.iso_date (now o)) (Plan.duration_days plan) account after).
Proof.
  intros o payment plan w client account Hclient Hne Hrow Hrep.
  assert (Hneb : (client =? "")%string = false) by now apply String.eqb_neq.
  pose proof Hrep as (_ & _ & Hvalid).
  split.
  - unfold handlePaymentApproved_create, provision, bind, emit; simpl.
    rewrite Hclient, Hneb.
    match goal with
    | |- context [provision_renewal o client plan ?w1] =>
        destruct (provision_renewal_profiles o client plan w1 account Hrow Hvalid)
          as [Hret Hprof];
        destruct (provision_renewal o client plan w1) as [r w2]
    end.
    simpl in *. subst r. split; [reflexivity|].
    eexists; split; [exact Hprof|now apply newEndDate_law].
  - intros Hplan.
    unfold handlePaymentApproved, provision, bind, emit, select_plans; simpl.
    rewrite Hplan; simpl. rewrite Hclient, Hneb.
    match goal with
    | |- context [provision_renewal o client plan ?w1] =>
        destruct (provision_renewal_profiles o client plan w1 account Hrow Hvalid)
          as [Hret Hprof];
        destruct (provision_renewal o client plan w1) as [r w2]
    end.
    simpl in *. subst r. split; [reflexivity|].
    eexists; split; [exact Hprof|now apply newEndDate_law].
Qed.

(** Outside that range the renewal raises and leaves the account as it
    was: the new end date is computed but never written. *)
Lemma renewal_out_of_range_raises (o : Outside) (payment : Payment.t)
      (plan : Plan.t) (w : World) (client : string) (account : Profile.t) :
  Payment.client_id payment = Some client ->
  client <> "" ->
  filter (fun p => (Profile.id p =? client)%string) (profiles w) = [account] ->
  JSDate.valid (newEndDate (now o) (Plan.duration_days plan) (Some account))
  = false ->
  handlePaymentApproved_create o payment plan w
  = (Throw, {| payments := payments w; profiles := profiles w;
               plans := plans w; payment_settings := payment_settings w;
               trace := trace w ++ [ProvisioningCall (Payment.id payment)] |}).
Proof.
  intros Hclient Hne Hrow Hinvalid.
  assert (Hneb : (client =? "")%string = false) by now apply String.eqb_neq.
  unfold handlePaymentApproved_create, provision, bind, emit; simpl.
  rewrite Hclient, Hneb.
  match goal with
  | |- context [provision_renewal o client plan ?w1] =>
      rewrite (provision_renewal_run o client plan w1 account Hrow)
  end.
  rewrite Hinvalid. reflexivity.
Qed.

(** ** Effects of provisioning on payments and on the trace *)

Ltac run :=
  unfold handlePaymentApproved, handlePaymentApproved_create, provision,
    provision_renewal, provision_by_email, renew_profile, link_client,
    write_status, update_payment, update_profile, insert_profile,
    insert_payment, select_profiles, select_plans, select_payments,
    select_settings, parse_body, text_of, emit, bind, ret, eval in *;
  simpl in *.

(** Case analysis on an innermost scrutinee of the goal. *)
Ltac split_match :=
  match goal with
  | |- context [match ?x with _ => _ end] =>
      lazymatch x with
      | context [match _ with _ => _ end] => fail
      | _ => destruct x eqn:?; simpl in *
      end
  end.

Ltac trace_norm := repeat (rewrite <- app_assoc; simpl).

(** Provisioning touches the payments table at most by linking the
    payment to a client, leaves plans and settings alone, and after its
    entry it only produces account events; it may raise. *)
Lemma provision_effect (o : Outside) (payment : Payment.t) (plan : Plan.t)
      (w : World) :
  exists r w',
    provision o payment plan w = (r, w') /\
    (payments w' = payments w \/
     exists c, payments w'
               = update_where Payment.id (Payment.id payment)
                              (Payment.set_client c) (payments w)) /\
    plans w' = plans w /\
    payment_settings w' = payment_settings w /\
    exists events, trace w' = trace w ++ events /\
                   forallb provisioning_detail events = true /\
                   (count is_profile_insert events <= 1)%nat /\
                   (count is_email events <= 1)%nat.
Proof.
  run. unfold JSDate.toISOString. repeat split_match; simpl;
    (eexists _, _; split; [reflexivity|]); simpl;
    (split; [first [now left | right; eexists; reflexivity]|]);
    (split; [reflexivity|]); (split; [reflexivity|]);
    trace_norm;
    first [ now (exists []; rewrite app_nil_r; unfold count; simpl;
                 repeat split; lia)
          | eexists; (split; [reflexivity|]);
            (split; [reflexivity|]); unfold count; simpl; lia ].
Qed.

Lemma handlePaymentApproved_effect (o : Outside) (payment : Payment.t)
      (w : World) :
  exists r w',
    handlePaymentApproved o payment w = (r, w') /\
    (payments w' = payments w \/
     exists c, payments w'
               = update_where Payment.id (Payment.id payment)
                              (Payment.set_client c) (payments w)) /\
    plans w' = plans w /\
    payment_settings w' = payment_settings w /\
    exists events,
      trace w' = trace w ++ ProvisioningCall (Payment.id payment) :: events /\
      forallb provisioning_detail events = true /\
      (count is_profile_insert events <= 1)%nat /\
      (count is_email events <= 1)%nat.
Proof.
  unfold handlePaymentApproved, bind, emit, select_plans; simpl.
  set (w1 := {| payments := payments w; profiles := profiles w;
                plans := plans w; payment_settings := payment_settings w;
                trace := trace w ++ [ProvisioningCall (Payment.id payment)] |}).
  destruct (data (single (filter _ (plans w)))) as [plan|]; simpl.
  - destruct (provision_effect o payment plan w1)
      as (r & w' & Hrun & Hp & Hpl & Hse & events & Ht & Hd).
    exists r, w'. split; [exact Hrun|]. split; [exact Hp|].
    split; [exact Hpl|]. split; [exact Hse|].
    exists events. rewrite Ht. simpl. rewrite <- app_assoc.
    split; [reflexivity|exact Hd].
  - exists (Val tt), w1. split; [reflexivity|]. split; [now left|].
    split; [reflexivity|]. split; [reflexivity|].
    exists []. simpl. repeat split; unfold count; simpl; lia.
Qed.

Lemma handlePaymentApproved_create_effect (o : Outside) (payment : Payment.t)
      (plan : Plan.t) (w : World) :
  exists r w',
    handlePaymentApproved_create o payment plan w = (r, w') /\
    (payments w' = payments w \/
     exists c, payments w'
               = update_where Payment.id (Payment.id payment)
                              (Payment.set_client c) (payments w)) /\
    plans w' = plans w /\
    payment_settings w' = payment_settings w /\
    exists events,
      trace w' = trace w ++ ProvisioningCall (Payment.id payment) :: events /\
      forallb provisioning_detail events = true /\
      (count is_profile_insert events <= 1)%nat /\
      (count is_email events <= 1)%nat.
Proof.
  unfold handlePaymentApproved_create, bind, emit; simpl.
  set (w1 := {| payments := payments w; profiles := profiles w;
                plans := plans w; payment_settings := payment_settings w;
                trace := trace w ++ [ProvisioningCall (Payment.id payment)] |}).
  destruct (provision_effect o payment plan w1)
    as (r & w' & Hrun & Hp & Hpl & Hse & events & Ht & Hd).
  exists r, w'. split; [exact Hrun|]. split; [exact Hp|].
  split; [exact Hpl|]. split; [exact Hse|].
  exists events. rewrite Ht. simpl. rewrite <- app_assoc.
  split; [reflexivity|exact Hd].
Qed.

(** ** The shared reconciliation step *)

Lemma status_eqb_eq (a b : PaymentStatus) : status_eqb a b = true <-> a = b.
Proof. destruct a, b; simpl; split; intros H; congruence. Qed.

Lemma status_eqb_refl (a : PaymentStatus) : status_eqb a a = true.
Proof. now apply status_eqb_eq. Qed.

Lemma status_eqb_neq (a b : PaymentStatus) : status_eqb a b = false <-> a <> b.
Proof.
  split.
  - intros H E. apply status_eqb_eq in E. congruence.
  - intros H. destruct (status_eqb a b) eqn:E; [|reflexivity].
    apply status_eqb_eq in E. contradiction.
Qed.

(** [apply_status] when the candidate is the stored status: nothing. *)
Lemma apply_status_same (o : Outside) (dbPayment : Payment.t) (hook : JS.value)
      (w : World) :
  apply_status o dbPayment (Payment.status dbPayment) hook w = (Val webhook_ok, w).
Proof. unfold apply_status. now rewrite status_eqb_refl. Qed.

(** A candidate other than approved and other than the stored status: the
    status write and nothing else. *)
Lemma apply_status_plain (o : Outside) (dbPayment : Payment.t)
      (s : PaymentStatus) (hook : JS.value) (w : World) :
  s <> Payment.status dbPayment -> s <> approved ->
  apply_status o dbPayment s hook w
  = (Val webhook_ok, status_written o dbPayment s hook w).
Proof.
  intros Hne Ha. unfold apply_status.
  apply status_eqb_neq in Hne. apply status_eqb_neq in Ha.
  rewrite Hne. unfold write_status, update_payment, emit, bind, ret; simpl.
  rewrite Ha. reflexivity.
Qed.

(** The candidate approved for a payment stored otherwise: the status
    write, then provisioning, whose exception is the receiver's. *)
Lemma apply_status_approving (o : Outside) (dbPayment : Payment.t)
      (hook : JS.value) (w : World) :
  Payment.status dbPayment <> approved ->
  apply_status o dbPayment approved hook w
  = let run := handlePaymentApproved o dbPayment
                 (status_written o dbPayment approved hook w) in
    (match fst run with
     | Val _ => Val webhook_ok
     | Throw => Throw
     end, snd run).
Proof.
  intros Hne. unfold apply_status.
  assert (H : status_eqb approved (Payment.status dbPayment) = false)
    by (apply status_eqb_neq; congruence).
  rewrite H. unfold write_status, update_payment, emit, bind, ret; simpl.
  fold (status_written o dbPayment approved hook w).
  destruct (handlePaymentApproved o dbPayment _) as [[[]|] w']; reflexivity.
Qed.



(** What [apply_status] does to the row the notification names and to the
    trace, whether provisioning raises or not: the row ends with the
    candidate status; there is one status write unless the candidate is the
    stored status, followed by one provisioning call exactly when the
    candidate is approved; the answer is OK unless provisioning raised. *)
Lemma apply_status_effect (lookup : Payment.t -> bool) (o : Outside)
      (dbPayment : Payment.t) (s : PaymentStatus) (hook : JS.value) (w : World) :
  (forall c p, lookup (Payment.set_client c p) = lookup p) ->
  (forall s' h n p, lookup (Payment.set_status s' h n p) = lookup p) ->
  filter lookup (payments w) = [dbPayment] ->
  exists r w',
    apply_status o dbPayment s hook w = (r, w') /\
    (r = Val webhook_ok \/ r = Throw /\ s = approved) /\
    (exists row, filter lookup (payments w') = [row] /\ Payment.status row = s) /\
    plans w' = plans w /\
    (s = Payment.status dbPayment -> r = Val webhook_ok /\ w' = w) /\
    (s <> Payment.status dbPayment ->
     exists details,
       trace w'
       = trace w ++ StatusWrite (Payment.id dbPayment) s
                 :: (if status_eqb s approved
                     then ProvisioningCall (Payment.id dbPayment) :: details
                     else []) /\
       forallb provisioning_detail details = true /\
       (count is_profile_insert details <= 1)%nat /\
       (count is_email details <= 1)%nat).
Proof.
  intros Hc Hs Hrow.
  destruct (status_eqb s (Payment.status dbPayment)) eqn:E.
  - apply status_eqb_eq in E. subst s. rewrite apply_status_same.
    exists (Val webhook_ok), w. repeat split; try (now left).
    + exists dbPayment. split; [exact Hrow|reflexivity].
    + intros Hne. congruence.
  - apply status_eqb_neq in E.
    assert (Hrow1 : filter lookup (payments (status_written o dbPayment s hook w))
                    = [Payment.set_status s (Some hook) (now o) dbPayment]).
    { unfold status_written; simpl.
      rewrite filter_update_where by (intros; apply Hs).
      rewrite Hrow; simpl. now rewrite String.eqb_refl. }
    destruct (status_eqb s approved) eqn:Ea.
    + apply status_eqb_eq in Ea. subst s.
      rewrite apply_status_approving by congruence. cbv zeta.
      destruct (handlePaymentApproved_effect o dbPayment
                  (status_written o dbPayment approved hook w))
        as (r & w2 & Hrun & Hp & Hpl & _ & details & Ht & Hd & Hacc).
      rewrite Hrun. simpl.
      eexists _, w2. split; [reflexivity|].
      split; [destruct r; [now left|now right]|].
      split.
      { destruct Hp as [Hp|[c Hp]]; rewrite Hp.
        - eexists; split; [exact Hrow1|reflexivity].
        - rewrite filter_update_where by (intros; apply Hc).
          rewrite Hrow1; simpl. rewrite String.eqb_refl.
          eexists; split; reflexivity. }
      split; [exact Hpl|].
      split; [intros; congruence|].
      intros _. exists details. split; [|split; [exact Hd|exact Hacc]].
      rewrite Ht. unfold status_written; simpl. now rewrite <- app_assoc.
    + apply status_eqb_neq in Ea.
      rewrite apply_status_plain by assumption.
      eexists _, _. split; [reflexivity|].
      split; [now left|].
      split; [eexists; split; [exact Hrow1|reflexivity]|].
      split; [reflexivity|].
      split; [intros; congruence|].
      intros _. exists []. repeat split; unfold count; simpl; lia.
Qed.

(** ** The webhook receivers are instances of [reconcile] *)








Lemma get_not_nullish (payload : JS.value) (k : string) :
  nullish payload = false -> JS.get payload k = Val (JS.opt_get payload k).
Proof. destruct payload; simpl; intros H; try reflexivity; discriminate. Qed.

Lemma get_nullish (payload : JS.value) (k : string) :
  nullish payload = true -> JS.get payload k = Throw.
Proof. destruct payload; simpl; intros H; try reflexivity; discriminate. Qed.

Lemma key_not_nullish (R : Receiver) (payload : JS.value) :
  JS.truthy (payment_key R payload) = true -> nullish payload = false.
Proof. destruct R, payload; simpl; intros H; try reflexivity; discriminate. Qed.

Lemma mp_filter (payload : JS.value) :
  (negb (JS.is_str (JS.opt_get payload "type") "payment")
   && negb (JS.is_str (JS.opt_get payload "action") "payment.created")
   && negb (JS.is_str (JS.opt_get payload "action") "payment.updated"))%bool
  = negb (mp_relevant payload).
Proof. unfold mp_relevant. now rewrite !negb_orb. Qed.

Ltac enter_receiver Hm Hb :=
  unfold receiver, webhook_pagseguro, webhook_pagarme, webhook_asaas,
    webhook_mercadopago, try_catch, parse_body, text_of, select_payments,
    bind, eval, ret;
  rewrite Hm, Hb; cbn beta iota.

(** A notification that names a payment and passes the guard goes through
    [reconcile]. *)
Lemma receiver_reconciles (R : Receiver) (req : Request) (payload : JS.value) :
  method req <> "OPTIONS"%string ->
  body req = Some payload ->
  JS.truthy (payment_key R payload) = true ->
  event_accepted R payload = true ->
  forall o w, receiver R o req w = reconcile R payload o w.
Proof.
  intros Hm Hb Hk He o w.
  apply String.eqb_neq in Hm.
  pose proof (key_not_nullish R payload Hk) as Hn.
  unfold reconcile.
  destruct R as [| | |mpReply];
    cbn [payment_key event_accepted gateway_of candidate_of hook_of] in *;
    enter_receiver Hm Hb; rewrite (get_not_nullish payload _ Hn);
    cbn beta iota zeta.
  - rewrite Hk. simpl.
    destruct (JS.converts (JS.opt_get payload "id")); simpl; [|reflexivity].
    destruct (data (maybeSingle _)) as [db|]; [|reflexivity].
    unfold asked; simpl.
    destruct (pagseguro_status (Payment.status db) payload); reflexivity.
  - rewrite Hk, He. simpl.
    destruct (JS.converts _); simpl; [|reflexivity].
    destruct (data (maybeSingle _)) as [db|]; reflexivity.
  - rewrite Hk, He. simpl.
    destruct (JS.converts _); simpl; [|reflexivity].
    destruct (data (maybeSingle _)) as [db|]; reflexivity.
  - rewrite mp_filter, He, Hk. simpl.
    destruct (JS.converts _); simpl; [|reflexivity].
    destruct (data (maybeSingle _)) as [db|]; [|reflexivity].
    unfold emit, asked, with_events; simpl.
    destruct mpReply as [mpPayment|]; [|reflexivity].
    simpl. destruct (JS.get mpPayment "status") as [native|]; reflexivity.
Qed.

(** A notification without payment id, or that the guard turns down, is
    answered at once: OK, unless no field of the body can be read. *)
Lemma receiver_unprocessed (R : Receiver) (req : Request) (payload : JS.value) :
  method req <> "OPTIONS"%string ->
  body req = Some payload ->
  JS.truthy (payment_key R payload) = false \/ event_accepted R payload = false ->
  forall o w,
    receiver R o req w
    = (if nullish payload then webhook_error else webhook_ok, w).
Proof.
  intros Hm Hb Hcase o w.
  apply String.eqb_neq in Hm.
  destruct (nullish payload) eqn:Hn.
  - destruct R; enter_receiver Hm Hb; rewrite (get_nullish payload _ Hn);
      reflexivity.
  - destruct R as [| | |mpReply];
      cbn [payment_key event_accepted] in Hcase;
      enter_receiver Hm Hb; rewrite (get_not_nullish payload _ Hn);
      cbn beta iota zeta.
    + destruct Hcase as [Hk|He]; [|discriminate]. now rewrite Hk.
    + destruct Hcase as [Hk|He]; [now rewrite Hk|].
      rewrite He. now destruct (JS.truthy _).
    + destruct Hcase as [Hk|He]; [now rewrite Hk|].
      rewrite He. now destruct (JS.truthy _).
    + rewrite mp_filter.
      destruct Hcase as [Hk|He]; [|now rewrite He].
      rewrite Hk. now destruct (mp_relevant payload).
Qed.

Lemma receiver_unparsed (R : Receiver) (req : Request) :
  method req <> "OPTIONS"%string ->
  body req = None ->
  forall o w, receiver R o req w = (webhook_error, w).
Proof.
  intros Hm Hb o w. apply String.eqb_neq in Hm.
  destruct R; enter_receiver Hm Hb; reflexivity.
Qed.

Lemma receiver_preflight (R : Receiver) (req : Request) :
  method req = "OPTIONS"%string ->
  forall o w, receiver R o req w = (preflight, w).
Proof.
  intros Hm o w. apply String.eqb_eq in Hm.
  destruct R; unfold receiver, webhook_pagseguro, webhook_pagarme,
    webhook_asaas, webhook_mercadopago; now rewrite Hm.
Qed.

(** ** Duplicate deliveries *)

Lemma quiet_refl (w : World) : quiet w w.
Proof.
  repeat split. exists []. split; [now rewrite app_nil_r|reflexivity].
Qed.





(** Through [reconcile], a delivery that finds the row leaves a row with
    the candidate status, and a second delivery then finds nothing to
    do. *)
Section Reconcile.
Variables (R : Receiver) (payload : JS.value).

Let lookup := by_gateway_id (payment_key R payload) (gateway_of R).




End Reconcile.

Lemma count_app (f : Event -> bool) (a b : list Event) :
  count f (a ++ b) = (count f a + count f b)%nat.
Proof. unfold count. now rewrite filter_app, length_app. Qed.

Lemma count_none (f g : Event -> bool) (events : list Event) :
  (forall e, g e = true -> f e = false) ->
  forallb g events = true -> count f events = 0%nat.
Proof.
  intros Hfg. unfold count.
  induction events as [|e events IH]; simpl; intros H; [reflexivity|].
  apply andb_prop in H. destruct H as [He H].
  rewrite (Hfg e He). now apply IH.
Qed.

Lemma count_cons (f : Event -> bool) (e : Event) (events : list Event) :
  count f (e :: events) = ((if f e then 1 else 0) + count f events)%nat.
Proof. unfold count. simpl. destruct (f e); reflexivity. Qed.

Lemma quiet_trans (w1 w2 w3 : World) : quiet w1 w2 -> quiet w2 w3 -> quiet w1 w3.
Proof.
  intros (Hp & Hq & Hl & Hs & e1 & Ht1 & He1) (Hp' & Hq' & Hl' & Hs' & e2 & Ht2 & He2).
  repeat split; try congruence.
  exists (e1 ++ e2). rewrite Ht2, Ht1, <- app_assoc. split; [reflexivity|].
  rewrite forallb_app. now rewrite He1, He2.
Qed.











(** ** Precedence of statuses *)



(** A PagSeguro notification with a declined charge does the same to an
    approved payment. *)
Lemma pagseguro_declined_overwrites_approved :
  let w := Sample.world "pagseguro" approved (Some "client_1")
                        [Sample.account (Some (Sample.today + 10))] in
  map Payment.status
      (payments (snd (webhook_pagseguro Sample.env
                        (Sample.pagseguro_charge "DECLINED") w)))
  = [rejected].
Proof. vm_compute. reflexivity. Qed.

(** A Mercado Pago notification whose payment the provider reports as
    pending reverts an approved payment to pending. *)
Lemma mercadopago_pending_overwrites_approved :
  let w := Sample.world "mercado_pago" approved (Some "client_1")
                        [Sample.account (Some (Sample.today + 10))] in
  let hit := Sample.mp_notification in
  map Payment.status
      (payments (snd (webhook_mercadopago Sample.env (Sample.live "pending") hit w)))
  = [pending].
Proof. vm_compute. reflexivity. Qed.


(** ** Provisioning on approval: webhook against poll *)

(** A webhook receiver that turns a payment into approved writes the status
    and then calls provisioning, once. *)
Lemma webhook_approval_provisions (lookup : Payment.t -> bool)
      (o : Outside) (dbPayment : Payment.t) (hook : JS.value) (w : World) :
  (forall c p, lookup (Payment.set_client c p) = lookup p) ->
  (forall s' h n p, lookup (Payment.set_status s' h n p) = lookup p) ->
  filter lookup (payments w) = [dbPayment] ->
  Payment.status dbPayment <> approved ->
  exists details,
    trace (snd (apply_status o dbPayment approved hook w))
    = trace w ++ StatusWrite (Payment.id dbPayment) approved
              :: ProvisioningCall (Payment.id dbPayment) :: details /\
    forallb provisioning_detail details = true.
Proof.
  intros Hc Hs Hrow Hne.
  destruct (apply_status_effect lookup o dbPayment approved hook w Hc Hs Hrow)
    as (r & w1 & Hrun & _ & _ & _ & _ & Hdiff).
  rewrite Hrun; simpl.
  destruct (Hdiff ltac:(congruence)) as (details & Ht & Hd & _).
  exists details. split; [exact Ht|exact Hd].
Qed.

(** The polling entry only ever asks the gateway and writes the status: it
    leaves the accounts alone and never calls provisioning. *)
Lemma payment_status_never_provisions (clock : Z) (reply : option JS.value)
      (req : Request) (w : World) :
  let w' := snd (payment_status clock reply req w) in
  profiles w' = profiles w /\
  exists events,
    trace w' = trace w ++ events /\
    forallb (fun e => is_gateway_request e || is_status_write e)%bool events = true.
Proof.
  unfold payment_status, try_catch, checkMercadoPagoStatus, checkAsaasStatus.
  run.
  repeat split_match; simpl; (split; [reflexivity|]); trace_norm;
    first [ now (exists []; rewrite app_nil_r)
          | eexists; split; reflexivity ].
Qed.

(** C2 at the failing input. A Mercado Pago payment is pending and has no
    account; a poll learns from the gateway that it is approved.  The poll
    writes approved and calls no provisioning: no account exists afterwards
    and the payment has no client.  The webhook that reports the approval
    later finds the status already stored and does nothing, so the
    customer is never provisioned. *)
Theorem poll_discovers_approval_without_provisioning :
  let w := Sample.world "mercado_pago" pending None [] in
  let polled := payment_status Sample.clock (Sample.live "approved") Sample.poll w in
  let hit := Sample.mp_notification in
  let later := webhook_mercadopago Sample.env (Sample.live "approved") hit (snd polled) in
  content (fst polled) = StatusPaid approved (Some Sample.clock) /\
  map Payment.status (payments (snd polled)) = [approved] /\
  trace (snd polled) = [GatewayRequest "mercado_pago"; StatusWrite "pay_1" approved] /\
  count is_provisioning (trace (snd polled)) = 0%nat /\
  profiles (snd polled) = [] /\
  map Payment.client_id (payments (snd polled)) = [None] /\
  count is_provisioning (trace (snd later)) = 0%nat /\
  profiles (snd later) = [] /\
  (* the same approval arriving by webhook first does provision *)
  count is_provisioning
        (trace (snd (webhook_mercadopago Sample.env (Sample.live "approved") hit w)))
  = 1%nat.
Proof. vm_compute. repeat split. Qed.

(** ** Provisioning: an account found by email *)

(** When the payment has no client and exactly one account has the
    customer's email, the account's end date becomes today plus the plan's
    duration, whatever it was, and the payment is linked to the account
    (the new end date being a date a [Date] can hold). *)
Lemma provision_by_email_overwrites (o : Outside) (payment : Payment.t)
      (plan : Plan.t) (w : World) (account : Profile.t) :
  filter (fun p => opt_str_eqb (Profile.email p) (Payment.customer_email payment))
         (profiles w) = [account] ->
  JSDate.valid (JSDate.add_days (now o) (Plan.duration_days plan)) = true ->
  let w' := snd (provision_by_email o payment plan w) in
  profiles w'
  = update_where Profile.id (Profile.id account)
      (Profile.renew (JSDate.iso_date (now o) + Plan.duration_days plan))
      (profiles w) /\
  payments w'
  = update_where Payment.id (Payment.id payment)
      (Payment.set_client (Profile.id account)) (payments w).
Proof.
  intros Hrow Hvalid. run. rewrite Hrow; simpl.
  rewrite (toISOString_valid _ Hvalid). simpl.
  rewrite iso_date_add_days. split; reflexivity.
Qed.

(** C3 at the failing input. The payment has no client; the account with
    the customer's email runs until today+10; the plan lasts 30 days.  The
    webhook copy and the payment-create copy of handlePaymentApproved both
    set the end date to today+30, where the renewal branch gives today+40
    for the same account; the payment is linked to the account. *)
Theorem email_match_overwrites_future_end_date :
  let account := Sample.account (Some (Sample.today + 10)) in
  let w := Sample.world "pagseguro" pending None [account] in
  let by_webhook :=
    snd (handlePaymentApproved Sample.env (Sample.payment "pagseguro" pending None) w) in
  let by_create :=
    snd (handlePaymentApproved_create Sample.env
           (Sample.payment "pagseguro" pending None) Sample.plan30 w) in
  let renewal :=
    snd (handlePaymentApproved Sample.env
           (Sample.payment "pagseguro" pending (Some "client_1"))
           (Sample.world "pagseguro" pending (Some "client_1") [account])) in
  map Profile.plan_end_date (profiles by_webhook) = [Some (Sample.today + 30)] /\
  map Profile.plan_end_date (profiles by_create) = [Some (Sample.today + 30)] /\
  map Payment.client_id (payments by_webhook) = [Some "client_1"] /\
  map Payment.client_id (payments by_create) = [Some "client_1"] /\
  map Profile.plan_end_date (profiles renewal) = [Some (Sample.today + 40)].
Proof. vm_compute. repeat split. Qed.

(** ** The polling entry *)

Section Poll.
Variables (clock : Z) (reply : option JS.value) (req : Request)
          (payload payment_id : JS.value) (w : World) (payment : Payment.t).
Hypothesis Hmethod : method req <> "OPTIONS"%string.
Hypothesis Hbody : body req = Some payload.
Hypothesis Hid : JS.get payload "payment_id" = Val payment_id.
Hypothesis Htruthy : JS.truthy payment_id = true.
Hypothesis Hrow :
  filter (fun p => (Payment.id p =? JS.to_string payment_id)%string) (payments w)
  = [payment].

(** The handler once the payment row is at hand. *)
Lemma payment_status_found :
  payment_status clock reply req w
  = if status_eqb (Payment.status payment) approved
    then (respond 200 (StatusPaid approved (Payment.paid_at payment)), w)
    else if (status_eqb (Payment.status payment) expired
             || status_eqb (Payment.status payment) rejected)%bool
    then (respond 200 (StatusOnly (Payment.status payment)), w)
    else
      match data (single (filter (fun s => (Settings.owner_id s
                                             =? Payment.owner_id payment)%string)
                                 (payment_settings w))) with
      | None => (respond 200 (StatusOnly (Payment.status payment)), w)
      | Some settings =>
          try_catch
            (gatewayStatus <-
               (if (Settings.active_gateway settings =? "mercado_pago")%string
                then checkMercadoPagoStatus reply
                else if (Settings.active_gateway settings =? "asaas")%string
                then checkAsaasStatus reply
                else ret (Payment.status payment)) ;;
             (if negb (status_eqb gatewayStatus (Payment.status payment))
              then write_status (JS.to_string payment_id) gatewayStatus None clock
              else ret tt) ;;;
             ret (respond 200
                    (StatusPaid gatewayStatus
                       (if status_eqb gatewayStatus approved
                        then Some clock else None))))
            (json_error 500 "Erro interno do servidor") w
      end.
Proof.
  apply String.eqb_neq in Hmethod.
  unfold payment_status, try_catch, parse_body, select_payments,
    select_settings, bind, eval, ret.
  rewrite Hmethod, Hbody, Hid, Htruthy; simpl.
  rewrite Hrow; simpl.
  destruct (status_eqb (Payment.status payment) approved); [reflexivity|].
  destruct (status_eqb (Payment.status payment) expired
            || status_eqb (Payment.status payment) rejected)%bool;
    [reflexivity|].
  destruct (data (single _)); reflexivity.
Qed.
End Poll.

(** C6 (as amended). The polling entry answers with the stored status,
    without any gateway request and without touching the world, whenever
    the stored status is approved, rejected or expired: approved is not
    excluded.  For the other stored statuses (pending, refunded) and an
    owner whose active gateway is Mercado Pago or Asaas, the first thing
    the handler does is to ask that gateway. *)
Theorem poll_short_circuit :
  forall (clock : Z) (reply : option JS.value) (req : Request)
         (payload payment_id : JS.value) (w : World) (payment : Payment.t),
    method req <> "OPTIONS"%string ->
    body req = Some payload ->
    JS.get payload "payment_id" = Val payment_id ->
    JS.truthy payment_id = true ->
    filter (fun p => (Payment.id p =? JS.to_string payment_id)%string) (payments w)
    = [payment] ->
    let r := payment_status clock reply req w in
    (In (Payment.status payment) [approved; rejected; expired] ->
     snd r = w /\
     code (fst r) = 200 /\
     reported_status (content (fst r)) = Some (Payment.status payment)) /\
    (~ In (Payment.status payment) [approved; rejected; expired] ->
     forall settings,
       filter (fun s => (Settings.owner_id s =? Payment.owner_id payment)%string)
              (payment_settings w) = [settings] ->
       Settings.active_gateway settings = "mercado_pago"%string \/
       Settings.active_gateway settings = "asaas"%string ->
       exists rest,
         trace (snd r)
         = trace w ++ GatewayRequest (Settings.active_gateway settings) :: rest).
Proof.
  intros clock reply req payload payment_id w payment Hm Hb Hid Ht Hrow r.
  subst r.
  rewrite (payment_status_found clock reply req payload payment_id w payment
             Hm Hb Hid Ht Hrow).
  split.
  - intros Hin. destruct (Payment.status payment); simpl in *;
      try (repeat split; reflexivity); exfalso; intuition discriminate.
  - intros Hnot settings Hset Hgw.
    assert (Ha : status_eqb (Payment.status payment) approved = false)
      by (destruct (Payment.status payment); simpl in *; tauto).
    assert (Hb' : (status_eqb (Payment.status payment) expired
                   || status_eqb (Payment.status payment) rejected)%bool = false)
      by (destruct (Payment.status payment); simpl in *; tauto).
    rewrite Ha, Hb', Hset; simpl.
    unfold try_catch, checkMercadoPagoStatus, checkAsaasStatus. run.
    destruct Hgw as [Hgw|Hgw]; rewrite Hgw; simpl;
      repeat split_match; simpl; trace_norm; eexists; reflexivity.
Qed.

(** Counterexample to C6 as stated: the stored status is approved and the
    owner's gateway is Mercado Pago, yet the poll returns at once and no
    request goes to the gateway. *)
Lemma poll_of_approved_skips_gateway :
  let w := Sample.world "mercado_pago" approved (Some "client_1") [] in
  let r := payment_status Sample.clock (Sample.live "refunded") Sample.poll w in
  map Payment.status (payments w) = [approved] /\
  fst r = respond 200 (StatusPaid approved (Some (Sample.clock - 1000))) /\
  count is_gateway_request (trace (snd r)) = 0%nat /\
  snd r = w.
Proof. vm_compute. repeat split. Qed.

Lemma poll_short_circuit_witness :
  let w := Sample.world "asaas" rejected None [] in
  let r := payment_status Sample.clock (Sample.live "CONFIRMED") Sample.poll w in
  snd r = w /\ code (fst r) = 200 /\
  reported_status (content (fst r)) = Some rejected.
Proof.
  exact (proj1 (poll_short_circuit Sample.clock (Sample.live "CONFIRMED")
                  Sample.poll (JS.Obj [("payment_id", JS.Str "pay_1")])
                  (JS.Str "pay_1") (Sample.world "asaas" rejected None [])
                  (Sample.payment "asaas" rejected None)
                  ltac:(discriminate) eq_refl eq_refl eq_refl eq_refl)
               ltac:(simpl; tauto)).
Defined.

(** C9. For a payment whose owner's settings name an active gateway other
    than mercado_pago and asaas (pagseguro, pagarme, none, ...), the
    polling entry sends no gateway request and writes nothing: the world,
    trace included, is unchanged and the answer is 200 with the stored
    status. *)
Theorem poll_other_gateway_is_read_only :
  forall (clock : Z) (reply : option JS.value) (req : Request)
         (payload payment_id : JS.value) (w : World) (payment : Payment.t)
         (settings : Settings.t),
    method req <> "OPTIONS"%string ->
    body req = Some payload ->
    JS.get payload "payment_id" = Val payment_id ->
    JS.truthy payment_id = true ->
    filter (fun p => (Payment.id p =? JS.to_string payment_id)%string) (payments w)
    = [payment] ->
    filter (fun s => (Settings.owner_id s =? Payment.owner_id payment)%string)
           (payment_settings w) = [settings] ->
    Settings.active_gateway settings <> "mercado_pago"%string ->
    Settings.active_gateway settings <> "asaas"%string ->
    let r := payment_status clock reply req w in
    snd r = w /\
    code (fst r) = 200 /\
    reported_status (content (fst r)) = Some (Payment.status payment).
Proof.
  intros clock reply req payload payment_id w payment settings
         Hm Hb Hid Ht Hrow Hset Hmp Has r.
  subst r.
  rewrite (payment_status_found clock reply req payload payment_id w payment
             Hm Hb Hid Ht Hrow).
  apply String.eqb_neq in Hmp, Has.
  rewrite Hset; simpl. rewrite Hmp, Has.
  unfold try_catch, bind, ret; simpl.
  rewrite status_eqb_refl; simpl.
  destruct (Payment.status payment); simpl; repeat split; reflexivity.
Qed.

Lemma poll_other_gateway_is_read_only_witness :
  let w := Sample.world "pagseguro" pending None [] in
  let r := payment_status Sample.clock (Sample.live "PAID") Sample.poll w in
  snd r = w /\ code (fst r) = 200 /\
  reported_status (content (fst r)) = Some pending.
Proof.
  exact (poll_other_gateway_is_read_only Sample.clock (Sample.live "PAID")
           Sample.poll (JS.Obj [("payment_id", JS.Str "pay_1")])
           (JS.Str "pay_1") (Sample.world "pagseguro" pending None [])
           (Sample.payment "pagseguro" pending None)
           (Sample.settings "pagseguro")
           ltac:(discriminate) eq_refl eq_refl eq_refl eq_refl eq_refl
           ltac:(discriminate) ltac:(discriminate)).
Defined.

(** ** Malformed and unrecognised webhook bodies *)

(** C7 (as amended). A webhook request whose body cannot be parsed as JSON
    changes nothing and is answered with HTTP 500 by the catch branch.  A
    body that parses but carries no order or payment id, or an event type
    outside the handled list, changes nothing either; it is answered with
    200, except for the JSON value null, on which reading the first field
    raises and the answer is again 500.  This holds for each of the four
    receivers. *)
Theorem unprocessed_webhook_changes_nothing :
  forall (R : Receiver) (o : Outside) (req : Request) (w : World),
    method req <> "OPTIONS"%string ->
    (body req = None -> receiver R o req w = (webhook_error, w)) /\
    (forall payload,
        body req = Some payload ->
        JS.truthy (payment_key R payload) = false \/
        event_accepted R payload = false ->
        receiver R o req w
        = (if nullish payload then webhook_error else webhook_ok, w)).
Proof.
  intros R o req w Hm. split.
  - intros Hb. now apply receiver_unparsed.
  - intros payload Hb Hcase. now apply receiver_unprocessed.
Qed.

(** Counterexample to C7 as stated: a POST whose body is not JSON gets the
    answer 500 from the PagSeguro receiver (and from the other two). *)
Lemma unparseable_body_is_answered_500 :
  let w := Sample.world "pagseguro" pending None [] in
  code (fst (webhook_pagseguro Sample.env Sample.unparseable w)) = 500 /\
  code (fst (webhook_pagarme Sample.env Sample.unparseable w)) = 500 /\
  code (fst (webhook_asaas Sample.env Sample.unparseable w)) = 500 /\
  code (fst (webhook_pagseguro Sample.env (Sample.post JS.Null) w)) = 500.
Proof. vm_compute. repeat split. Qed.

Lemma unprocessed_webhook_changes_nothing_witness :
  let w := Sample.world "pagarme" pending None [] in
  webhook_pagarme Sample.env (Sample.pagarme_event "order.created") w
  = (webhook_ok, w).
Proof.
  intros w.
  exact (proj2 (unprocessed_webhook_changes_nothing
                  PagarMe Sample.env (Sample.pagarme_event "order.created") w
                  ltac:(discriminate))
               (JS.Obj [("type", JS.Str "order.created");
                        ("data", JS.Obj [("id", JS.Str "ext_1")])])
               eq_refl (or_intror eq_refl)).
Defined.

(** ** payment-create *)

(** An adapter never raises; it sends at most one request and touches no
    table. *)
Lemma select_adapter_effect (settings : Settings.t) (m : PaymentMethod)
      (x : Exchange) (call : M PaymentResult) (w : World) :
  select_adapter settings m x = Some call ->
  exists result events,
    call w = (Val result,
              {| payments := payments w; profiles := profiles w;
                 plans := plans w; payment_settings := payment_settings w;
                 trace := trace w ++ events |}) /\
    forallb is_gateway_request events = true.
Proof.
  unfold select_adapter, createMercadoPagoPayment, createAsaasPayment,
    createPagSeguroPayment, createPagarmePayment, adapter.
  intros H.
  repeat match type of H with
         | (if ?b then _ else _) = _ => destruct b
         end;
    try discriminate; injection H as <-;
    match goal with
    | |- context [negb ?c] => destruct c
    end; simpl; unfold bind, emit, ret; simpl;
    first [ eexists; exists []; rewrite app_nil_r; destruct w; split; reflexivity
          | eexists; eexists; split; reflexivity ].
Qed.

(** C8. A payment-creation request that is complete and whose owner has
    settings, but which violates a precondition (the method is disabled,
    the plan does not exist or is inactive, no known gateway is active), is
    answered 400 with the message that names an unmet precondition, and
    the world is untouched: the trace gains no gateway request and the
    payments table no row. *)
Theorem create_rejects_unmet_precondition :
  forall (o : CreateOutside) (req : CreateRequest) (payload : RequestBody)
         (owner plan_ref : string) (m : PaymentMethod) (c : Customer.t)
         (settings : Settings.t) (w : World),
    create_method req <> "OPTIONS"%string ->
    create_body req = Some payload ->
    owner_id payload = Some owner -> owner <> ""%string ->
    plan_id payload = Some plan_ref -> plan_ref <> ""%string ->
    payment_method payload = Some m ->
    customer payload = Some c ->
    (m = credit_card -> card payload <> None) ->
    filter (fun s => (Settings.owner_id s =? owner)%string) (payment_settings w)
    = [settings] ->
    method_enabled m settings = false \/
    ~ plan_available w plan_ref \/
    ~ gateway_configured settings ->
    exists p,
      violated p w settings m plan_ref /\
      payment_create o req w = (bad_request (validation_error p m), w).
Proof.
  intros o req payload owner plan_ref m c settings w
         Hm Hb Ho Hone Hp Hpne Hpm Hc Hcard Hset Hviol.
  apply String.eqb_neq in Hm, Hone, Hpne.
  unfold payment_create, try_catch, bind, eval, ret, select_settings,
    select_plans, select_profiles.
  rewrite Hm, Hb, Ho, Hp, Hpm, Hc, Hone, Hpne; simpl.
  assert (Hcardb : (method_eqb m credit_card
                    && match card payload with Some _ => false | None => true end)%bool
                   = false).
  { destruct m; simpl; try reflexivity.
    destruct (card payload); [reflexivity|]. now destruct Hcard. }
  rewrite Hcardb, Hset; simpl.
  destruct (method_enabled m settings) eqn:Hen; simpl.
  2:{ exists MethodEnabled. split; [exact Hen|reflexivity]. }
  destruct (filter (fun p => ((Plan.id p =? plan_ref)%string && Plan.is_active p)%bool)
                   (plans w)) as [|plan [|extra rest]] eqn:Hplans; simpl.
  - exists PlanActive. split; [|reflexivity].
    intros [plan Hplan]. unfold plan_available in *. congruence.
  - destruct (select_adapter settings m (exchange o)) as [call|] eqn:Hsel.
    + exfalso. destruct Hviol as [Hv|[Hv|Hv]].
      * discriminate.
      * apply Hv. exists plan. exact Hplans.
      * apply Hv. unfold gateway_configured, select_adapter in *. simpl.
        destruct (String.eqb_spec (Settings.active_gateway settings) "mercado_pago");
          [now left|].
        destruct (String.eqb_spec (Settings.active_gateway settings) "asaas");
          [now right; left|].
        destruct (String.eqb_spec (Settings.active_gateway settings) "pagseguro");
          [now right; right; left|].
        destruct (String.eqb_spec (Settings.active_gateway settings) "pagarme");
          [now right; right; right; left|].
        discriminate.
    + exists GatewayConfigured. split; [|reflexivity].
      unfold gateway_configured, select_adapter in *. simpl.
      intros [H|[H|[H|[H|[]]]]]; rewrite <- H in Hsel; simpl in Hsel;
        discriminate.
  - exists PlanActive. split; [|reflexivity].
    intros [plan' Hplan]. congruence.
Qed.

Lemma create_rejects_unmet_precondition_witness :
  let w := Sample.world "asaas" pending None [] in
  let o := Sample.create_outside
             (Accepted "ext_2" (JS.Str "CONFIRMED") Sample.no_fields (Some "visa")) in
  exists p,
    violated p w (Sample.settings "asaas") credit_card "plan_30" /\
    payment_create o (Sample.checkout credit_card (Some Sample.visa)) w
    = (bad_request (validation_error p credit_card), w).
Proof.
  exact (create_rejects_unmet_precondition
           (Sample.create_outside
              (Accepted "ext_2" (JS.Str "CONFIRMED") Sample.no_fields (Some "visa")))
           (Sample.checkout credit_card (Some Sample.visa))
           {| owner_id := Some "owner_1"; plan_id := Some "plan_30";
              payment_method := Some credit_card; customer := Some Sample.ana;
              card := Some Sample.visa |}
           "owner_1" "plan_30" credit_card Sample.ana (Sample.settings "asaas")
           (Sample.world "asaas" pending None [])
           ltac:(discriminate) eq_refl eq_refl ltac:(discriminate)
           eq_refl ltac:(discriminate) eq_refl eq_refl
           ltac:(intros _; discriminate) eq_refl
           (or_introl eq_refl)).
Defined.

(** The scenario of the specification: credit card requested while
    [credit_card_enabled] is false. *)
Lemma create_card_disabled_scenario :
  let w := Sample.world "asaas" pending None [] in
  let o := Sample.create_outside
             (Accepted "ext_2" (JS.Str "CONFIRMED") Sample.no_fields (Some "visa")) in
  payment_create o (Sample.checkout credit_card (Some Sample.visa)) w
  = (bad_request "Cartao de credito nao esta habilitado", w).
Proof. vm_compute. reflexivity. Qed.

(** Closes a branch of payment-create that answers before the charge. *)
Ltac early Hrun :=
  repeat match type of Hrun with
         | context [match ?x with _ => _ end] => destruct x
         end;
  subst; left; split; [apply quiet_refl | simpl; discriminate].

(** The run of payment-create.  Either the request is answered before
    anything is stored: the answer is not 200 and the world has gained at
    most requests to the gateway.  Or the charge was made and its row
    inserted; the handler then provisions an approved card charge, and
    answers 200 unless provisioning raises. *)
Lemma create_run (o : CreateOutside) (req : CreateRequest) (w : World) :
  create_method req <> "OPTIONS"%string ->
  (quiet w (snd (payment_create o req w)) /\
   code (fst (payment_create o req w)) <> 200) \/
  exists payload owner plan_ref m c settings plan ext s fields brand row_id before,
    create_body req = Some payload /\
    owner_id payload = Some owner /\
    plan_id payload = Some plan_ref /\
    payment_method payload = Some m /\
    customer payload = Some c /\
    filter (fun s => (Settings.owner_id s =? owner)%string) (payment_settings w)
    = [settings] /\
    filter (fun p => ((Plan.id p =? plan_ref)%string && Plan.is_active p)%bool)
           (plans w) = [plan] /\
    forallb is_gateway_request before = true /\
    inserted_id o = Some row_id /\
    let row := new_payment o row_id owner plan_ref plan settings m c (card payload)
                 (data (maybeSingle (filter (has_email_of o c) (profiles w))))
                 ext s fields brand in
    let inserted :=
      {| payments := payments w ++ [row]; profiles := profiles w;
         plans := plans w; payment_settings := payment_settings w;
         trace := trace w ++ before ++ [PaymentInsert row] |} in
    payment_create o req w
    = if (method_eqb m credit_card && status_eqb s approved)%bool
      then
        let run := handlePaymentApproved_create (outside o) row plan inserted in
        (match fst run with
         | Val _ => respond 200 (Created row_id s fields)
         | Throw => respond 500 (ErrorMessage "Erro interno do servidor")
         end, snd run)
      else (respond 200 (Created row_id s fields), inserted).
Proof.
  intros Hm. apply String.eqb_neq in Hm.
  remember (payment_create o req w) as result eqn:Hrun.
  unfold payment_create, try_catch, bind, eval, ret, select_settings,
    select_plans, select_profiles in Hrun.
  rewrite Hm in Hrun.
  destruct (create_body req) as [payload|]; [|early Hrun].
  destruct (owner_id payload) as [owner|] eqn:Ho; [|early Hrun].
  destruct (plan_id payload) as [plan_ref|] eqn:Hp; [|early Hrun].
  destruct (payment_method payload) as [m|] eqn:Hpm; [|early Hrun].
  destruct (customer payload) as [c|] eqn:Hc; [|early Hrun].
  destruct ((owner =? "") || (plan_ref =? ""))%string%bool; [early Hrun|].
  destruct (method_eqb m credit_card && _)%bool in Hrun; [early Hrun|].
  destruct (filter _ (payment_settings w)) as [|settings [|extra more]] eqn:Hset;
    simpl in Hrun; try (early Hrun).
  destruct (method_enabled m settings) eqn:Hen; simpl in Hrun; [|early Hrun].
  destruct (filter _ (plans w)) as [|plan [|extra more]] eqn:Hplan;
    simpl in Hrun; try (early Hrun).
  fold (has_email_of o c) in Hrun.
  destruct (select_adapter settings m (exchange o)) as [call|] eqn:Hsel;
    [|early Hrun].
  destruct (select_adapter_effect settings m (exchange o) call w Hsel)
    as [answer [before [Hcall Hbefore]]].
  rewrite Hcall in Hrun.
  destruct answer as [msg|ext s fields brand].
  { subst result. left. simpl. split; [|discriminate].
    repeat split. exists before. split; [reflexivity|exact Hbefore]. }
  destruct (inserted_id o) as [row_id|] eqn:Hins.
  2:{ subst result. left. simpl. split; [|discriminate].
      repeat split. exists before. split; [reflexivity|exact Hbefore]. }
  right.
  exists payload, owner, plan_ref, m, c, settings, plan, ext, s, fields, brand,
    row_id, before.
  repeat (split; [first [reflexivity | assumption]|]).
  cbv zeta. subst result.
  unfold emit, insert_payment; simpl.
  destruct (method_eqb m credit_card && status_eqb s approved)%bool.
  - rewrite <- app_assoc.
    destruct (handlePaymentApproved_create _ _ _ _) as [[[]|] w2]; reflexivity.
  - simpl. rewrite <- app_assoc. reflexivity.
Qed.

(** The run of a request that is answered 200. *)
Lemma create_success_shape (o : CreateOutside) (req : CreateRequest) (w : World) :
  create_method req <> "OPTIONS"%string ->
  code (fst (payment_create o req w)) = 200 ->
  exists payload owner plan_ref m c settings plan ext s fields brand row_id before,
    create_body req = Some payload /\
    owner_id payload = Some owner /\
    plan_id payload = Some plan_ref /\
    payment_method payload = Some m /\
    customer payload = Some c /\
    filter (fun s => (Settings.owner_id s =? owner)%string) (payment_settings w)
    = [settings] /\
    filter (fun p => ((Plan.id p =? plan_ref)%string && Plan.is_active p)%bool)
           (plans w) = [plan] /\
    forallb is_gateway_request before = true /\
    inserted_id o = Some row_id /\
    let row := new_payment o row_id owner plan_ref plan settings m c (card payload)
                 (data (maybeSingle (filter (has_email_of o c) (profiles w))))
                 ext s fields brand in
    let inserted :=
      {| payments := payments w ++ [row]; profiles := profiles w;
         plans := plans w; payment_settings := payment_settings w;
         trace := trace w ++ before ++ [PaymentInsert row] |} in
    fst (payment_create o req w) = respond 200 (Created row_id s fields) /\
    snd (payment_create o req w)
    = (if (method_eqb m credit_card && status_eqb s approved)%bool
       then snd (handlePaymentApproved_create (outside o) row plan inserted)
       else inserted) /\
    ((method_eqb m credit_card && status_eqb s approved)%bool = true ->
     fst (handlePaymentApproved_create (outside o) row plan inserted) = Val tt).
Proof.
  intros Hm H200.
  destruct (create_run o req w Hm) as [[_ Hne]|Hrun]; [contradiction|].
  destruct Hrun as (payload & owner & plan_ref & m & c & settings & plan & ext
                    & s & fields & brand & row_id & before & Hb & Ho & Hp & Hpm
                    & Hc & Hset & Hplan & Hbefore & Hins & Hrun).
  exists payload, owner, plan_ref, m, c, settings, plan, ext, s, fields, brand,
    row_id, before.
  repeat (split; [assumption|]).
  cbv zeta in *. rewrite Hrun in H200 |- *.
  destruct (method_eqb m credit_card && status_eqb s approved)%bool.
  - destruct (handlePaymentApproved_create _ _ _ _) as [[[]|] w2];
      simpl in *; [|discriminate].
    repeat split.
  - repeat split. discriminate.
Qed.

Lemma detail_not_insert (events : list Event) :
  forallb provisioning_detail events = true ->
  count is_payment_insert events = 0%nat.
Proof.
  apply count_none. intros e. destruct e; simpl; congruence.
Qed.

(** Provisioning for a payment that names its client renews that account
    and leaves the payments table alone. *)
Lemma renewal_keeps_payments (o : Outside) (payment : Payment.t) (plan : Plan.t)
      (w : World) (client : string) :
  Payment.client_id payment = Some client ->
  client <> ""%string ->
  payments (snd (handlePaymentApproved_create o payment plan w)) = payments w.
Proof.
  intros Hclient Hid. apply String.eqb_neq in Hid.
  unfold handlePaymentApproved_create, provision.
  rewrite Hclient, Hid.
  unfold provision_renewal, renew_profile, update_profile, select_profiles,
    emit, bind, eval. simpl.
  destruct (JSDate.toISOString _); reflexivity.
Qed.

(** C10. When payment-create succeeds (answers 200 to a request other than
    the preflight), it inserts exactly one payment row, at the end of the
    payments table.  If exactly one profile has the customer's lowercased
    email, the row's client_id is that profile's id and the table ends up
    as the old one followed by that row; if no profile, or more than one,
    has that email, the row is inserted with client_id null (and may be
    linked to a client by the provisioning that follows the insert of an
    approved card charge). *)
Theorem create_links_existing_client :
  forall (o : CreateOutside) (req : CreateRequest) (w : World),
    create_method req <> "OPTIONS"%string ->
    code (fst (payment_create o req w)) = 200 ->
    exists payload c row before after,
      create_body req = Some payload /\
      customer payload = Some c /\
      trace (snd (payment_create o req w))
      = trace w ++ before ++ PaymentInsert row :: after /\
      forallb is_gateway_request before = true /\
      count is_payment_insert after = 0%nat /\
      (payments (snd (payment_create o req w)) = payments w ++ [row] \/
       exists client,
         payments (snd (payment_create o req w))
         = update_where Payment.id (Payment.id row) (Payment.set_client client)
                        (payments w ++ [row])) /\
      (forall p, filter (has_email_of o c) (profiles w) = [p] ->
                 Profile.id p <> ""%string ->
                 Payment.client_id row = Some (Profile.id p) /\
                 payments (snd (payment_create o req w)) = payments w ++ [row]) /\
      ((forall p, filter (has_email_of o c) (profiles w) <> [p]) ->
       Payment.client_id row = None).
Proof.
  intros o req w Hm H200.
  destruct (create_success_shape o req w Hm H200)
    as (payload & owner & plan_ref & m & c & settings & plan & ext & s & fields
        & brand & row_id & before & Hb & Ho & Hp & Hpm & Hc & Hset & Hplan
        & Hbefore & Hins & Hfst & Hsnd & Hret).
  cbv zeta in Hsnd, Hret.
  set (row := new_payment o row_id owner plan_ref plan settings m c (card payload)
                (data (maybeSingle (filter (has_email_of o c) (profiles w))))
                ext s fields brand) in *.
  set (inserted := {| payments := payments w ++ [row]; profiles := profiles w;
                      plans := plans w; payment_settings := payment_settings w;
                      trace := trace w ++ before ++ [PaymentInsert row] |}) in *.
  assert (Hnone : (forall p, filter (has_email_of o c) (profiles w) <> [p]) ->
                  Payment.client_id row = None).
  { intros Hno. unfold row. simpl.
    destruct (filter (has_email_of o c) (profiles w)) as [|p [|q rest]];
      try reflexivity.
    now contradiction (Hno p). }
  assert (Hsome : forall p, filter (has_email_of o c) (profiles w) = [p] ->
                            Profile.id p <> ""%string ->
                            Payment.client_id row = Some (Profile.id p)).
  { intros p Hp' Hid. unfold row. simpl. rewrite Hp'. simpl.
    apply String.eqb_neq in Hid. now rewrite Hid. }
  exists payload, c, row, before.
  destruct (method_eqb m credit_card && status_eqb s approved)%bool eqn:Hprov.
  - specialize (Hret eq_refl).
    destruct (handlePaymentApproved_create_effect (outside o) row plan inserted)
      as (r & w2 & Hrun & Hpay & _ & _ & events & Ht & Hd & _).
    rewrite Hrun in Hsnd, Hret. simpl in Hsnd, Hret. rewrite Hsnd.
    exists (ProvisioningCall (Payment.id row) :: events).
    split; [exact Hb|]. split; [exact Hc|].
    split; [rewrite Ht; unfold inserted; simpl;
            now rewrite <- !app_assoc|].
    split; [exact Hbefore|].
    split; [rewrite count_cons; simpl; now apply detail_not_insert|].
    split; [exact Hpay|].
    split; [|exact Hnone].
    intros p Hp' Hid. split; [now apply Hsome|].
    pose proof (renewal_keeps_payments (outside o) row plan inserted
                  (Profile.id p) (Hsome p Hp' Hid) Hid) as Hkeep.
    rewrite Hrun in Hkeep. exact Hkeep.
  - rewrite Hsnd. exists [].
    split; [exact Hb|]. split; [exact Hc|].
    split; [reflexivity|].
    split; [exact Hbefore|]. split; [reflexivity|].
    split; [now left|].
    split; [|exact Hnone].
    intros p Hp' Hid. split; [now apply Hsome|reflexivity].
Qed.

Lemma create_links_existing_client_witness :
  let w := Sample.world "asaas" pending None
                        [Sample.account (Some (Sample.today + 10))] in
  let o := Sample.create_outside
             (Accepted "ext_2" (JS.Str "PENDING") Sample.no_fields None) in
  exists row,
    payments (snd (payment_create o (Sample.checkout pix None) w))
    = payments w ++ [row] /\
    Payment.client_id row = Some "client_1"%string.
Proof.
  intros w o.
  destruct (create_links_existing_client o (Sample.checkout pix None) w
              ltac:(discriminate) ltac:(vm_compute; reflexivity))
    as (payload & c & row & before & after & Hb & Hc & _ & _ & _ & _ & Hsome & _).
  simpl in Hb. injection Hb as <-. simpl in Hc. injection Hc as <-.
  exists row.
  destruct (Hsome (Sample.account (Some (Sample.today + 10))) eq_refl
              ltac:(discriminate)) as [Hclient Hpay].
  split; [exact Hpay|exact Hclient].
Defined.

(** ** The scenarios of the renewal laws and of the duplicate delivery *)

Lemma renewal_extends_or_restarts_witness :
  let account := Sample.account (Some (Sample.today + 10)) in
  let payment := Sample.payment "pagseguro" pending (Some "client_1") in
  let w := Sample.world "pagseguro" pending (Some "client_1") [account] in
  fst (handlePaymentApproved Sample.env payment w) = Val tt /\
  exists after,
    filter (fun p => (Profile.id p =? "client_1")%string)
           (profiles (snd (handlePaymentApproved Sample.env payment w)))
    = [after] /\
    Profile.plan_end_date after = Some (Sample.today + 40) /\
    Profile.is_active after = true.
Proof.
  intros account payment w.
  assert (Hrep : representable (now Sample.env)
                               (Plan.duration_days Sample.plan30) account).
  { split; [reflexivity|]. split; [|reflexivity].
    intros e He. injection He as <-. reflexivity. }
  destruct (proj2 (renewal_extends_or_restarts Sample.env payment Sample.plan30 w
                     "client_1" account eq_refl ltac:(discriminate) eq_refl Hrep)
                  eq_refl)
    as (Hret & after & Hrow & Hactive & _ & Hextend & _).
  split; [exact Hret|].
  exists after. split; [exact Hrow|]. split; [|exact Hactive].
  apply (Hextend (Sample.today + 10)); [reflexivity|].
  vm_compute. reflexivity.
Defined.

(** Counterexample to C4 as stated, which speaks of every plan: with a
    plan of 100,000,000 days the new end date is past the last instant a
    Date can hold, toISOString raises, and the account keeps the end date
    it had (today + 10) instead of getting the old end date plus the
    duration. *)
Lemma renewal_past_last_date_raises :
  let account := Sample.account (Some (Sample.today + 10)) in
  let payment := Sample.payment "pagseguro" pending (Some "client_1") in
  let plan := Plan.mk "plan_30" "Plano Vitalicio" 100000000 9900 true in
  let w := Sample.world "pagseguro" pending (Some "client_1") [account] in
  fst (handlePaymentApproved_create Sample.env payment plan w) = Throw /\
  map Profile.plan_end_date
      (profiles (snd (handlePaymentApproved_create Sample.env payment plan w)))
  = [Some (Sample.today + 10)] /\
  ~ (exists after,
        filter (fun p => (Profile.id p =? "client_1")%string)
               (profiles (snd (handlePaymentApproved_create
                                 Sample.env payment plan w)))
        = [after] /\
        Profile.plan_end_date after
        = Some (Sample.today + 10 + Plan.duration_days plan)).
Proof.
  intros account payment plan w.
  split; [vm_compute; reflexivity|]. split; [vm_compute; reflexivity|].
  intros (after & Hrow & Hend).
  vm_compute in Hrow. injection Hrow as <-.
  vm_compute in Hend. discriminate.
Qed.

(** A lapsed account (end date yesterday) restarts from today. *)
Lemma renewal_of_lapsed_account :
  let account := Sample.account (Some (Sample.today - 1)) in
  let payment := Sample.payment "pagseguro" pending (Some "client_1") in
  let w := Sample.world "pagseguro" pending (Some "client_1") [account] in
  map Profile.plan_end_date
      (profiles (snd (handlePaymentApproved Sample.env payment w)))
  = [Some (Sample.today + 30)].
Proof. vm_compute. reflexivity. Qed.

(** The "confirmed" event delivered twice to the Pagar.me receiver: one
    status write, one provisioning call, one account, one email. *)
Lemma duplicate_paid_event_scenario :
  let w := Sample.world "pagarme" pending None [] in
  let first := webhook_pagarme Sample.env (Sample.pagarme_event "order.paid") w in
  let second := webhook_pagarme Sample.env (Sample.pagarme_event "order.paid")
                                (snd first) in
  snd second = snd first /\
  fst second = webhook_ok /\
  trace (snd second)
  = [StatusWrite "pay_1" approved; ProvisioningCall "pay_1";
     UserCreate "ana@example.com"; ProfileInsert "user_new";
     ClientLink "pay_1" "user_new"; EmailSend "ana@example.com"] /\
  List.length (profiles (snd second)) = 1%nat.
Proof. vm_compute. repeat split. Qed.

(** The Mercado Pago receiver asks the provider again on a duplicate
    notification, but writes nothing and provisions nothing. *)
Lemma mercadopago_duplicate_scenario :
  let w := Sample.world "mercado_pago" pending None [] in
  let first := webhook_mercadopago Sample.env (Sample.live "approved")
                                   Sample.mp_notification w in
  let second := webhook_mercadopago Sample.env (Sample.live "approved")
                                    Sample.mp_notification (snd first) in
  payments (snd second) = payments (snd first) /\
  profiles (snd second) = profiles (snd first) /\
  trace (snd second) = trace (snd first) ++ [GatewayRequest "mercado_pago"] /\
  count is_status_write (trace (snd second)) = 1%nat /\
  count is_provisioning (trace (snd second)) = 1%nat.
Proof. vm_compute. repeat split. Qed.



(** payment-create sends a gateway request or inserts a row only for a
    request that meets every precondition: whenever its trace grows, the
    method is enabled, the plan is available and a known gateway is
    active. *)
Lemma create_effects_require_preconditions (o : CreateOutside)
      (req : CreateRequest) (w : World) :
  trace (snd (payment_create o req w)) <> trace w ->
  exists payload owner plan_ref m settings,
    create_body req = Some payload /\
    owner_id payload = Some owner /\
    plan_id payload = Some plan_ref /\
    payment_method payload = Some m /\
    filter (fun s => (Settings.owner_id s =? owner)%string) (payment_settings w)
    = [settings] /\
    method_enabled m settings = true /\
    plan_available w plan_ref /\
    gateway_configured settings.
Proof.
  unfold payment_create, try_catch, bind, eval, ret, select_settings,
    select_plans, select_profiles.
  destruct (create_method req =? "OPTIONS")%string; [simpl; congruence|].
  destruct (create_body req) as [payload|]; [|simpl; congruence].
  destruct (owner_id payload) as [owner|] eqn:Ho;
    [|repeat split_match; simpl; congruence].
  destruct (plan_id payload) as [plan_ref|] eqn:Hp;
    [|repeat split_match; simpl; congruence].
  destruct (payment_method payload) as [m|] eqn:Hpm;
    [|repeat split_match; simpl; congruence].
  destruct (customer payload) as [c|] eqn:Hc; [|simpl; congruence].
  destruct ((owner =? "") || (plan_ref =? ""))%string%bool; [simpl; congruence|].
  destruct (method_eqb m credit_card && _)%bool; [simpl; congruence|].
  destruct (filter _ (payment_settings w)) as [|settings [|extra more]] eqn:Hset;
    simpl; try congruence.
  destruct (method_enabled m settings) eqn:Hen; simpl; [|congruence].
  destruct (filter _ (plans w)) as [|plan [|extra more]] eqn:Hplan;
    simpl; try congruence.
  destruct (select_adapter settings m (exchange o)) as [call|] eqn:Hsel;
    [|simpl; congruence].
  intros _.
  exists payload, owner, plan_ref, m, settings.
  repeat split; try assumption; try reflexivity.
  - exists plan. exact Hplan.
  - unfold gateway_configured, select_adapter in *. simpl.
    destruct (String.eqb_spec (Settings.active_gateway settings) "mercado_pago");
      [now left|].
    destruct (String.eqb_spec (Settings.active_gateway settings) "asaas");
      [now right; left|].
    destruct (String.eqb_spec (Settings.active_gateway settings) "pagseguro");
      [now right; right; left|].
    destruct (String.eqb_spec (Settings.active_gateway settings) "pagarme");
      [now right; right; right; left|].
    discriminate.
Qed.

(** * Further properties of the code *)

(** ** payment-status: errors and the live lookup *)

Lemma filter_none {A} (f : A -> bool) (rows : list A) :
  (forall r, In r rows -> f r = false) -> filter f rows = [].
Proof.
  induction rows as [|r rows IH]; simpl; intros H; [reflexivity|].
  rewrite (H r) by now left. apply IH. intros; apply H; now right.
Qed.

(** X1. payment-status answers a request it cannot serve without touching
    anything: 500 when the body is not JSON (or is null), 400 when
    payment_id is missing or falsy, 404 when no payment has that id; when
    payment_id is an object or array that does not convert to the text the
    query needs, the conversion raises and the answer is 500. *)
Theorem poll_rejects_bad_request :
  forall (clock : Z) (reply : option JS.value) (req : Request) (w : World),
    method req <> "OPTIONS"%string ->
    (body req = None ->
     payment_status clock reply req w
     = (json_error 500 "Erro interno do servidor", w)) /\
    (forall payload,
        body req = Some payload ->
        JS.truthy (JS.opt_get payload "payment_id") = false ->
        payment_status clock reply req w
        = (match JS.get payload "payment_id" with
           | Val _ => json_error 400 "payment_id e obrigatorio"
           | Throw => json_error 500 "Erro interno do servidor"
           end, w)) /\
    (forall payload payment_id,
        body req = Some payload ->
        JS.get payload "payment_id" = Val payment_id ->
        JS.truthy payment_id = true ->
        (forall p, In p (payments w) -> Payment.id p <> JS.to_string payment_id) ->
        payment_status clock reply req w
        = (if JS.converts payment_id
           then json_error 404 "Pagamento nao encontrado"
           else json_error 500 "Erro interno do servidor", w)).
Proof.
  intros clock reply req w Hm. apply String.eqb_neq in Hm.
  unfold payment_status, try_catch, parse_body, select_payments, text_of,
    bind, eval, ret.
  rewrite Hm. split; [|split].
  - intros Hb. now rewrite Hb.
  - intros payload Hb. rewrite Hb. unfold JS.opt_get.
    destruct (JS.get payload "payment_id") as [pid|]; [|reflexivity].
    intros Ht. now rewrite Ht.
  - intros payload pid Hb Hid Ht Hnone. rewrite Hb, Hid, Ht. simpl.
    rewrite filter_none.
    + simpl. now destruct (JS.converts pid).
    + intros p Hin. apply String.eqb_neq. now apply Hnone.
Qed.

Lemma poll_rejects_bad_request_witness :
  let w := Sample.world "asaas" pending None [] in
  payment_status Sample.clock (Sample.live "CONFIRMED")
                 (Sample.post (JS.Obj [("payment_id", JS.Str "pay_9")])) w
  = (json_error 404 "Pagamento nao encontrado", w).
Proof.
  intros w.
  apply (proj2 (proj2 (poll_rejects_bad_request
                         Sample.clock (Sample.live "CONFIRMED")
                         (Sample.post (JS.Obj [("payment_id", JS.Str "pay_9")]))
                         w ltac:(discriminate)))
               (JS.Obj [("payment_id", JS.Str "pay_9")]) (JS.Str "pay_9")
               eq_refl eq_refl eq_refl).
  intros p [<-|[]]. discriminate.
Defined.

(** X2. For a payment that is stored as pending or refunded and whose owner
    uses Mercado Pago or Asaas, the poll asks the gateway once, answers
    with the status obtained from it and stores that status with one
    write when it differs from the stored one: afterwards the row carries
    that status,
    and [paid_at] is the time of the poll exactly when the status is
    approved.  When the lookup fails (no reply, or a reply without a
    readable status) the status is pending: a stored pending payment is
    left as it is, a stored refunded payment is rewritten to pending.  An
    Asaas status the handler does not know counts as rejected, a Mercado
    Pago one as pending. *)
Theorem poll_records_live_status :
  forall (clock : Z) (reply : option JS.value) (req : Request)
         (payload payment_id : JS.value) (w : World) (payment : Payment.t)
         (settings : Settings.t),
    method req <> "OPTIONS"%string ->
    body req = Some payload ->
    JS.get payload "payment_id" = Val payment_id ->
    JS.truthy payment_id = true ->
    JS.converts payment_id = true ->
    filter (fun p => (Payment.id p =? JS.to_string payment_id)%string) (payments w)
    = [payment] ->
    Payment.status payment = pending \/ Payment.status payment = refunded ->
    filter (fun s => (Settings.owner_id s =? Payment.owner_id payment)%string)
           (payment_settings w) = [settings] ->
    Settings.active_gateway settings = "mercado_pago"%string \/
    Settings.active_gateway settings = "asaas"%string ->
    let r := payment_status clock reply req w in
    exists live,
      fst r = respond 200 (StatusPaid live (if status_eqb live approved
                                            then Some clock else None)) /\
      trace (snd r)
      = trace w ++ GatewayRequest (Settings.active_gateway settings)
                :: (if status_eqb live (Payment.status payment) then []
                    else [StatusWrite (JS.to_string payment_id) live]) /\
      filter (fun p => (Payment.id p =? JS.to_string payment_id)%string)
             (payments (snd r))
      = [if status_eqb live (Payment.status payment) then payment
         else Payment.set_status live None clock payment] /\
      (live = Payment.status payment -> payments (snd r) = payments w) /\
      (reply = None -> live = pending) /\
      (forall data_,
          reply = Some data_ ->
          live = match JS.get data_ "status" with
                 | Throw => pending
                 | Val native =>
                     if (Settings.active_gateway settings =? "mercado_pago")%string
                     then mp_status pending native
                     else asaas_live_status native
                 end).
Proof.
  intros clock reply req payload payment_id w payment settings
         Hm Hb Hid Ht _ Hrow Hst Hset Hgw r.
  subst r.
  rewrite (payment_status_found clock reply req payload payment_id w payment
             Hm Hb Hid Ht Hrow).
  assert (Ha : status_eqb (Payment.status payment) approved = false)
    by (destruct Hst as [-> | ->]; reflexivity).
  assert (He : (status_eqb (Payment.status payment) expired
                || status_eqb (Payment.status payment) rejected)%bool = false)
    by (destruct Hst as [-> | ->]; reflexivity).
  rewrite Ha, He, Hset; simpl.
  set (live := match reply with
               | None => pending
               | Some data_ =>
                   match JS.get data_ "status" with
                   | Throw => pending
                   | Val native =>
                       if (Settings.active_gateway settings =? "mercado_pago")%string
                       then mp_status pending native
                       else asaas_live_status native
                   end
               end).
  exists live.
  assert (Hrun :
    forall g, Settings.active_gateway settings = g ->
      (if (g =? "mercado_pago")%string then checkMercadoPagoStatus reply
       else if (g =? "asaas")%string then checkAsaasStatus reply
       else ret (Payment.status payment)) w
      = (Val live, {| payments := payments w; profiles := profiles w;
                      plans := plans w; payment_settings := payment_settings w;
                      trace := trace w ++ [GatewayRequest g] |})).
  { intros g Hg. subst live. rewrite Hg.
    destruct Hgw as [Hgw|Hgw]; rewrite Hgw in Hg; subst g; simpl;
      unfold checkMercadoPagoStatus, checkAsaasStatus, bind, emit, ret; simpl;
      destruct reply as [d|]; try reflexivity;
      destruct (JS.get d "status"); reflexivity. }
  unfold try_catch, bind. rewrite (Hrun _ eq_refl).
  unfold write_status, update_payment, emit, bind, ret; simpl.
  destruct (status_eqb live (Payment.status payment)) eqn:E; simpl.
  - repeat split.
    + exact Hrow.
    + intros ->. reflexivity.
    + intros d ->. reflexivity.
  - repeat split.
    + now rewrite <- app_assoc.
    + rewrite filter_update_where by reflexivity.
      rewrite Hrow. simpl.
      pose proof (single_row_key _ _ _ Hrow) as Hk. simpl in Hk. now rewrite Hk.
    + intros Heq. apply status_eqb_eq in Heq. congruence.
    + intros ->. reflexivity.
    + intros d ->. reflexivity.
Qed.

Lemma poll_records_live_status_witness :
  let w := Sample.world "mercado_pago" refunded None [] in
  map Payment.status
      (filter (fun p => (Payment.id p =? "pay_1")%string)
              (payments (snd (payment_status Sample.clock None Sample.poll w))))
  = [pending].
Proof.
  intros w.
  destruct (poll_records_live_status
              Sample.clock None Sample.poll
              (JS.Obj [("payment_id", JS.Str "pay_1")]) (JS.Str "pay_1") w
              (Sample.payment "mercado_pago" refunded None)
              (Sample.settings "mercado_pago")
              ltac:(discriminate) eq_refl eq_refl eq_refl eq_refl eq_refl
              (or_intror eq_refl) eq_refl (or_introl eq_refl))
    as (live & _ & _ & Hrow & _ & Hnone & _).
  rewrite (Hnone eq_refl) in Hrow.
  simpl JS.to_string in Hrow. rewrite Hrow. reflexivity.
Defined.

(** ** Webhook receivers: what they leave alone *)

(** The columns of a payment that no update of the handlers mentions. *)
Lemma set_status_keeps_charge (s : PaymentStatus) (h : option JS.value)
      (n : Z) (p : Payment.t) :
  charge_of (Payment.set_status s h n p) = charge_of p.
Proof. reflexivity. Qed.

Lemma set_client_keeps_charge (c : string) (p : Payment.t) :
  charge_of (Payment.set_client c p) = charge_of p.
Proof. reflexivity. Qed.

Lemma update_where_keeps {A B} (key : A -> string) (k : string) (f : A -> A)
      (view : A -> B) (rows : list A) :
  (forall r, view (f r) = view r) ->
  map view (update_where key k f rows) = map view rows.
Proof.
  intros H. unfold update_where. rewrite map_map. apply map_ext.
  intros r. destruct (key r =? k)%string; auto.
Qed.

Lemma same_charges_refl (w : World) : same_charges w w.
Proof. repeat split. Qed.

Lemma same_charges_trans (w1 w2 w3 : World) :
  same_charges w1 w2 -> same_charges w2 w3 -> same_charges w1 w3.
Proof.
  unfold same_charges. intros (A & B & C) (D & E & F).
  repeat split; congruence.
Qed.

Lemma provision_same_charges (o : Outside) (payment : Payment.t) (plan : Plan.t)
      (w : World) :
  same_charges w (snd (provision o payment plan w)).
Proof.
  unfold same_charges. run.
  repeat split_match; simpl; repeat split;
    rewrite ?update_where_keeps by reflexivity; reflexivity.
Qed.

Lemma handlePaymentApproved_same_charges (o : Outside) (payment : Payment.t)
      (w : World) :
  same_charges w (snd (handlePaymentApproved o payment w)).
Proof.
  unfold handlePaymentApproved, bind, emit, select_plans; simpl.
  destruct (data (single _)) as [plan|]; simpl.
  - eapply same_charges_trans; [|apply provision_same_charges].
    repeat split.
  - repeat split.
Qed.

Lemma apply_status_same_charges (o : Outside) (dbPayment : Payment.t)
      (s : PaymentStatus) (hook : JS.value) (w : World) :
  same_charges w (snd (apply_status o dbPayment s hook w)).
Proof.
  unfold apply_status.
  destruct (status_eqb s (Payment.status dbPayment)); [apply same_charges_refl|].
  unfold write_status, update_payment, emit, bind, ret; simpl.
  match goal with
  | |- context [(if ?b then ?m else _) ?w0] =>
      assert (H1 : same_charges w w0)
        by (repeat split; simpl;
            rewrite ?update_where_keeps by reflexivity; reflexivity);
      destruct b;
        [pose proof (handlePaymentApproved_same_charges o dbPayment w0) as H2;
         destruct (handlePaymentApproved o dbPayment w0) as [[[]|] w1]
        |]
  end; simpl in *;
    first [eapply same_charges_trans; eassumption | exact H1].
Qed.

Lemma try_catch_same_charges (m : M Response) (handler : Response) (w : World) :
  same_charges w (snd (m w)) ->
  same_charges w (snd (try_catch m handler w)).
Proof. unfold try_catch. destruct (m w) as [[r|] w']; auto. Qed.

Lemma asked_same_charges (R : Receiver) (w : World) :
  same_charges w (asked R w).
Proof. unfold asked. destruct (asks_provider R); repeat split. Qed.

Lemma reconcile_same_charges (R : Receiver) (payload : JS.value) (o : Outside)
      (w : World) :
  same_charges w (snd (reconcile R payload o w)).
Proof.
  unfold reconcile.
  destruct (negb _); [apply same_charges_refl|].
  destruct (data (maybeSingle _)) as [db|]; [|apply same_charges_refl].
  destruct (candidate_of R payload (Payment.status db)) as [s|];
    [|apply asked_same_charges].
  eapply same_charges_trans; [apply asked_same_charges|].
  apply try_catch_same_charges, apply_status_same_charges.
Qed.

Lemma receiver_same_charges (R : Receiver) (o : Outside) (req : Request)
      (w : World) :
  same_charges w (snd (receiver R o req w)).
Proof.
  destruct (String.eqb_spec (method req) "OPTIONS") as [Hm|Hm].
  { rewrite (receiver_preflight R req Hm). apply same_charges_refl. }
  destruct (body req) as [payload|] eqn:Hb.
  2:{ rewrite (receiver_unparsed R req Hm Hb). apply same_charges_refl. }
  destruct (JS.truthy (payment_key R payload)) eqn:Hkey.
  - destruct (event_accepted R payload) eqn:Hev.
    + rewrite (receiver_reconciles R req payload Hm Hb Hkey Hev).
      apply reconcile_same_charges.
    + rewrite (receiver_unprocessed R req payload Hm Hb (or_intror Hev)).
      apply same_charges_refl.
  - rewrite (receiver_unprocessed R req payload Hm Hb (or_introl Hkey)).
    apply same_charges_refl.
Qed.

(** X3. The four webhook receivers and the polling entry never insert or
    delete a payment and never change what a payment row says about the
    charge (ids, gateway, amount, method, customer snapshot, PIX, boleto
    and card columns); they never touch plans or payment settings.  All
    they may change in a payment is status, paid_at, webhook_data and
    client_id. *)
Theorem reconciliation_keeps_charges :
  forall (o : Outside) (mpReply reply : option JS.value) (clock : Z)
         (req : Request) (w : World),
    same_charges w (snd (webhook_pagseguro o req w)) /\
    same_charges w (snd (webhook_pagarme o req w)) /\
    same_charges w (snd (webhook_asaas o req w)) /\
    same_charges w (snd (webhook_mercadopago o mpReply req w)) /\
    same_charges w (snd (payment_status clock reply req w)).
Proof.
  intros o mpReply reply clock req w.
  split; [|split; [|split; [|split]]].
  - apply (receiver_same_charges PagSeguro).
  - apply (receiver_same_charges PagarMe).
  - apply (receiver_same_charges Asaas).
  - apply (receiver_same_charges (MercadoPago mpReply)).
  - unfold payment_status.
    destruct (method req =? "OPTIONS")%string; [apply same_charges_refl|].
    apply try_catch_same_charges.
    unfold checkMercadoPagoStatus, checkAsaasStatus. run.
    unfold same_charges.
    repeat split_match; simpl; repeat split;
      rewrite ?update_where_keeps by reflexivity; reflexivity.
Qed.

(** ** The receivers, uniformly: unknown payments and transitions *)

(** X4. A notification for a payment that is not in the table (no row with
    that gateway and external id) changes nothing, whichever of the four
    receivers gets it.  It is answered 200, with two exceptions that are
    answered 500: the body is the JSON value null, or the id it carries is
    an object or array that does not convert to the text the query needs,
    so that the lookup raises. *)
Theorem unknown_payment_is_acknowledged :
  forall (R : Receiver) (o : Outside) (req : Request) (payload : JS.value)
         (w : World),
    method req <> "OPTIONS"%string ->
    body req = Some payload ->
    (forall p, In p (payments w) ->
               by_gateway_id (payment_key R payload) (gateway_of R) p = false) ->
    receiver R o req w
    = (if nullish payload then webhook_error
       else if (JS.truthy (payment_key R payload) && event_accepted R payload
                && negb (JS.converts (payment_key R payload)))%bool
            then webhook_error
            else webhook_ok, w).
Proof.
  intros R o req payload w Hm Hb Hnone.
  destruct (JS.truthy (payment_key R payload)) eqn:Hk.
  - destruct (event_accepted R payload) eqn:He.
    + rewrite (receiver_reconciles R req payload Hm Hb Hk He).
      rewrite (key_not_nullish R payload Hk).
      unfold reconcile. simpl.
      destruct (JS.converts (payment_key R payload)); simpl; [|reflexivity].
      now rewrite (filter_none _ _ Hnone).
    + rewrite (receiver_unprocessed R req payload Hm Hb (or_intror He)).
      reflexivity.
  - rewrite (receiver_unprocessed R req payload Hm Hb (or_introl Hk)).
    reflexivity.
Qed.

Lemma unknown_payment_is_acknowledged_witness :
  let w := Sample.world "asaas" pending None [] in
  receiver PagarMe Sample.env (Sample.pagarme_event "order.paid") w
  = (webhook_ok, w).
Proof.
  intros w.
  apply (unknown_payment_is_acknowledged
           PagarMe Sample.env (Sample.pagarme_event "order.paid")
           (JS.Obj [("type", JS.Str "order.paid");
                    ("data", JS.Obj [("id", JS.Str "ext_1")])])
           w ltac:(discriminate) eq_refl).
  intros p [<-|[]]. reflexivity.
Defined.

(** An id that does not convert is answered 500 by each receiver. *)
Lemma unconvertible_id_is_answered_500 :
  let w := Sample.world "pagseguro" pending None [] in
  let req := Sample.post (JS.Obj [("id", JS.Obj [("toString", JS.Num 0)])]) in
  webhook_pagseguro Sample.env req w = (webhook_error, w).
Proof. reflexivity. Qed.






(** The same notification when the plan lasts longer than a Date can
    hold: the status is written and stays, provisioning raises, the
    receiver answers 500. *)
Lemma approving_transition_can_answer_500 :
  let account := Sample.account (Some (Sample.today + 10)) in
  let w := {| payments := [Sample.payment "asaas" pending (Some "client_1")];
              profiles := [account];
              plans := [Plan.mk "plan_30" "Plano Vitalicio" 100000000 9900 true];
              payment_settings := [Sample.settings "asaas"];
              trace := [] |} in
  let r := webhook_asaas Sample.env (Sample.asaas_event "PAYMENT_RECEIVED") w in
  fst r = webhook_error /\
  map Payment.status (payments (snd r)) = [approved] /\
  profiles (snd r) = [account] /\
  trace (snd r) = [StatusWrite "pay_1" approved; ProvisioningCall "pay_1"].
Proof. vm_compute. repeat split. Qed.

(** ** Provisioning: the remaining branches *)

(** X7. For a payment without client whose customer email matches no
    profile, and when the auth user can be created, handlePaymentApproved
    adds exactly one profile (role client, the customer's name, email and
    phone, plan from today to today plus the plan's duration, active),
    links the payment to it and sends one email, in that order.  Both
    copies do this, provided today and the end date are dates a Date can
    hold. *)
Theorem provisioning_creates_account :
  forall (o : Outside) (payment : Payment.t) (plan : Plan.t) (w : World)
         (user : string),
    present (Payment.client_id payment) = false ->
    (forall p, In p (profiles w) ->
               Profile.email p <> Some (Payment.customer_email payment)) ->
    created_user o = Some user ->
    JSDate.valid (now o) = true ->
    JSDate.valid (JSDate.add_days (now o) (Plan.duration_days plan)) = true ->
    handlePaymentApproved_create o payment plan w
    = (Val tt, with_new_account o user payment plan w) /\
    (filter (fun p => (Plan.id p =? Payment.plan_id payment)%string) (plans w)
     = [plan] ->
     handlePaymentApproved o payment w
     = (Val tt, with_new_account o user payment plan w)).
Proof.
  intros o payment plan w user Hclient Hnone Huser Hnow Hend.
  assert (Hrows :
            filter (fun p => opt_str_eqb (Profile.email p)
                                         (Payment.customer_email payment))
                   (profiles w) = []).
  { apply filter_none. intros p Hin.
    specialize (Hnone p Hin). unfold opt_str_eqb.
    destruct (Profile.email p) as [e|]; [|reflexivity].
    apply String.eqb_neq. congruence. }
  assert (Hprov : forall w0, profiles w0 = profiles w ->
            provision o payment plan w0
            = provision_by_email o payment plan w0).
  { intros w0 _. unfold provision. unfold present in Hclient.
    destruct (Payment.client_id payment) as [c|]; [|reflexivity].
    destruct (c =? "")%string; [reflexivity|discriminate]. }
  split.
  - unfold handlePaymentApproved_create, bind, emit. simpl.
    rewrite Hprov by reflexivity.
    unfold provision_by_email, select_profiles, bind, emit, link_client,
      insert_profile, update_payment, ret, eval. simpl.
    rewrite Hrows, Huser. simpl.
    rewrite !toISOString_valid by assumption.
    unfold with_new_account. rewrite iso_date_add_days.
    repeat rewrite <- app_assoc. reflexivity.
  - intros Hplan.
    unfold handlePaymentApproved, bind, emit, select_plans. simpl.
    rewrite Hplan. simpl. rewrite Hprov by reflexivity.
    unfold provision_by_email, select_profiles, bind, emit, link_client,
      insert_profile, update_payment, ret, eval. simpl.
    rewrite Hrows, Huser. simpl.
    rewrite !toISOString_valid by assumption.
    unfold with_new_account. rewrite iso_date_add_days.
    repeat rewrite <- app_assoc. reflexivity.
Qed.

Lemma provisioning_creates_account_witness :
  let w := Sample.world "asaas" approved None [] in
  handlePaymentApproved Sample.env (Sample.payment "asaas" approved None) w
  = (Val tt, with_new_account Sample.env "user_new"
               (Sample.payment "asaas" approved None) Sample.plan30 w).
Proof.
  intros w.
  apply (proj2 (provisioning_creates_account
                  Sample.env (Sample.payment "asaas" approved None)
                  Sample.plan30 w "user_new" eq_refl
                  ltac:(intros p []) eq_refl eq_refl eq_refl)).
  reflexivity.
Defined.

(** With a plan that ends past the last date, the auth user is created
    and then the handler raises: no profile, no link, no email. *)
Lemma account_creation_past_last_date_raises :
  let w := Sample.world "asaas" approved None [] in
  let plan := Plan.mk "plan_30" "Plano Vitalicio" 100000000 9900 true in
  handlePaymentApproved_create Sample.env (Sample.payment "asaas" approved None)
                               plan w
  = (Throw, with_events [ProvisioningCall "pay_1"; UserCreate "ana@example.com"]
                        w).
Proof. reflexivity. Qed.

(** X8. Three ways in which handlePaymentApproved does nothing to the
    tables and reports nothing: the plan of the payment is gone (webhook
    copy), the payment names a client that has no profile row (and today
    plus the plan's duration is a date a Date can hold), or the auth user
    cannot be created.  The payment stays as it is; only the trace shows
    the attempt. *)
Theorem provisioning_can_silently_do_nothing :
  forall (o : Outside) (payment : Payment.t) (w : World),
    ((forall p, In p (plans w) -> Plan.id p <> Payment.plan_id payment) ->
     handlePaymentApproved o payment w
     = (Val tt, with_events [ProvisioningCall (Payment.id payment)] w)) /\
    (forall plan client,
        Payment.client_id payment = Some client ->
        client <> ""%string ->
        (forall p, In p (profiles w) -> Profile.id p <> client) ->
        JSDate.valid (JSDate.add_days (now o) (Plan.duration_days plan)) = true ->
        handlePaymentApproved_create o payment plan w
        = (Val tt, with_events [ProvisioningCall (Payment.id payment);
                                ProfileUpdate client] w)) /\
    (forall plan,
        present (Payment.client_id payment) = false ->
        (forall p, In p (profiles w) ->
                   Profile.email p <> Some (Payment.customer_email payment)) ->
        created_user o = None ->
        handlePaymentApproved_create o payment plan w
        = (Val tt, with_events [ProvisioningCall (Payment.id payment);
                                UserCreate (Payment.customer_email payment)] w)).
Proof.
  intros o payment w. split; [|split].
  - intros Hnone.
    unfold handlePaymentApproved, bind, emit, select_plans, ret. simpl.
    rewrite filter_none; [reflexivity|].
    intros p Hin. apply String.eqb_neq. now apply Hnone.
  - intros plan client Hc Hne Hnone Hend.
    apply String.eqb_neq in Hne.
    unfold handlePaymentApproved_create, provision, bind, emit. simpl.
    rewrite Hc, Hne.
    unfold provision_renewal, renew_profile, update_profile, select_profiles,
      bind, emit, eval. simpl.
    rewrite filter_none
      by (intros p Hin; apply String.eqb_neq; now apply Hnone).
    simpl. unfold newEndDate.
    rewrite toISOString_valid by exact Hend. simpl.
    assert (Hupd : forall e, update_where Profile.id client (Profile.renew e)
                                          (profiles w) = profiles w).
    { intros e. unfold update_where. rewrite <- (map_id (profiles w)) at 2.
      apply map_ext_in. intros p Hin.
      assert (E : (Profile.id p =? client)%string = false)
        by (apply String.eqb_neq; now apply Hnone).
      now rewrite E. }
    rewrite Hupd. unfold with_events. repeat rewrite <- app_assoc. reflexivity.
  - intros plan Hclient Hnone Huser.
    unfold handlePaymentApproved_create, provision, bind, emit. simpl.
    assert (Hprov : forall w0,
              match Payment.client_id payment with
              | Some client =>
                  if (client =? "")%string
                  then provision_by_email o payment plan
                  else provision_renewal o client plan
              | None => provision_by_email o payment plan
              end w0 = provision_by_email o payment plan w0).
    { intros w0. unfold present in Hclient.
      destruct (Payment.client_id payment) as [c|]; [|reflexivity].
      destruct (c =? "")%string; [reflexivity|discriminate]. }
    rewrite Hprov.
    unfold provision_by_email, select_profiles, bind, emit, ret. simpl.
    rewrite filter_none, Huser.
    + unfold with_events. simpl. repeat rewrite <- app_assoc. reflexivity.
    + intros p Hin. specialize (Hnone p Hin). unfold opt_str_eqb.
      destruct (Profile.email p) as [e|]; [|reflexivity].
      apply String.eqb_neq. congruence.
Qed.

Lemma provisioning_can_silently_do_nothing_witness :
  let payment := Sample.payment "asaas" approved (Some "client_9") in
  let w := Sample.world "asaas" approved (Some "client_9")
                        [Sample.account (Some (Sample.today + 10))] in
  profiles (snd (handlePaymentApproved_create Sample.env payment Sample.plan30 w))
  = [Sample.account (Some (Sample.today + 10))].
Proof.
  intros payment w.
  rewrite (proj1 (proj2 (provisioning_can_silently_do_nothing
                           Sample.env payment w))
                 Sample.plan30 "client_9" eq_refl ltac:(discriminate)).
  - reflexivity.
  - intros p [<-|[]]. discriminate.
  - reflexivity.
Defined.

(** X9. handlePaymentApproved sends an email only when it has inserted a
    new profile just before, and at most one: extending the plan of an
    existing account (by client_id or by email) notifies nobody. *)
Theorem provisioning_emails_only_new_accounts :
  forall (o : Outside) (payment : Payment.t) (plan : Plan.t) (w : World),
    exists events,
      trace (snd (handlePaymentApproved_create o payment plan w))
      = trace w ++ events /\
      count is_email events = count is_profile_insert events /\
      (count is_email events <= 1)%nat /\
      (count is_email events = 1%nat ->
       List.length (profiles (snd (handlePaymentApproved_create o payment plan w)))
       = S (List.length (profiles w))).
Proof.
  intros o payment plan w. run.
  repeat split_match; simpl; trace_norm; eexists;
    (split; [reflexivity|]); unfold count; simpl;
    repeat split; try lia; try discriminate;
    intros _; rewrite ?length_app, ?update_where_length; simpl; lia.
Qed.

Lemma provisioning_emails_only_new_accounts_witness :
  List.length
    (profiles (snd (handlePaymentApproved_create
                      Sample.env (Sample.payment "asaas" approved None)
                      Sample.plan30
                      (Sample.world "asaas" approved None []))))
  = 1%nat.
Proof.
  destruct (provisioning_emails_only_new_accounts
              Sample.env (Sample.payment "asaas" approved None) Sample.plan30
              (Sample.world "asaas" approved None []))
    as (events & Htrace & _ & _ & Hnew).
  apply Hnew.
  change (trace (Sample.world "asaas" approved None []) ++ events) with events
    in Htrace.
  rewrite <- Htrace. reflexivity.
Defined.

(** ** payment-create: what a success stores, what an error leaves *)

(** When provisioning raises it has written to no table. *)
Lemma provisioning_raise_keeps_tables (o : Outside) (payment : Payment.t)
      (plan : Plan.t) (w w' : World) :
  handlePaymentApproved_create o payment plan w = (Throw, w') ->
  payments w' = payments w /\ profiles w' = profiles w /\
  plans w' = plans w /\ payment_settings w' = payment_settings w.
Proof.
  run. repeat split_match; intros H; inversion H; subst; simpl;
    repeat split.
Qed.

(** What a request that is answered 200 has stored: the row built from
    the request, at the end of the payments table, and the trace of the
    charge, the insert and, for an approved card charge, provisioning. *)
Lemma create_stored (o : CreateOutside) (req : CreateRequest) (w : World) :
  create_method req <> "OPTIONS"%string ->
  code (fst (payment_create o req w)) = 200 ->
  exists payload owner plan_ref m c settings plan ext s fields brand row_id
         before details,
    create_body req = Some payload /\
    owner_id payload = Some owner /\
    plan_id payload = Some plan_ref /\
    payment_method payload = Some m /\
    customer payload = Some c /\
    filter (fun s => (Settings.owner_id s =? owner)%string) (payment_settings w)
    = [settings] /\
    filter (fun p => ((Plan.id p =? plan_ref)%string && Plan.is_active p)%bool)
           (plans w) = [plan] /\
    forallb is_gateway_request before = true /\
    forallb provisioning_detail details = true /\
    let row := new_payment o row_id owner plan_ref plan settings m c (card payload)
                 (data (maybeSingle (filter (has_email_of o c) (profiles w))))
                 ext s fields brand in
    let r := payment_create o req w in
    fst r = respond 200 (Created row_id s fields) /\
    trace (snd r)
    = trace w ++ before ++ PaymentInsert row
      :: (if (method_eqb m credit_card && status_eqb s approved)%bool
          then ProvisioningCall row_id :: details else []) /\
    (payments (snd r) = payments w ++ [row] \/
     exists client,
       payments (snd r)
       = update_where Payment.id (Payment.id row) (Payment.set_client client)
                      (payments w ++ [row])) /\
    ((method_eqb m credit_card && status_eqb s approved)%bool = false ->
     payments (snd r) = payments w ++ [row] /\ profiles (snd r) = profiles w).
Proof.
  intros Hm H200.
  destruct (create_success_shape o req w Hm H200)
    as (payload & owner & plan_ref & m & c & settings & plan & ext & s & fields
        & brand & row_id & before & Hb & Ho & Hp & Hpm & Hc & Hset & Hplan
        & Hbefore & Hins & Hfst & Hsnd & Hret).
  cbv zeta in Hsnd, Hret.
  set (row := new_payment o row_id owner plan_ref plan settings m c (card payload)
                (data (maybeSingle (filter (has_email_of o c) (profiles w))))
                ext s fields brand) in *.
  set (inserted := {| payments := payments w ++ [row]; profiles := profiles w;
                      plans := plans w; payment_settings := payment_settings w;
                      trace := trace w ++ before ++ [PaymentInsert row] |}) in *.
  destruct (method_eqb m credit_card && status_eqb s approved)%bool eqn:Hprov.
  - destruct (handlePaymentApproved_create_effect (outside o) row plan inserted)
      as (r & w2 & Hrun & Hpay & _ & _ & events & Ht & Hd & _).
    rewrite Hrun in Hsnd. simpl in Hsnd.
    exists payload, owner, plan_ref, m, c, settings, plan, ext, s, fields, brand,
      row_id, before, events.
    cbv zeta. fold row. rewrite Hsnd, Hprov.
    repeat (split; [assumption|]).
    split; [rewrite Ht; unfold inserted; simpl; now rewrite <- !app_assoc|].
    split; [exact Hpay|discriminate].
  - exists payload, owner, plan_ref, m, c, settings, plan, ext, s, fields, brand,
      row_id, before, [].
    cbv zeta. fold row. rewrite Hsnd, Hprov.
    repeat (split; [first [assumption|reflexivity]|]).
    split; [now left|]. intros _. split; reflexivity.
Qed.

(** X10. A payment-create that answers 200 has added one row at the end of
    the payments table (the row may then have been linked to a client by
    provisioning), and that row snapshots the checkout: the amount is the
    price of the active plan named in the request, owner, plan and gateway
    are those of the request and of the owner's settings, the customer's
    email is stored as toLowerCase returns it, the row's id and status are
    the ones returned to the caller, paid_at is the time of creation
    exactly when the status is approved, and no webhook payload is stored
    yet. *)
Theorem create_snapshots_the_checkout :
  forall (o : CreateOutside) (req : CreateRequest) (w : World),
    create_method req <> "OPTIONS"%string ->
    code (fst (payment_create o req w)) = 200 ->
    exists payload c plan settings row,
      create_body req = Some payload /\
      customer payload = Some c /\
      In plan (plans w) /\ Plan.is_active plan = true /\
      plan_id payload = Some (Plan.id plan) /\
      In settings (payment_settings w) /\
      owner_id payload = Some (Settings.owner_id settings) /\
      (payments (snd (payment_create o req w)) = payments w ++ [row] \/
       exists client,
         payments (snd (payment_create o req w))
         = update_where Payment.id (Payment.id row) (Payment.set_client client)
                        (payments w ++ [row])) /\
      In (PaymentInsert row) (trace (snd (payment_create o req w))) /\
      Payment.amount_cents row = Plan.price_cents plan /\
      Payment.plan_id row = Plan.id plan /\
      Payment.owner_id row = Settings.owner_id settings /\
      Payment.gateway row = Settings.active_gateway settings /\
      Payment.customer_email row = toLowerCase o (Customer.email c) /\
      Payment.customer_name row = Customer.name c /\
      Payment.customer_cpf row = Customer.cpf c /\
      payment_method payload = Some (Payment.payment_method row) /\
      created_id (content (fst (payment_create o req w))) = Some (Payment.id row) /\
      created_status (content (fst (payment_create o req w)))
      = Some (Payment.status row) /\
      Payment.paid_at row
      = (if status_eqb (Payment.status row) approved
         then Some (now (outside o)) else None) /\
      Payment.webhook_data row = None.
Proof.
  intros o req w Hm H200.
  destruct (create_stored o req w Hm H200)
    as (payload & owner & plan_ref & m & c & settings & plan & ext & s & fields
        & brand & row_id & before & details & Hb & Ho & Hp & Hpm & Hc & Hset
        & Hplan & Hbefore & Hdetails & Hfst & Htrace & Hpay & _).
  pose proof (single_row_key _ _ _ Hplan) as Hpk.
  apply andb_prop in Hpk. destruct Hpk as [Hpid Hact].
  apply String.eqb_eq in Hpid.
  pose proof (single_row_key _ _ _ Hset) as Hsk. apply String.eqb_eq in Hsk.
  assert (Hpin : In plan (plans w)).
  { assert (Hin : In plan (filter (fun p => ((Plan.id p =? plan_ref)%string
                                             && Plan.is_active p)%bool) (plans w)))
      by (rewrite Hplan; now left).
    apply filter_In in Hin. tauto. }
  assert (Hsin : In settings (payment_settings w)).
  { assert (Hin : In settings (filter (fun s => (Settings.owner_id s =? owner)%string)
                                      (payment_settings w)))
      by (rewrite Hset; now left).
    apply filter_In in Hin. tauto. }
  exists payload, c, plan, settings.
  eexists.
  split; [exact Hb|]. split; [exact Hc|]. split; [exact Hpin|].
  split; [exact Hact|]. split; [now rewrite Hpid|]. split; [exact Hsin|].
  split; [now rewrite Hsk|].
  split; [exact Hpay|].
  split.
  { rewrite Htrace. apply in_or_app. right. apply in_or_app. right. now left. }
  rewrite Hfst. simpl. rewrite Hpid, Hsk. repeat split. exact Hpm.
Qed.

Lemma create_snapshots_the_checkout_witness :
  let w := Sample.world "asaas" pending None [] in
  let o := Sample.create_outside
             (Accepted "ext_2" (JS.Str "PENDING") Sample.no_fields None) in
  exists row,
    In (PaymentInsert row)
       (trace (snd (payment_create o (Sample.checkout pix None) w))) /\
    Payment.amount_cents row = 9900 /\
    Payment.customer_email row = "ana@example.com"%string.
Proof.
  intros w o.
  destruct (create_snapshots_the_checkout o (Sample.checkout pix None) w
              ltac:(discriminate) ltac:(vm_compute; reflexivity))
    as (payload & c & plan & settings & row & Hb & Hc & Hpin & _ & Hpid & _ & _
        & _ & Hin & Hamount & _ & _ & _ & Hemail & _).
  simpl in Hb. injection Hb as <-. simpl in Hc. injection Hc as <-.
  exists row. split; [exact Hin|].
  destruct Hpin as [<-|[]].
  split; [exact Hamount|exact Hemail].
Defined.

(** [s.slice(-4)] is the end of [s], at most four characters long. *)
Lemma substring_whole (s : string) :
  forall m, (String.length s <= m)%nat -> substring 0 m s = s.
Proof.
  induction s as [|ch s IH]; intros [|m] H; simpl in *; try reflexivity; try lia.
  rewrite IH by lia. reflexivity.
Qed.

Lemma substring_tail (s : string) :
  forall n m, (String.length s <= n + m)%nat ->
              exists hidden, s = (hidden ++ substring n m s)%string.
Proof.
  induction s as [|ch s IH]; intros n m H.
  - exists ""%string. destruct n, m; reflexivity.
  - destruct n as [|n].
    + exists ""%string.
      rewrite substring_whole by (simpl in *; lia). reflexivity.
    + destruct (IH n m) as [hidden Hh]; [simpl in *; lia|].
      exists (String ch hidden). simpl. now rewrite <- Hh.
Qed.

Lemma substring_short (s : string) :
  forall n m, (String.length (substring n m s) <= m)%nat.
Proof.
  induction s as [|ch s IH]; intros n m.
  - destruct n, m; simpl; lia.
  - destruct n as [|n]; [destruct m as [|m]|]; simpl; [lia| |apply IH].
    specialize (IH 0%nat m). lia.
Qed.

(** X11. The row that a successful payment-create adds to the payments
    table never holds the card number: card_last_digits is null without
    card data and otherwise the end of the number, four characters at
    most; installments is 1 without card data or when the request says 0,
    else what the request says. *)
Theorem create_stores_only_last_digits :
  forall (o : CreateOutside) (req : CreateRequest) (w : World),
    create_method req <> "OPTIONS"%string ->
    code (fst (payment_create o req w)) = 200 ->
    exists payload row,
      create_body req = Some payload /\
      (payments (snd (payment_create o req w)) = payments w ++ [row] \/
       exists client,
         payments (snd (payment_create o req w))
         = update_where Payment.id (Payment.id row) (Payment.set_client client)
                        (payments w ++ [row])) /\
      (forall client,
          Payment.card_last_digits (Payment.set_client client row)
          = Payment.card_last_digits row /\
          Payment.installments (Payment.set_client client row)
          = Payment.installments row) /\
      match card payload with
      | None =>
          Payment.card_last_digits row = None /\ Payment.installments row = 1
      | Some k =>
          (exists hidden digits,
              Payment.card_last_digits row = Some digits /\
              Card.number k = (hidden ++ digits)%string /\
              (String.length digits <= 4)%nat) /\
          Payment.installments row
          = (if Card.installments k =? 0 then 1 else Card.installments k)
      end.
Proof.
  intros o req w Hm H200.
  destruct (create_stored o req w Hm H200)
    as (payload & owner & plan_ref & m & c & settings & plan & ext & s & fields
        & brand & row_id & before & details & Hb & Ho & Hp & Hpm & Hc & Hset
        & Hplan & Hbefore & Hdetails & Hfst & Htrace & Hpay & _).
  exists payload. eexists.
  split; [exact Hb|]. split; [exact Hpay|].
  split; [intros client; split; reflexivity|].
  simpl. destruct (card payload) as [k|]; [|split; reflexivity].
  split; [|reflexivity].
  destruct (substring_tail (Card.number k) (String.length (Card.number k) - 4) 4)
    as [hidden Hh]; [lia|].
  exists hidden, (last4 (Card.number k)).
  split; [reflexivity|]. split; [exact Hh|]. apply substring_short.
Qed.

Lemma create_stores_only_last_digits_witness :
  let w := Sample.world "asaas" pending None [] in
  let o := Sample.create_outside
             (Accepted "ext_2" (JS.Str "PENDING") Sample.no_fields None) in
  exists payload row,
    create_body (Sample.checkout pix None) = Some payload /\
    card payload = None /\
    Payment.card_last_digits row = None.
Proof.
  intros w o.
  destruct (create_stores_only_last_digits o (Sample.checkout pix None) w
              ltac:(discriminate) ltac:(vm_compute; reflexivity))
    as (payload & row & Hb & _ & _ & Hcard).
  exists payload, row. split; [exact Hb|].
  simpl in Hb. injection Hb as <-. simpl in Hcard.
  split; [reflexivity|apply Hcard].
Defined.

(** X12. A successful payment-create calls provisioning exactly when the
    method is credit card and the gateway reported the charge approved; a
    PIX or boleto charge is never provisioned at creation, whatever its
    status, and a card charge that is not yet approved is not either.  It
    inserts exactly one payment row: the payments table grows by that one
    row, and without provisioning the row is stored as built and the
    profiles are as they were. *)
Theorem create_provisions_only_approved_cards :
  forall (o : CreateOutside) (req : CreateRequest) (w : World),
    create_method req <> "OPTIONS"%string ->
    code (fst (payment_create o req w)) = 200 ->
    exists payload m s events row,
      create_body req = Some payload /\
      payment_method payload = Some m /\
      created_status (content (fst (payment_create o req w))) = Some s /\
      trace (snd (payment_create o req w)) = trace w ++ events /\
      count is_payment_insert events = 1%nat /\
      count is_provisioning events
      = (if (method_eqb m credit_card && status_eqb s approved)%bool
         then 1 else 0)%nat /\
      Payment.payment_method row = m /\
      Payment.status row = s /\
      List.length (payments (snd (payment_create o req w)))
      = S (List.length (payments w)) /\
      (payments (snd (payment_create o req w)) = payments w ++ [row] \/
       exists client,
         payments (snd (payment_create o req w))
         = update_where Payment.id (Payment.id row) (Payment.set_client client)
                        (payments w ++ [row])) /\
      ((method_eqb m credit_card && status_eqb s approved)%bool = false ->
       payments (snd (payment_create o req w)) = payments w ++ [row] /\
       profiles (snd (payment_create o req w)) = profiles w).
Proof.
  intros o req w Hm H200.
  destruct (create_stored o req w Hm H200)
    as (payload & owner & plan_ref & m & c & settings & plan & ext & s & fields
        & brand & row_id & before & details & Hb & Ho & Hp & Hpm & Hc & Hset
        & Hplan & Hbefore & Hdetails & Hfst & Htrace & Hpay & Hplain).
  cbv zeta in *.
  exists payload, m, s. eexists.
  exists (new_payment o row_id owner plan_ref plan settings m c (card payload)
            (data (maybeSingle (filter (has_email_of o c) (profiles w))))
            ext s fields brand).
  split; [exact Hb|]. split; [exact Hpm|].
  split; [rewrite Hfst; reflexivity|].
  split; [exact Htrace|].
  assert (Hb0 : forall f, (forall e, is_gateway_request e = true -> f e = false) ->
                          count f before = 0%nat)
    by (intros f Hf; now apply count_none with is_gateway_request).
  split; [|split].
  - rewrite count_app, count_cons.
    rewrite (Hb0 is_payment_insert) by (intros []; simpl; congruence).
    destruct (method_eqb m credit_card && status_eqb s approved)%bool;
      [|reflexivity].
    rewrite count_cons, (detail_not_insert _ Hdetails). reflexivity.
  - rewrite count_app, count_cons.
    rewrite (Hb0 is_provisioning) by (intros []; simpl; congruence).
    destruct (method_eqb m credit_card && status_eqb s approved)%bool;
      [|reflexivity].
    rewrite count_cons.
    rewrite (count_none is_provisioning provisioning_detail details)
      by (first [intros []; simpl; congruence | exact Hdetails]).
    reflexivity.
  - split; [reflexivity|]. split; [reflexivity|].
    split; [|split; [exact Hpay|exact Hplain]].
    destruct Hpay as [-> | [client ->]];
      rewrite ?update_where_length, length_app; simpl; lia.
Qed.

Lemma create_provisions_only_approved_cards_witness :
  let w := Sample.world "mercado_pago" pending None [] in
  let o := Sample.create_outside
             (Accepted "ext_2" (JS.Str "approved") Sample.no_fields None) in
  exists events,
    trace (snd (payment_create o (Sample.checkout pix None) w)) = events /\
    count is_provisioning events = 0%nat.
Proof.
  intros w o.
  destruct (create_provisions_only_approved_cards o (Sample.checkout pix None) w
              ltac:(discriminate) ltac:(vm_compute; reflexivity))
    as (payload & m & s & events & row & Hb & Hpm & _ & Ht & _ & Hprov & _).
  simpl in Hb. injection Hb as <-. simpl in Hpm. injection Hpm as <-.
  exists events. split; [exact Ht|exact Hprov].
Defined.

(** X13. A payment-create that does not answer 200 has changed no
    profile, plan or setting, and either it has stored nothing at all (the
    one thing it may have done is the exchange with the gateway, when the
    adapter reported an error or the insert failed afterwards), or it
    answers 500 after it has inserted the row of a card charge that the
    gateway approved: provisioning raised, and the row stays in the
    table. *)
Theorem create_error_stores_at_most_the_charge :
  forall (o : CreateOutside) (req : CreateRequest) (w : World),
    code (fst (payment_create o req w)) <> 200 ->
    let r := payment_create o req w in
    profiles (snd r) = profiles w /\
    plans (snd r) = plans w /\
    payment_settings (snd r) = payment_settings w /\
    ((payments (snd r) = payments w /\
      exists events,
        trace (snd r) = trace w ++ events /\
        forallb is_gateway_request events = true) \/
     (fst r = respond 500 (ErrorMessage "Erro interno do servidor") /\
      exists row plan before,
        payments (snd r) = payments w ++ [row] /\
        Payment.payment_method row = credit_card /\
        Payment.status row = approved /\
        In plan (plans w) /\
        handlePaymentApproved_create
          (outside o) row plan
          {| payments := payments w ++ [row]; profiles := profiles w;
             plans := plans w; payment_settings := payment_settings w;
             trace := trace w ++ before ++ [PaymentInsert row] |}
        = (Throw, snd r))).
Proof.
  intros o req w Hcode r. subst r.
  destruct (String.eqb_spec (create_method req) "OPTIONS") as [Hm|Hm].
  { exfalso. apply Hcode. unfold payment_create.
    apply String.eqb_eq in Hm. now rewrite Hm. }
  destruct (create_run o req w Hm) as [[Hquiet _]|Hrun].
  { destruct Hquiet as (Hp & Hq & Hpl & Hs & events & Ht & He).
    repeat (split; [assumption|]).
    left. split; [exact Hp|]. now exists events. }
  destruct Hrun as (payload & owner & plan_ref & m & c & settings & plan & ext
                    & s & fields & brand & row_id & before & Hb & Ho & Hp & Hpm
                    & Hc & Hset & Hplan & Hbefore & Hins & Hrun).
  cbv zeta in Hrun.
  set (row := new_payment o row_id owner plan_ref plan settings m c (card payload)
                (data (maybeSingle (filter (has_email_of o c) (profiles w))))
                ext s fields brand) in *.
  rewrite Hrun in Hcode |- *.
  destruct (method_eqb m credit_card && status_eqb s approved)%bool eqn:Hprov;
    [|exfalso; now apply Hcode].
  apply andb_prop in Hprov. destruct Hprov as [Hcard Happroved].
  destruct (handlePaymentApproved_create (outside o) row plan _)
    as [[[]|] w2] eqn:Hcall; simpl in Hcode |- *; [exfalso; now apply Hcode|].
  destruct (provisioning_raise_keeps_tables _ _ _ _ _ Hcall)
    as (Hp2 & Hq2 & Hpl2 & Hs2).
  simpl in Hp2, Hq2, Hpl2, Hs2.
  repeat (split; [assumption|]).
  right. split; [reflexivity|].
  exists row, plan, before.
  split; [exact Hp2|].
  split; [destruct m; simpl in Hcard; try discriminate; reflexivity|].
  split; [now apply status_eqb_eq|].
  split; [|exact Hcall].
  assert (Hin : In plan (filter (fun p => ((Plan.id p =? plan_ref)%string
                                           && Plan.is_active p)%bool) (plans w)))
    by (rewrite Hplan; now left).
  apply filter_In in Hin. tauto.
Qed.

Lemma create_error_stores_at_most_the_charge_witness :
  let w := Sample.world "pagarme" pending None [] in
  let o := Sample.create_outside (Refused "Erro ao criar cobranca") in
  payments (snd (payment_create o (Sample.checkout boleto None) w)) = payments w /\
  profiles (snd (payment_create o (Sample.checkout boleto None) w)) = profiles w.
Proof.
  intros w o.
  destruct (create_error_stores_at_most_the_charge
              o (Sample.checkout boleto None) w ltac:(vm_compute; discriminate))
    as (Hq & _ & _ & [[Hp _]|[Hcode _]]).
  - split; [exact Hp|exact Hq].
  - vm_compute in Hcode. discriminate.
Defined.

(** ** generatePassword *)

Lemma list_ascii_app (a b : string) :
  list_ascii_of_string (a ++ b) = list_ascii_of_string a ++ list_ascii_of_string b.
Proof. induction a as [|c a IH]; simpl; [reflexivity|now rewrite IH]. Qed.

Lemma length_append (a b : string) :
  String.length (a ++ b) = (String.length a + String.length b)%nat.
Proof. induction a as [|c a IH]; simpl; [reflexivity|now rewrite IH]. Qed.

(** Every index of the alphabet holds a character that is not a look-alike. *)
Lemma chars_index_ok (k : Z) :
  0 <= k < 55 ->
  exists c, charAt chars k = String c EmptyString /\
            occurs c chars = true /\ occurs c look_alike = false.
Proof.
  intros Hk.
  assert (Hall : forallb
                   (fun n => match charAt chars (Z.of_nat n) with
                             | String c EmptyString =>
                                 (occurs c chars && negb (occurs c look_alike))%bool
                             | _ => false
                             end) (seq 0 55) = true)
    by (vm_compute; reflexivity).
  rewrite forallb_forall in Hall.
  specialize (Hall (Z.to_nat k)).
  rewrite Z2Nat.id in Hall by lia.
  assert (Hin : In (Z.to_nat k) (seq 0 55)) by (apply in_seq; lia).
  specialize (Hall Hin).
  destruct (charAt chars k) as [|c [|c' rest]]; try discriminate.
  exists c. apply andb_prop in Hall. destruct Hall as [H1 H2].
  split; [reflexivity|]. split; [exact H1|].
  now destruct (occurs c look_alike).
Qed.

(** Rounding to 53 bits keeps a number at or below the next power of
    two. *)
Lemma to_double_nonneg (n : Z) : 0 <= n -> 0 <= JS.to_double n.
Proof.
  intros Hn. unfold JS.to_double.
  destruct (Z.leb_spec (Z.log2 n) 52) as [He|He]; [exact Hn|].
  cbv zeta.
  set (ulp := 2 ^ (Z.log2 n - 52)).
  assert (Hulp : 0 < ulp) by (unfold ulp; apply Z.pow_pos_nonneg; lia).
  assert (Hq : 0 <= n / ulp) by (apply Z.div_pos; assumption).
  apply Z.mul_nonneg_nonneg; [|lia].
  repeat match goal with |- context [if ?b then _ else _] => destruct b end; lia.
Qed.

Lemma to_double_upper (n : Z) :
  0 < n -> JS.to_double n <= 2 ^ (Z.log2 n + 1).
Proof.
  intros Hn. unfold JS.to_double.
  destruct (Z.log2_spec n Hn) as [Hlow Hhigh].
  replace (Z.succ (Z.log2 n)) with (Z.log2 n + 1) in Hhigh by lia.
  destruct (Z.leb_spec (Z.log2 n) 52) as [He|He]; [lia|].
  cbv zeta.
  set (ulp := 2 ^ (Z.log2 n - 52)) in *.
  assert (Hulp : 0 < ulp) by (unfold ulp; apply Z.pow_pos_nonneg; lia).
  assert (Hsplit : 2 ^ (Z.log2 n + 1) = 2 ^ 53 * ulp).
  { unfold ulp. rewrite <- Z.pow_add_r by lia. f_equal. lia. }
  rewrite Hsplit in *.
  assert (Hq : n / ulp < 2 ^ 53)
    by (apply Z.div_lt_upper_bound; [exact Hulp|lia]).
  apply Z.mul_le_mono_nonneg_r; [lia|].
  repeat match goal with |- context [if ?b then _ else _] => destruct b end; lia.
Qed.

(** In the binade of 55, the product of 55 and the largest double below 1
    rounds down. *)
Lemma to_double_top (n : Z) :
  2 ^ 1079 <= n <= 55 * below_one ->
  JS.to_double n <= 55 * one_in_steps - 2 ^ 1027.
Proof.
  unfold below_one, one_in_steps. intros [Hlow Hhigh].
  assert (H1074 : 2 ^ 1074 = 2 ^ 47 * 2 ^ 1027) by reflexivity.
  assert (H1021 : 2 ^ 1027 = 64 * 2 ^ 1021) by reflexivity.
  assert (H1079 : 2 ^ 1079 = 2 ^ 52 * 2 ^ 1027) by reflexivity.
  assert (H1080 : 2 ^ Z.succ 1079 = 2 ^ 53 * 2 ^ 1027) by reflexivity.
  assert (H1026 : 2 ^ 1027 / 2 = 32 * 2 ^ 1021) by reflexivity.
  assert (Hpos : 0 < 2 ^ 1021) by reflexivity.
  assert (Hlog : Z.log2 n = 1079).
  { apply Z.log2_unique; [lia|]. rewrite H1080. split; [exact Hlow|].
    rewrite H1074 in Hhigh. change (2 ^ 53) with 9007199254740992.
    change (2 ^ 47) with 140737488355328 in Hhigh. lia. }
  unfold JS.to_double. rewrite Hlog.
  change (1079 <=? 52) with false. change (1079 - 52) with 1027.
  cbv zeta. rewrite H1074, H1026 in *. rewrite H1079 in Hlow.
  change (2 ^ 47) with 140737488355328 in *.
  change (2 ^ 52) with 4503599627370496 in *.
  rewrite H1021 in *.
  set (t := 2 ^ 1021) in *.
  set (ulp := 64 * t) in *.
  assert (Hulp : 0 < ulp) by (unfold ulp; lia).
  pose proof (Z.div_mod n ulp ltac:(lia)) as Hdiv.
  pose proof (Z.mod_pos_bound n ulp Hulp) as Hmod.
  set (q := n / ulp) in *. set (r := n mod ulp) in *.
  assert (Hq : q <= 55 * 140737488355328 - 1).
  { assert (q < 55 * 140737488355328); [|lia].
    unfold q. apply Z.div_lt_upper_bound; [exact Hulp|]. unfold ulp. lia. }
  assert (Hm : (if r <? 32 * t then q
                else if 32 * t <? r then q + 1
                     else if Z.even q then q else q + 1)
               <= 55 * 140737488355328 - 1).
  { destruct (Z.ltb_spec r (32 * t)) as [Hr|Hr]; [exact Hq|].
    assert (q <> 55 * 140737488355328 - 1).
    { intros Heq. rewrite Heq in Hdiv. unfold ulp in Hdiv. lia. }
    repeat match goal with |- context [if ?b then _ else _] => destruct b end;
      lia. }
  replace (55 * (140737488355328 * ulp) - ulp)
    with ((55 * 140737488355328 - 1) * ulp) by lia.
  apply Z.mul_le_mono_nonneg_r; [lia|exact Hm].
Qed.

(** Whatever double below 1 [Math.random()] returns, the index is one of
    the alphabet. *)
Lemma random_index_range (r : Z) :
  0 <= r <= below_one -> 0 <= random_index r < 55.
Proof.
  intros [H0 H1]. unfold random_index.
  change (Z.of_nat (String.length chars)) with 55.
  assert (Hone : 0 < one_in_steps) by reflexivity.
  split.
  - apply Z.div_pos; [|exact Hone]. apply to_double_nonneg. lia.
  - apply Z.div_lt_upper_bound; [exact Hone|].
    destruct (Z.eq_dec r 0) as [->|Hr]; [reflexivity|].
    destruct (Z_lt_le_dec (r * 55) (2 ^ 1079)) as [Hlow|Hhigh].
    + assert (Hn : 0 < r * 55) by lia.
      pose proof (to_double_upper (r * 55) Hn) as Hup.
      assert (Hlog : Z.log2 (r * 55) < 1079)
        by (apply Z.log2_lt_pow2; assumption).
      assert (Hpow : 2 ^ (Z.log2 (r * 55) + 1) <= 2 ^ 1079)
        by (apply Z.pow_le_mono_r; lia).
      assert (H32 : 2 ^ 1079 = 32 * one_in_steps) by reflexivity.
      lia.
    + pose proof (to_double_top (r * 55) ltac:(lia)) as Hup.
      assert (0 < 2 ^ 1027) by reflexivity.
      lia.
Qed.

Lemma generatePassword_loop_ok (random : nat -> Z) :
  (forall i, 0 <= random i <= below_one) ->
  forall steps i password,
    String.length (generatePassword_loop random i steps password)
    = (String.length password + steps)%nat /\
    forall c,
      In c (list_ascii_of_string (generatePassword_loop random i steps password)) ->
      In c (list_ascii_of_string password) \/
      (occurs c chars = true /\ occurs c look_alike = false).
Proof.
  intros Hr. induction steps as [|steps IH]; intros i password;
    cbn [generatePassword_loop].
  - split; [lia|]. intros c Hc. now left.
  - destruct (IH (S i) (password ++ charAt chars (random_index (random i)))%string)
      as [Hlen Hin].
    destruct (chars_index_ok _ (random_index_range (random i) (Hr i)))
      as (c0 & Hc0 & Hgood).
    rewrite Hc0 in *. split.
    + rewrite Hlen, length_append. simpl. lia.
    + intros c Hc. destruct (Hin c Hc) as [H|H]; [|now right].
      rewrite list_ascii_app in H. apply in_app_or in H.
      destruct H as [H|[<-|[]]]; [now left|now right].
Qed.

(** X14. Whatever [Math.random] returns (doubles from 0 up to, not
    including, 1, so at most 1 - 2^-53), the generated password has eight
    characters, each from the 55-character alphabet, and so never one of
    the look-alike characters 0, O, 1, l, I, i, o.  The index of each
    character is computed as the code computes it, from the product
    rounded to a double. *)
Theorem generatePassword_stays_in_alphabet :
  forall (random : nat -> Z),
    (forall i, 0 <= random i <= below_one) ->
    String.length (generatePassword random) = 8%nat /\
    forall c, In c (list_ascii_of_string (generatePassword random)) ->
              occurs c chars = true /\ occurs c look_alike = false.
Proof.
  intros random Hr.
  destruct (generatePassword_loop_ok random Hr 8 0%nat ""%string) as [Hlen Hin].
  split; [exact Hlen|].
  intros c Hc. destruct (Hin c Hc) as [[]|H]. exact H.
Qed.

Lemma generatePassword_stays_in_alphabet_witness :
  let random := fun i : nat => if Nat.even i then 2 ^ 1072 else below_one in
  String.length (generatePassword random) = 8%nat /\
  generatePassword random = "P9P9P9P9"%string.
Proof.
  intros random. split; [|vm_compute; reflexivity].
  apply (generatePassword_stays_in_alphabet random).
  intros i. unfold random. destruct (Nat.even i); split; discriminate.
Defined.

(** The double 0.6 is 5404319552844595 * 2^-53, a little less than 0.6;
    its product with 55 rounds up to 33, where the exact product floors
    to 32. *)
Lemma random_index_rounds_the_product :
  random_index (5404319552844595 * 2 ^ 1021) = 33 /\
  (5404319552844595 * 2 ^ 1021 * 55) / one_in_steps = 32.
Proof. split; reflexivity. Qed.

(** ** The checkout page: card brand and installments *)

Lemma prefix_first (c : ascii) (p s : string) :
  String.prefix (String c p) s = true ->
  String.prefix (String c EmptyString) s = true.
Proof.
  destruct s as [|b s]; simpl; [discriminate|].
  destruct (ascii_dec c b); [|discriminate].
  intros _. destruct s; reflexivity.
Qed.

(** X15. getCardBrand tests Visa first: every number whose first digit is 4
    is reported as Visa, so the Elo prefixes that begin with 4 (438935,
    451416, 4576, 4011) never apply, and a number reported as Elo starts
    with 636368, 504175, 636297, 5067 or 506699. *)
Theorem getCardBrand_visa_shadows_elo :
  forall (number : string),
    (String.prefix "4" (digitsOnly number) = true ->
     getCardBrand number = Some "Visa"%string) /\
    (getCardBrand number = Some "Elo"%string ->
     starts_with_any ["636368"; "504175"; "636297"; "5067"; "506699"]%string
                     (digitsOnly number) = true).
Proof.
  intros number. unfold getCardBrand, elo_prefixes.
  set (d := digitsOnly number). split.
  - intros H. unfold starts_with_any at 1. simpl. now rewrite H.
  - destruct (starts_with_any ["4"%string] d) eqn:E4; [discriminate|].
    destruct (starts_with_any ["51"; "52"; "53"; "54"; "55"]%string d);
      [discriminate|].
    unfold starts_with_any in E4. simpl in E4.
    rewrite orb_false_r in E4.
    assert (Hno4 : forall p, String.prefix (String "4" p) d = false).
    { intros p. destruct (String.prefix (String "4" p) d) eqn:E; [|reflexivity].
      apply prefix_first in E. congruence. }
    destruct (starts_with_any _ d) eqn:Eelo at 1.
    + intros _. unfold starts_with_any in *. cbn [existsb] in *.
      rewrite !Hno4 in Eelo. simpl in Eelo.
      repeat rewrite orb_false_r in Eelo. cbn [orb] in Eelo.
      destruct (String.prefix "636368" d); [reflexivity|].
      destruct (String.prefix "504175" d); [reflexivity|].
      destruct (String.prefix "636297" d); [reflexivity|].
      destruct (String.prefix "5067" d); [reflexivity|].
      destruct (String.prefix "506699" d); [reflexivity|].
      discriminate.
    + repeat match goal with
             | |- context [if ?b then _ else _] => destruct b
             end; discriminate.
Qed.

Lemma getCardBrand_visa_shadows_elo_witness :
  getCardBrand "4011 7800 0000 0000" = Some "Visa"%string.
Proof.
  apply (proj1 (getCardBrand_visa_shadows_elo "4011 7800 0000 0000")).
  reflexivity.
Defined.

(** X16. The checkout offers [n] installments exactly when [n] is between 1
    and 12 and each installment is at least R$ 5,00, that is when
    500 * n <= price_cents.  Hence a plan under R$ 5,00 has no option at
    all, and the selector (shown for more than one option) needs a price of
    at least R$ 10,00. *)
Theorem installmentOptions_minimum :
  forall (price_cents n : Z),
    In n (installmentOptions price_cents) <->
    1 <= n <= 12 /\ 500 * n <= price_cents.
Proof.
  intros price n. unfold installmentOptions. rewrite filter_In.
  assert (Hq : forall k : positive,
            Qle_bool 5 (inject_Z price / inject_Z (Z.pos k) / 100) = true
            <-> 500 * Z.pos k <= price).
  { intros k. rewrite Qle_bool_iff.
    unfold Qle, Qdiv, Qmult, Qinv, inject_Z. simpl. lia. }
  split.
  - intros [Hin Hle]. simpl in Hin.
    repeat (destruct Hin as [<-|Hin]; [split; [lia|now apply Hq]|]).
    destruct Hin.
  - intros [Hn Hle].
    split.
    + simpl. lia.
    + destruct n as [|k|k]; try lia. now apply Hq.
Qed.

Lemma installmentOptions_minimum_witness :
  In 6 (installmentOptions 3000) /\ ~ In 7 (installmentOptions 3000).
Proof.
  split.
  - apply (proj2 (installmentOptions_minimum 3000 6)). lia.
  - intros H. apply (proj1 (installmentOptions_minimum 3000 7)) in H. lia.
Defined.

(** ** The adapters: payer name and phone *)

Lemma append_assoc' (a b c : string) :
  ((a ++ b) ++ c)%string = (a ++ (b ++ c))%string.
Proof. induction a as [|x a IH]; simpl; [reflexivity|now rewrite IH]. Qed.

Lemma join_fold_shift (sep a : string) (pieces : list string) :
  forall p,
    fold_left (fun acc q => (acc ++ sep ++ q)%string) pieces (a ++ p)%string
    = (a ++ fold_left (fun acc q => (acc ++ sep ++ q)%string) pieces p)%string.
Proof.
  induction pieces as [|q pieces IH]; intros p; simpl; [reflexivity|].
  rewrite append_assoc'. apply IH.
Qed.

Lemma join_with_cons (sep : string) (c : ascii) (piece : string)
      (pieces : list string) :
  JS.join_with sep (String c piece :: pieces)
  = String c (JS.join_with sep (piece :: pieces)).
Proof.
  unfold JS.join_with.
  apply (join_fold_shift sep (String c EmptyString) pieces piece).
Qed.

Lemma join_with_empty_head (sep : string) (pieces : list string) :
  pieces <> [] ->
  JS.join_with sep (EmptyString :: pieces)
  = (sep ++ JS.join_with sep pieces)%string.
Proof.
  destruct pieces as [|p pieces]; [congruence|]. intros _.
  unfold JS.join_with. simpl. apply join_fold_shift.
Qed.

Lemma split_not_empty (sep : ascii) (s : string) : split sep s <> [].
Proof.
  destruct s as [|c s]; simpl; [discriminate|].
  destruct (Ascii.eqb c sep); [discriminate|].
  destruct (split sep s); discriminate.
Qed.

(** Joining the pieces of a split gives the string back. *)
Lemma join_split (sep : ascii) (s : string) :
  JS.join_with (String sep EmptyString) (split sep s) = s.
Proof.
  induction s as [|c s IH]; simpl; [reflexivity|].
  destruct (Ascii.eqb_spec c sep) as [->|Hne].
  - rewrite join_with_empty_head by apply split_not_empty.
    rewrite IH. reflexivity.
  - pose proof (split_not_empty sep s) as Hs.
    destruct (split sep s) as [|piece pieces]; [congruence|].
    rewrite join_with_cons, IH. reflexivity.
Qed.

Lemma split_without_sep (sep : ascii) (a : string) :
  occurs sep a = false -> split sep a = [a].
Proof.
  unfold occurs. induction a as [|c a IH]; simpl; [reflexivity|].
  intros H. apply orb_false_elim in H. destruct H as [Hc Ha].
  rewrite Ascii.eqb_sym in Hc. rewrite Hc, (IH Ha). reflexivity.
Qed.

Lemma split_at_first (sep : ascii) (a b : string) :
  occurs sep a = false ->
  split sep (a ++ String sep b) = a :: split sep b.
Proof.
  unfold occurs. induction a as [|c a IH]; simpl.
  - intros _. now rewrite Ascii.eqb_refl.
  - intros H. apply orb_false_elim in H. destruct H as [Hc Ha].
    rewrite Ascii.eqb_sym in Hc. rewrite Hc, (IH Ha). reflexivity.
Qed.

(** X17. The payer sent to Mercado Pago: first_name is the name up to its
    first space and last_name is everything after that space - the name
    splits without loss.  When nothing follows (one word, or a trailing
    space) last_name falls back to the whole name, so a customer called
    "Ana" is sent as first name "Ana", last name "Ana". *)
Theorem mp_payer_name_split :
  forall (name : string),
    (occurs " " name = false ->
     mp_first_name name = name /\ mp_last_name name = name) /\
    (forall first rest,
        name = (first ++ String " " rest)%string ->
        occurs " " first = false ->
        mp_first_name name = first /\
        mp_last_name name = if (rest =? "")%string then name else rest).
Proof.
  intros name. unfold mp_first_name, mp_last_name. split.
  - intros H. rewrite (split_without_sep " " name H). simpl.
    split; reflexivity.
  - intros first rest -> Hfirst.
    rewrite (split_at_first " " first rest Hfirst). simpl.
    split; [reflexivity|].
    change " "%string with (String " " EmptyString).
    now rewrite join_split.
Qed.

Lemma mp_payer_name_split_witness :
  mp_first_name "Ana Maria Silva" = "Ana"%string /\
  mp_last_name "Ana Maria Silva" = "Maria Silva"%string.
Proof.
  exact (proj2 (mp_payer_name_split "Ana Maria Silva") "Ana"%string
               "Maria Silva"%string eq_refl eq_refl).
Defined.

Lemma slice_splits (n : nat) (s : string) :
  (slice_to n s ++ slice_from n s)%string = s.
Proof.
  unfold slice_to, slice_from. revert n.
  induction s as [|c s IH]; intros [|n]; simpl; try reflexivity.
  - now rewrite substring_whole.
  - now rewrite IH.
Qed.

Lemma digitsOnly_digits (s : string) (c : ascii) :
  In c (list_ascii_of_string (digitsOnly s)) -> is_digit c = true.
Proof.
  induction s as [|x s IH]; simpl; [tauto|].
  destruct (is_digit x) eqn:E; simpl; [|exact IH].
  intros [<-|H]; [exact E|now apply IH].
Qed.

(** X18. The phone sent to PagSeguro is cut after its second character and
    the one sent to Pagar.me after the second digit: area code and number
    put together give back the phone, respectively its digits, so no
    character of a PagSeguro phone and no digit of a Pagar.me phone is
    lost; the area code has at most two characters and the Pagar.me parts
    hold digits only.  PagSeguro gets the phone as typed: a phone written
    "(11) 98765-4321" has area code "(1". *)
Theorem phone_split_keeps_every_digit :
  forall (phone : string),
    (fst (pagseguro_phone phone) ++ snd (pagseguro_phone phone))%string = phone /\
    (fst (pagarme_phone phone) ++ snd (pagarme_phone phone))%string
    = digitsOnly phone /\
    (String.length (fst (pagseguro_phone phone)) <= 2)%nat /\
    (String.length (fst (pagarme_phone phone)) <= 2)%nat /\
    (forall c, In c (list_ascii_of_string
                       (fst (pagarme_phone phone) ++ snd (pagarme_phone phone))%string) ->
               is_digit c = true).
Proof.
  intros phone. unfold pagseguro_phone, pagarme_phone. simpl fst. simpl snd.
  rewrite !slice_splits.
  repeat split; try apply substring_short.
  apply digitsOnly_digits.
Qed.

(** ** The route guard of the client area *)

Lemma ceil_div_days (k : Z) :
  ceil_div (JSDate.of_date k) (1000 * 60 * 60 * 24) = k.
Proof.
  unfold ceil_div, JSDate.of_date, JSDate.ms_per_day.
  replace (- (k * 86400000)) with ((- k) * (1000 * 60 * 60 * 24)) by lia.
  rewrite Z.div_mul by lia. lia.
Qed.

Lemma planStatus_days (now timezoneOffset e : Z) :
  planStatus now timezoneOffset (Some e)
  = {| isExpired := e - getBrasiliaDate now timezoneOffset <? 0;
       daysRemaining := Some (Z.max 0 (e - getBrasiliaDate now timezoneOffset));
       planEndDate := Some e |}.
Proof.
  unfold planStatus.
  replace (JSDate.of_date e - JSDate.of_date (getBrasiliaDate now timezoneOffset))
    with (JSDate.of_date (e - getBrasiliaDate now timezoneOffset))
    by (unfold JSDate.of_date; lia).
  now rewrite ceil_div_days.
Qed.

(** X19. The client area and the plan's end date.  With [today] the
    day that getBrasiliaDate computes from the device clock, the expiry
    screen is shown exactly to a logged-in client who is not an
    admin, whose plan_end_date lies before today, on every page but
    /app/perfil; the banner with [d] days is shown exactly when the end
    date is today + d with d from 1 to 7.  So on the end date itself the
    client still gets in, without banner, and an account without end date
    is never locked out. *)
Theorem ClientRoute_plan_gate :
  forall (loading user isAdmin : bool) (pathname : string)
         (now timezoneOffset : Z) (plan_end_date : option Z),
    let today := getBrasiliaDate now timezoneOffset in
    let screen := ClientRoute loading user isAdmin pathname now timezoneOffset
                              plan_end_date in
    today = (now + (timezoneOffset - 180) * 60000) / 86400000 /\
    (forall shown, screen = PlanExpiredScreen shown <->
       loading = false /\ user = true /\ isAdmin = false /\
       pathname <> "/app/perfil"%string /\
       shown = plan_end_date /\
       exists e, plan_end_date = Some e /\ e < today) /\
    (forall d, screen = Page (Some d) <->
       loading = false /\ user = true /\ isAdmin = false /\
       plan_end_date = Some (today + d) /\ 1 <= d <= 7).
Proof.
  intros loading user isAdmin pathname now tz plan_end_date today screen.
  split.
  { unfold today, getBrasiliaDate, JSDate.iso_date, JSDate.ms_per_day.
    f_equal. lia. }
  subst screen. unfold ClientRoute.
  destruct plan_end_date as [e|].
  - rewrite planStatus_days. fold today. simpl.
    destruct loading, user, isAdmin; simpl;
      try (split; intros x;
           (split; [discriminate|intros (?&?&?&_); discriminate])).
    destruct (String.eqb_spec pathname "/app/perfil") as [Hp|Hp]; simpl.
    + rewrite andb_false_r. split.
      * intros shown. split; [discriminate|].
        intros (_&_&_&Hn&_); contradiction.
      * intros d. split.
        -- destruct (Z.leb_spec (Z.max 0 (e - today)) 7);
             destruct (Z.ltb_spec 0 (Z.max 0 (e - today))); simpl;
             try discriminate.
           intros Heq. injection Heq as <-.
           repeat split; try lia. f_equal. lia.
        -- intros (_&_&_&He&Hd). injection He as ->.
           replace (today + d - today) with d by lia.
           rewrite Z.max_r by lia.
           destruct (Z.leb_spec d 7); destruct (Z.ltb_spec 0 d); simpl;
             try lia. reflexivity.
    + rewrite andb_true_r.
      destruct (Z.ltb_spec (e - today) 0) as [Hlt|Hge]; split.
      * intros shown. split.
        -- intros Heq. injection Heq as <-.
           repeat split; try assumption. exists e. split; [reflexivity|lia].
        -- intros (_&_&_&_&->&_). reflexivity.
      * intros d. split; [discriminate|].
        intros (_&_&_&He&Hd). injection He as ->. lia.
      * intros shown. split; [|intros (_&_&_&_&_&e'&He&Hlt);
                                 injection He as <-; lia].
        destruct ((_ <=? 7) && _)%bool; discriminate.
      * intros d. split.
        -- destruct (Z.leb_spec (Z.max 0 (e - today)) 7);
             destruct (Z.ltb_spec 0 (Z.max 0 (e - today))); simpl;
             try discriminate.
           intros Heq. injection Heq as <-.
           repeat split; try lia. f_equal. lia.
        -- intros (_&_&_&He&Hd). injection He as ->.
           replace (today + d - today) with d by lia.
           rewrite Z.max_r by lia.
           destruct (Z.leb_spec d 7); destruct (Z.ltb_spec 0 d); simpl;
             try lia. reflexivity.
  - simpl. split.
    + intros shown. split.
      * destruct loading, user, isAdmin; simpl; discriminate.
      * intros (_&_&_&_&_&e&He&_). discriminate.
    + intros d. split.
      * destruct loading, user, isAdmin; simpl; discriminate.
      * intros (_&_&_&He&_). discriminate.
Qed.

Lemma ClientRoute_plan_gate_witness :
  ClientRoute false true false "/app/dieta" (20000 * 86400000) 180
              (Some (20000 + 3))
  = Page (Some 3).
Proof.
  apply (proj2 (proj2 (ClientRoute_plan_gate false true false "/app/dieta"
                         (20000 * 86400000) 180 (Some (20000 + 3)))) 3).
  repeat split; try reflexivity; lia.
Defined.

(** ** send-email *)

Lemma compose_known (type data_ : JS.value) (content : string * outcome Html) :
  compose type data_ = Some content ->
  includes ["welcome"; "renewal"; "expiring"] type = true.
Proof.
  unfold compose, includes. simpl.
  destruct (JS.is_str type "welcome"); [reflexivity|].
  destruct (JS.is_str type "renewal"); [reflexivity|].
  destruct (JS.is_str type "expiring"); [reflexivity|discriminate].
Qed.

(** X20. send-email.  Without RESEND_API_KEY every request but the
    preflight is answered 500 and nothing is sent, whatever its body.  A
    mail is handed to the provider only when the key is set, the type is
    welcome, renewal or expiring and data is neither null nor missing; its
    recipient is the request's [to] as it came, which is not
    checked, and the mail does not depend on the provider's answer.  The
    handler confirms (200 with success) only a mail the provider accepted. *)
Theorem send_email_sends_known_types_only :
  forall (resendApiKey : option string) (reply : option MailReply)
         (req : Request),
    method req <> "OPTIONS"%string ->
    (present resendApiKey = false ->
     send_email resendApiKey reply req
     = ({| mail_code := 500;
           mail_content := MailError "Email service not configured" |}, None)) /\
    (forall mail,
        snd (send_email resendApiKey reply req) = Some mail ->
        present resendApiKey = true /\
        exists payload type,
          body req = Some payload /\
          JS.get payload "type" = Val type /\
          includes ["welcome"; "renewal"; "expiring"] type = true /\
          recipient mail = JS.opt_get payload "to" /\
          (JS.opt_get payload "data" <> JS.Undefined /\
           JS.opt_get payload "data" <> JS.Null) /\
          forall reply', snd (send_email resendApiKey reply' req) = Some mail) /\
    (mail_code (fst (send_email resendApiKey reply req)) = 200 ->
     exists mail r id,
       send_email resendApiKey reply req
       = ({| mail_code := 200; mail_content := MailSent id |}, Some mail) /\
       reply = Some r /\ ok r = true /\ JS.get (result r) "id" = Val id).
Proof.
  intros key reply req Hm.
  apply String.eqb_neq in Hm.
  unfold send_email. rewrite Hm.
  split; [|split].
  - intros ->. reflexivity.
  - intros mail.
    destruct (present key); simpl; [|discriminate].
    destruct (body req) as [payload|]; [|discriminate].
    destruct (JS.get payload "type") as [type|] eqn:Hty; [|discriminate].
    destruct (compose type (JS.opt_get payload "data"))
      as [[subject_ [html_|]]|] eqn:Hc; try discriminate.
    intros Hsent.
    assert (Hmail : mail = {| recipient := JS.opt_get payload "to";
                              subject := subject_; html := html_ |}).
    { destruct reply as [r|]; [|simpl in Hsent; congruence].
      destruct (ok r); simpl in Hsent; [|congruence].
      destruct (JS.get (result r) "id"); simpl in Hsent; congruence. }
    split; [reflexivity|].
    exists payload, type.
    split; [reflexivity|]. split; [exact Hty|].
    split; [|split; [|split]].
    + exact (compose_known _ _ _ Hc).
    + now rewrite Hmail.
    + unfold compose in Hc.
      destruct (JS.opt_get payload "data") as [| |b|n|s|l|fields];
        try (split; discriminate);
        exfalso;
        unfold getWelcomeEmailHtml, getRenewalEmailHtml, getExpiringEmailHtml,
          interpolate in Hc; simpl in Hc;
        destruct (JS.is_str type "welcome"); try discriminate;
        destruct (JS.is_str type "renewal"); try discriminate;
        destruct (JS.is_str type "expiring"); discriminate.
    + intros reply'. rewrite Hmail.
      destruct reply' as [r|]; [|reflexivity].
      destruct (ok r); [|reflexivity].
      destruct (JS.get (result r) "id"); reflexivity.
  - destruct (present key); simpl; [|discriminate].
    destruct (body req) as [payload|]; [|discriminate].
    destruct (JS.get payload "type") as [type|]; [|discriminate].
    destruct (compose type (JS.opt_get payload "data"))
      as [[subject_ [html_|]]|]; try discriminate.
    destruct reply as [r|]; [|discriminate].
    destruct (ok r) eqn:Hok; simpl; [|discriminate].
    destruct (JS.get (result r) "id") as [id|] eqn:Hid; [|discriminate].
    intros _. eexists _, r, id. repeat split; assumption.
Qed.

Lemma send_email_sends_known_types_only_witness :
  exists mail r id,
    send_email (Some "re_key")
               (Some {| ok := true; result := JS.Obj [("id", JS.Str "mail_1")] |})
               (Sample.post
                  (JS.Obj [("type", JS.Str "renewal");
                           ("to", JS.Str "ana@example.com");
                           ("data", JS.Obj [("name", JS.Str "Ana");
                                            ("planName", JS.Str "Plano Mensal");
                                            ("planEndDate", JS.Str "01/12/2026")])]))
    = ({| mail_code := 200; mail_content := MailSent id |}, Some mail) /\
    Some {| ok := true; result := JS.Obj [("id", JS.Str "mail_1")] |} = Some r /\
    ok r = true /\ JS.get (result r) "id" = Val id.
Proof.
  apply (send_email_sends_known_types_only
           (Some "re_key"%string)
           (Some {| ok := true; result := JS.Obj [("id", JS.Str "mail_1")] |})
           (Sample.post
              (JS.Obj [("type", JS.Str "renewal");
                       ("to", JS.Str "ana@example.com");
                       ("data", JS.Obj [("name", JS.Str "Ana");
                                        ("planName", JS.Str "Plano Mensal");
                                        ("planEndDate", JS.Str "01/12/2026")])]))).
  - simpl. discriminate.
  - reflexivity.
Defined.

(** ** Status vocabularies: creation against the live lookup *)

Ltac by_literal t :=
  repeat match goal with
         | |- context [(t =? ?lit)%string] =>
             destruct (String.eqb_spec t lit); [subst t; reflexivity|]
         end;
  try reflexivity.

(** X21. The status vocabulary used when a charge is created lacks the
    refund statuses that the live lookup of the polling entry knows.  On
    every other native status the two mappings agree; on refunded and
    charged_back (Mercado Pago) the lookup says refunded where creation
    says pending, and on REFUNDED and REFUND_REQUESTED (Asaas) the lookup
    says refunded where creation says rejected.  No creation mapping ever
    yields refunded, and only the Asaas one yields expired. *)
Theorem creation_vocabulary_lacks_refunds :
  forall (native : JS.value),
    mp_status pending native
    = (if includes ["refunded"; "charged_back"] native then refunded
       else mapMPStatus native) /\
    (includes ["refunded"; "charged_back"] native = true ->
     mapMPStatus native = pending) /\
    asaas_live_status native
    = (if includes ["REFUNDED"; "REFUND_REQUESTED"] native then refunded
       else mapAsaasStatus native) /\
    (includes ["REFUNDED"; "REFUND_REQUESTED"] native = true ->
     mapAsaasStatus native = rejected) /\
    mapMPStatus native <> refunded /\ mapMPStatus native <> expired /\
    mapAsaasStatus native <> refunded /\
    mapPagarmeStatus native <> refunded /\ mapPagarmeStatus native <> expired.
Proof.
  intros native.
  unfold mp_status, mapMPStatus, asaas_live_status, mapAsaasStatus,
    mapPagarmeStatus, includes.
  destruct native as [| |b|n|t|l|fields]; simpl;
    try (repeat split; first [reflexivity|discriminate]).
  repeat split.
  - by_literal t.
  - repeat match goal with
           | |- context [(t =? ?lit)%string] =>
               destruct (String.eqb_spec t lit); [subst t; intros _; reflexivity|]
           end.
    discriminate.
  - by_literal t.
  - repeat match goal with
           | |- context [(t =? ?lit)%string] =>
               destruct (String.eqb_spec t lit); [subst t; intros _; reflexivity|]
           end.
    discriminate.
  - repeat match goal with
           | |- context [(t =? ?lit)%string] =>
               destruct (t =? lit)%string; simpl; try discriminate
           end.
  - repeat match goal with
           | |- context [(t =? ?lit)%string] =>
               destruct (t =? lit)%string; simpl; try discriminate
           end.
  - repeat match goal with
           | |- context [(t =? ?lit)%string] =>
               destruct (t =? lit)%string; simpl; try discriminate
           end.
  - repeat match goal with
           | |- context [(t =? ?lit)%string] =>
               destruct (t =? lit)%string; simpl; try discriminate
           end.
  - repeat match goal with
           | |- context [(t =? ?lit)%string] =>
               destruct (t =? lit)%string; simpl; try discriminate
           end.
Qed.

Lemma creation_vocabulary_lacks_refunds_witness :
  mapMPStatus (JS.Str "charged_back") = pending /\
  mapAsaasStatus (JS.Str "REFUND_REQUESTED") = rejected.
Proof.
  split.
  - apply (proj1 (proj2 (creation_vocabulary_lacks_refunds
                           (JS.Str "charged_back")))).
    reflexivity.
  - apply (proj1 (proj2 (proj2 (proj2 (creation_vocabulary_lacks_refunds
                                         (JS.Str "REFUND_REQUESTED")))))).
    reflexivity.
Defined.

(** ** PagSeguro: the status of a notification *)

Lemma scan_charges_paid_wins (charges : list JS.value) :
  (forall c, In c charges -> JS.get c "status" <> Throw) ->
  forall s,
    scan_charges s charges
    = Val (if existsb (charge_is ["PAID"]) charges then approved
           else if existsb (charge_is ["DECLINED"; "CANCELED"]) charges
                then rejected
                else s).
Proof.
  induction charges as [|c charges IH]; intros Hread s; [reflexivity|].
  assert (Hc : JS.get c "status" <> Throw) by (apply Hread; now left).
  assert (Hrest : forall c', In c' charges -> JS.get c' "status" <> Throw)
    by (intros c' Hin; apply Hread; now right).
  simpl. unfold charge_is at 1 3, includes. simpl.
  destruct (JS.get c "status") as [native|]; [|congruence].
  destruct native as [| |b|n|t|l|fields]; simpl; try apply (IH Hrest).
  destruct (String.eqb_spec t "PAID") as [->|Hpaid]; simpl; [reflexivity|].
  destruct (String.eqb_spec t "DECLINED") as [->|Hd]; simpl.
  { rewrite (IH Hrest). now destruct (existsb (charge_is ["PAID"]) charges),
      (existsb (charge_is ["DECLINED"; "CANCELED"]) charges). }
  destruct (String.eqb_spec t "CANCELED") as [->|Hcn]; simpl.
  { rewrite (IH Hrest). now destruct (existsb (charge_is ["PAID"]) charges),
      (existsb (charge_is ["DECLINED"; "CANCELED"]) charges). }
  apply (IH Hrest).
Qed.

(** X22. The status a PagSeguro notification stands for does not depend
    on the order of its charges: it is approved when any charge or the
    first QR code is PAID, else rejected when any charge is DECLINED or
    CANCELED, else the stored status (so nothing is written).  One paid
    charge outweighs any number of declined ones, before or after it. *)
Theorem pagseguro_paid_charge_wins :
  forall (stored : PaymentStatus) (payload : JS.value) (charges : list JS.value),
    JS.iterate (JS.or_else (JS.opt_get payload "charges") (JS.Arr []))
    = Val charges ->
    (forall c, In c charges -> JS.get c "status" <> Throw) ->
    pagseguro_status stored payload
    = Val (if (existsb (charge_is ["PAID"]) charges || qr_paid payload)%bool
           then approved
           else if existsb (charge_is ["DECLINED"; "CANCELED"]) charges
                then rejected
                else stored).
Proof.
  intros stored payload charges Hit Hread.
  unfold pagseguro_status. rewrite Hit.
  rewrite (scan_charges_paid_wins charges Hread).
  fold (qr_paid payload).
  destruct (existsb (charge_is ["PAID"]) charges); simpl;
    destruct (qr_paid payload); reflexivity.
Qed.

Lemma pagseguro_paid_charge_wins_witness :
  pagseguro_status pending
    (JS.Obj [("id", JS.Str "ext_1");
             ("charges", JS.Arr [JS.Obj [("status", JS.Str "DECLINED")];
                                 JS.Obj [("status", JS.Str "PAID")];
                                 JS.Obj [("status", JS.Str "CANCELED")]])])
  = Val approved.
Proof.
  apply (pagseguro_paid_charge_wins pending
           (JS.Obj [("id", JS.Str "ext_1");
                    ("charges", JS.Arr [JS.Obj [("status", JS.Str "DECLINED")];
                                        JS.Obj [("status", JS.Str "PAID")];
                                        JS.Obj [("status", JS.Str "CANCELED")]])])
           [JS.Obj [("status", JS.Str "DECLINED")];
            JS.Obj [("status", JS.Str "PAID")];
            JS.Obj [("status", JS.Str "CANCELED")]]).
  - reflexivity.
  - intros c [<-|[<-|[<-|[]]]]; simpl; discriminate.
Defined.

(** ** Mercado Pago: the receiver asks the provider *)

(** X23. The Mercado Pago receiver takes the status from the provider, not
    from the notification.  A notification of another kind or without
    payment id is acknowledged without any request to the provider, and so
    is one for a payment not in the table; a payment id that does not
    convert to text makes the lookup raise, and the answer is 500.  For a
    stored payment the provider is asked once; when its answer cannot be
    read the receiver answers 500 with nothing written, else it applies
    the status mapped from the answer and stores the provider's answer -
    not the notification - as webhook_data, and answers 500 only if
    applying it raises; for an unknown native status the mapped status is
    the stored one, nothing is written and the answer is 200. *)
Theorem mercadopago_status_comes_from_provider :
  forall (o : Outside) (mpReply : option JS.value) (req : Request)
         (payload : JS.value) (w : World),
    method req <> "OPTIONS"%string ->
    body req = Some payload ->
    nullish payload = false ->
    let key := JS.opt_get (JS.opt_get payload "data") "id" in
    let asked := with_events [GatewayRequest "mercado_pago"] w in
    (mp_relevant payload = false \/ JS.truthy key = false ->
     webhook_mercadopago o mpReply req w = (webhook_ok, w)) /\
    (mp_relevant payload = true -> JS.truthy key = true ->
     JS.converts key = false ->
     webhook_mercadopago o mpReply req w = (webhook_error, w)) /\
    (mp_relevant payload = true -> JS.truthy key = true ->
     JS.converts key = true ->
     (forall p, In p (payments w) ->
                by_gateway_id key "mercado_pago" p = false) ->
     webhook_mercadopago o mpReply req w = (webhook_ok, w)) /\
    (forall payment,
        mp_relevant payload = true -> JS.truthy key = true ->
        JS.converts key = true ->
        filter (by_gateway_id key "mercado_pago") (payments w) = [payment] ->
        webhook_mercadopago o mpReply req w
        = match mpReply with
          | Some (JS.Undefined | JS.Null) | None => (webhook_error, asked)
          | Some answer =>
              try_catch
                (apply_status o payment
                   (mp_status (Payment.status payment)
                              (JS.opt_get answer "status"))
                   answer)
                webhook_error asked
          end /\
        (forall answer,
            mpReply = Some answer -> nullish answer = false ->
            mp_status (Payment.status payment) (JS.opt_get answer "status")
            = Payment.status payment ->
            webhook_mercadopago o mpReply req w = (webhook_ok, asked))).
Proof.
  intros o mpReply req payload w Hm Hb Hnull key asked_.
  change (webhook_mercadopago o mpReply req w)
    with (receiver (MercadoPago mpReply) o req w).
  assert (Hrun : forall payment,
             mp_relevant payload = true -> JS.truthy key = true ->
             JS.converts key = true ->
             filter (by_gateway_id key "mercado_pago") (payments w) = [payment] ->
             receiver (MercadoPago mpReply) o req w
             = match mpReply with
               | Some (JS.Undefined | JS.Null) | None => (webhook_error, asked_)
               | Some answer =>
                   try_catch
                     (apply_status o payment
                        (mp_status (Payment.status payment)
                                   (JS.opt_get answer "status"))
                        answer)
                     webhook_error asked_
               end).
  { intros payment Hrel Hkey Hconv Hrow.
    rewrite (receiver_reconciles (MercadoPago mpReply) req payload Hm Hb Hkey Hrel).
    unfold reconcile.
    cbn [payment_key gateway_of candidate_of hook_of asked asks_provider].
    fold key. rewrite Hconv, Hrow. simpl.
    destruct mpReply as [answer|]; [|reflexivity].
    destruct answer; reflexivity. }
  split; [|split; [|split]].
  - intros Hcase.
    rewrite (receiver_unprocessed (MercadoPago mpReply) req payload Hm Hb).
    + now rewrite Hnull.
    + destruct Hcase as [Hrel|Hkey]; [now right|now left].
  - intros Hrel Hkey Hconv.
    rewrite (receiver_reconciles (MercadoPago mpReply) req payload Hm Hb Hkey Hrel).
    unfold reconcile. cbn [payment_key]. fold key. now rewrite Hconv.
  - intros Hrel Hkey Hconv Hnone.
    rewrite (receiver_reconciles (MercadoPago mpReply) req payload Hm Hb Hkey Hrel).
    unfold reconcile. cbn [payment_key gateway_of]. fold key. rewrite Hconv.
    simpl. now rewrite (filter_none _ _ Hnone).
  - intros payment Hrel Hkey Hconv Hrow.
    split; [now apply Hrun|].
    intros answer -> Hanswer Hsame.
    rewrite (Hrun payment Hrel Hkey Hconv Hrow), Hsame.
    unfold try_catch. rewrite apply_status_same.
    destruct answer; try reflexivity; discriminate.
Qed.

Lemma mercadopago_status_comes_from_provider_witness :
  webhook_mercadopago Sample.env None Sample.mp_notification
                      (Sample.world "mercado_pago" pending None [])
  = (webhook_error,
     with_events [GatewayRequest "mercado_pago"]
                 (Sample.world "mercado_pago" pending None [])).
Proof.
  exact (proj1 (proj2 (proj2 (proj2
           (mercadopago_status_comes_from_provider
              Sample.env None Sample.mp_notification
              (JS.Obj [("type", JS.Str "payment");
                       ("data", JS.Obj [("id", JS.Str "ext_1")])])
              (Sample.world "mercado_pago" pending None [])
              ltac:(discriminate) eq_refl eq_refl)))
           (Sample.payment "mercado_pago" pending None)
           eq_refl eq_refl eq_refl eq_refl)).
Defined.

(** ** The route table: redirects settle *)

(** X24. Whatever the session and whichever route is matched, following
    the redirects of the route table ends within two hops, on something
    that is not a redirect: there is no redirect loop.  What is reached
    fits the session: the splash screen exactly while the session loads,
    a login page only without user, a page of the admin area only for an
    admin, a page of the client area (or its expiry screen) only for a
    user who is not an admin.  The loading branch of the two guards is
    never shown, and the splash screen shown by the route table never
    fires its own navigation. *)
Theorem redirects_settle_within_two_hops :
  forall (loading user isAdmin : bool) (now timezoneOffset : Z)
         (plan_end_date : option Z) (route : Matched),
  exists reached shown,
    settle 2 loading user isAdmin now timezoneOffset plan_end_date route
    = Some (reached, shown) /\
    AppRoutes loading user isAdmin now timezoneOffset plan_end_date reached
    = shown /\
    match shown with
    | SplashScreen =>
        loading = true /\ reached = route /\
        SplashScreen_timer loading user isAdmin = None
    | Login => loading = false /\ user = false /\ reached = LoginPath
    | AdminLogin => loading = false /\ user = false /\ reached = AdminLoginPath
    | Routed (Navigate _) | Routed Loading => False
    | Routed (PlanExpiredScreen _) =>
        loading = false /\ user = true /\ isAdmin = false /\
        exists pathname, reached = ClientPath pathname
    | Routed (Page _) =>
        loading = false /\ user = true /\
        if isAdmin then reached = AdminPath
        else exists pathname, reached = ClientPath pathname
    end.
Proof.
  intros loading user isAdmin now tz plan_end_date route.
  destruct loading.
  { exists route, SplashScreen. destruct route; repeat split; reflexivity. }
  destruct route as [| | |pathname| |];
    destruct user, isAdmin; simpl;
    unfold ClientRoute, AdminRoute; simpl;
    repeat match goal with
           | |- context [if ?c then _ else _] => destruct c eqn:?; simpl
           end;
    eexists _, _; (split; [reflexivity|]); simpl;
    unfold ClientRoute, AdminRoute; simpl;
    repeat match goal with
           | H : ?c = _ |- context [?c] => rewrite H; simpl
           end;
    (split; [reflexivity|]);
    repeat split; try reflexivity; eexists; reflexivity.
Qed.

(** ** The financial dashboard *)

Section DashboardStats.

Variables todayStart weekStart monthStart : Z.
Hypothesis week_before_today : weekStart <= todayStart.
Hypothesis month_before_today : monthStart <= todayStart.

Lemma add_keeps_nested (s : Dashboard.RevenueStats) (r : Dashboard.Row) :
  0 <= Payment.amount_cents (Dashboard.payment r) ->
  Dashboard.nested s ->
  Dashboard.nested (Dashboard.add todayStart weekStart monthStart s r).
Proof.
  unfold Dashboard.nested, Dashboard.add. simpl. intros Ha (H0 & H1 & H2 & H3 & H4).
  set (paidAt := match Payment.paid_at (Dashboard.payment r) with
                 | Some t => t
                 | None => Dashboard.created_at r
                 end).
  destruct (Z.leb_spec monthStart paidAt), (Z.leb_spec weekStart paidAt),
    (Z.leb_spec todayStart paidAt); lia.
Qed.

Lemma fold_add (rows : list Dashboard.Row) :
  forall s,
    (forall r, In r rows -> 0 <= Payment.amount_cents (Dashboard.payment r)) ->
    Dashboard.nested s ->
    let s' := fold_left (Dashboard.add todayStart weekStart monthStart) rows s in
    Dashboard.nested s' /\
    Dashboard.total s' = Dashboard.total s + Dashboard.amount_of rows /\
    Dashboard.pendingCount s' = Dashboard.pendingCount s /\
    Dashboard.approvedCount s' = Dashboard.approvedCount s.
Proof.
  induction rows as [|r rows IH]; intros s Hpos Hs; simpl.
  - repeat split; try apply Hs; lia.
  - destruct (IH (Dashboard.add todayStart weekStart monthStart s r))
      as (Hn & Ht & Hp & Ha).
    + intros r' Hin. apply Hpos. now right.
    + apply add_keeps_nested; [apply Hpos; now left|exact Hs].
    + split; [exact Hn|]. rewrite Ht, Hp, Ha. simpl. repeat split. lia.
Qed.

End DashboardStats.

Lemma filter_two_length {A} (f g : A -> bool) (rows : list A) :
  (forall r, f r = true -> g r = false) ->
  (List.length (filter f rows) + List.length (filter g rows)
   <= List.length rows)%nat.
Proof.
  intros Hfg. induction rows as [|r rows IH]; simpl; [lia|].
  destruct (f r) eqn:Hf.
  - rewrite (Hfg r Hf). simpl. lia.
  - destruct (g r); simpl; lia.
Qed.

(** X25. The revenue figures of the dashboard.  With no negative amount,
    the windows nest: today's revenue is at most the week's and at most
    the month's, and each is at most the total.  The total is the sum of
    the amounts of the approved payments alone - pending, rejected,
    expired and refunded ones add nothing and a refund subtracts nothing -
    and the two counters count disjoint rows. *)
Theorem dashboard_windows_nest :
  forall (todayStart weekStart monthStart : Z) (payments : list Dashboard.Row),
    weekStart <= todayStart ->
    monthStart <= todayStart ->
    (forall r, In r payments -> 0 <= Payment.amount_cents (Dashboard.payment r)) ->
    let stats := Dashboard.calculateStats todayStart weekStart monthStart payments in
    0 <= Dashboard.today stats /\
    Dashboard.today stats <= Dashboard.week stats /\
    Dashboard.week stats <= Dashboard.total stats /\
    Dashboard.today stats <= Dashboard.month stats /\
    Dashboard.month stats <= Dashboard.total stats /\
    Dashboard.total stats
    = Dashboard.amount_of (filter (Dashboard.has_status approved) payments) /\
    (Dashboard.approvedCount stats + Dashboard.pendingCount stats
     <= List.length payments)%nat.
Proof.
  intros todayStart weekStart monthStart payments Hw Hm Hpos stats.
  subst stats. unfold Dashboard.calculateStats. cbv zeta.
  match goal with
  | |- context [fold_left ?f ?rows ?s] =>
      destruct (fold_add todayStart weekStart monthStart Hw Hm rows s)
        as ((H0 & H1 & H2 & H3 & H4) & Ht & Hp & Ha)
  end.
  - intros r Hin. apply filter_In in Hin. apply Hpos. apply Hin.
  - unfold Dashboard.nested. simpl. lia.
  - split; [exact H0|]. split; [exact H1|]. split; [exact H2|].
    split; [exact H3|]. split; [exact H4|]. split.
    + rewrite Ht. simpl. reflexivity.
    + rewrite Hp, Ha. simpl. apply filter_two_length.
      intros r. unfold Dashboard.has_status.
      destruct (Payment.status (Dashboard.payment r)); simpl; congruence.
Qed.

Lemma dashboard_windows_nest_witness :
  let stats :=
    Dashboard.calculateStats
      (Sample.today * JSDate.ms_per_day)
      ((Sample.today - 7) * JSDate.ms_per_day)
      ((Sample.today - 12) * JSDate.ms_per_day)
      [ {| Dashboard.payment := Sample.payment "asaas" approved None;
           Dashboard.created_at := Sample.clock - 5000 |};
        {| Dashboard.payment := Sample.payment "asaas" refunded None;
           Dashboard.created_at := Sample.clock - 9000 |} ] in
  Dashboard.today stats <= Dashboard.week stats /\
  Dashboard.total stats = 9900.
Proof.
  pose proof (dashboard_windows_nest
                (Sample.today * JSDate.ms_per_day)
                ((Sample.today - 7) * JSDate.ms_per_day)
                ((Sample.today - 12) * JSDate.ms_per_day)
                [ {| Dashboard.payment := Sample.payment "asaas" approved None;
                     Dashboard.created_at := Sample.clock - 5000 |};
                  {| Dashboard.payment := Sample.payment "asaas" refunded None;
                     Dashboard.created_at := Sample.clock - 9000 |} ]
                ltac:(vm_compute; discriminate)
                ltac:(vm_compute; discriminate)
                ltac:(intros r [<-|[<-|[]]]; vm_compute; discriminate))
    as (_ & H1 & _ & _ & _ & Ht & _).
  split; [exact H1|exact Ht].
Defined.

(** ** Theme colours *)

Lemma hex_digit_range (c : ascii) (x : Z) :
  hex_digit c = Some x -> 0 <= x <= 15.
Proof.
  unfold hex_digit.
  set (n := Z.of_nat (nat_of_ascii c)).
  destruct (Z.leb_spec 48 n), (Z.leb_spec n 57); simpl;
    try (intros Heq; injection Heq as <-; lia);
    destruct (Z.leb_spec 97 n), (Z.leb_spec n 102); simpl;
    try (intros Heq; injection Heq as <-; lia);
    destruct (Z.leb_spec 65 n), (Z.leb_spec n 70); simpl;
    try (intros Heq; injection Heq as <-; lia); discriminate.
Qed.

Lemma hex_pair_range (a b : ascii) (v : Z) :
  hex_pair a b = Some v -> 0 <= v <= 255.
Proof.
  unfold hex_pair.
  destruct (hex_digit a) as [x|] eqn:Ha; [|discriminate].
  destruct (hex_digit b) as [y|] eqn:Hb; [|discriminate].
  intros H. assert (Hv : v = 16 * x + y) by congruence.
  apply hex_digit_range in Ha. apply hex_digit_range in Hb. lia.
Qed.

Lemma hex_digit_lower (c : ascii) :
  hex_digit (JS.lower_ascii c) = hex_digit c.
Proof.
  destruct c as [[] [] [] [] [] [] [] []]; reflexivity.
Qed.

Lemma strip_hash_lower (hex : string) :
  strip_hash (JS.toLowerCase hex) = JS.toLowerCase (strip_hash hex).
Proof.
  destruct hex as [|h rest]; [reflexivity|].
  destruct h as [[] [] [] [] [] [] [] []]; reflexivity.
Qed.

Lemma rgb_of_digits_lower (digits : string) :
  rgb_of_digits (JS.toLowerCase digits) = rgb_of_digits digits.
Proof.
  unfold rgb_of_digits.
  destruct digits as [|a [|b0 [|c [|d [|e [|f [|x rest]]]]]]]; simpl;
    try reflexivity.
  unfold hex_pair. now rewrite !hex_digit_lower.
Qed.

Lemma rgb_of_digits_range (digits : string) (r g b : Z) :
  rgb_of_digits digits = Some (r, g, b) ->
  0 <= r <= 255 /\ 0 <= g <= 255 /\ 0 <= b <= 255 /\
  String.length digits = 6%nat.
Proof.
  unfold rgb_of_digits.
  destruct digits as [|a [|b0 [|c [|d [|e [|f [|x rest]]]]]]]; simpl;
    try discriminate.
  destruct (hex_pair a b0) eqn:H1; [|discriminate].
  destruct (hex_pair c d) eqn:H2; [|discriminate].
  destruct (hex_pair e f) eqn:H3; [|discriminate].
  intros H. injection H as <- <- <-.
  apply hex_pair_range in H1. apply hex_pair_range in H2.
  apply hex_pair_range in H3. repeat split; lia.
Qed.

(** X26. hexToRgb accepts exactly six hexadecimal digits, with or without
    a leading #: every other length (the three-digit shorthand #fff among
    them) gives null, so the shadow colours are then left as they were.
    An accepted colour has its three components between 0 and 255, and
    the case of the digits does not matter. *)
Theorem hexToRgb_accepts_six_digits :
  forall (hex : string),
    (forall r g b, hexToRgb hex = Some (r, g, b) ->
       0 <= r <= 255 /\ 0 <= g <= 255 /\ 0 <= b <= 255 /\
       (String.length hex = 6%nat \/
        String.length hex = 7%nat /\ String.prefix "#" hex = true)) /\
    hexToRgb (JS.toLowerCase hex) = hexToRgb hex /\
    (String.prefix "#" hex = false -> hexToRgb (String "#" hex) = hexToRgb hex).
Proof.
  intros hex. split; [|split].
  - intros r g b H. unfold hexToRgb in H.
    destruct (rgb_of_digits_range _ _ _ _ H) as (Hr & Hg & Hb & Hl).
    repeat split; try lia.
    destruct hex as [|h rest]; [now left|].
    destruct (Ascii.eqb_spec h "#") as [->|Hh].
    + right. simpl in Hl. split; [simpl; now rewrite Hl|].
      destruct rest; reflexivity.
    + left. rewrite <- Hl. f_equal.
      destruct h as [[] [] [] [] [] [] [] []]; try reflexivity.
      now contradiction Hh.
  - unfold hexToRgb. now rewrite strip_hash_lower, rgb_of_digits_lower.
  - intros Hp. unfold hexToRgb. f_equal.
    destruct hex as [|h rest]; [reflexivity|].
    simpl in Hp. destruct (Ascii.eqb_spec "#" h) as [<-|Hh].
    + destruct rest; simpl in Hp; discriminate.
    + destruct h as [[] [] [] [] [] [] [] []]; try reflexivity.
      now contradiction Hh.
Qed.

Lemma hexToRgb_accepts_six_digits_witness :
  0 <= 26 <= 255 /\ 0 <= 115 <= 255 /\ 0 <= 232 <= 255 /\
  (String.length "#1A73e8" = 6%nat \/
   String.length "#1A73e8" = 7%nat /\ String.prefix "#" "#1A73e8" = true).
Proof.
  apply (proj1 (hexToRgb_accepts_six_digits "#1A73e8") 26 115 232).
  reflexivity.
Defined.

Lemma phone_split_keeps_every_digit_witness :
  is_digit "9" = true.
Proof.
  apply (proj2 (proj2 (proj2 (proj2
           (phone_split_keeps_every_digit "(11) 98765-4321"))))).
  right. right. left. reflexivity.
Defined.

(** ** The day of getBrasiliaDate *)

(** X27. getBrasiliaDate adds the device's timezone offset to an instant
    that is already in UTC and prints the result in UTC.  On a device whose
    clock is in UTC it gives the day in Brasilia (UTC-3); on a device in
    Brasilia (offset 180 minutes) it gives the UTC day, which from 21:00
    Brasilia time on is the day after the one in Brasilia.  In general the
    day moves with the device's zone. *)
Theorem getBrasiliaDate_follows_device_zone :
  forall (now : Z),
    getBrasiliaDate now 0 = JSDate.iso_date (now - 3 * 3600000) /\
    getBrasiliaDate now 180 = JSDate.iso_date now /\
    (forall timezoneOffset,
        getBrasiliaDate now timezoneOffset
        = JSDate.iso_date (now + (timezoneOffset - 180) * 60000)) /\
    (21 * 3600000 <= (now - 3 * 3600000) mod JSDate.ms_per_day ->
     getBrasiliaDate now 180 = getBrasiliaDate now 0 + 1).
Proof.
  intros now.
  assert (Hgen : forall tz, getBrasiliaDate now tz
                            = JSDate.iso_date (now + (tz - 180) * 60000)).
  { intros tz. unfold getBrasiliaDate. f_equal. lia. }
  split; [|split; [|split]].
  - rewrite Hgen; f_equal; lia.
  - rewrite Hgen; f_equal; lia.
  - exact Hgen.
  - intros Hlate. rewrite !Hgen.
    unfold JSDate.iso_date, JSDate.ms_per_day in *.
    replace (now + (180 - 180) * 60000) with now by lia.
    replace (now + (0 - 180) * 60000) with (now - 3 * 3600000) by lia.
    pose proof (Z.div_mod (now - 3 * 3600000) 86400000 ltac:(lia)) as Hdm.
    pose proof (Z.mod_pos_bound (now - 3 * 3600000) 86400000 ltac:(lia)) as Hb.
    symmetry. apply Z.div_unique with
      (r := (now - 3 * 3600000) mod 86400000 + 3 * 3600000 - 86400000); lia.
Qed.

Lemma getBrasiliaDate_follows_device_zone_witness :
  getBrasiliaDate (Sample.today * JSDate.ms_per_day + 3600000) 180
  = getBrasiliaDate (Sample.today * JSDate.ms_per_day + 3600000) 0 + 1.
Proof.
  apply (proj2 (proj2 (proj2 (getBrasiliaDate_follows_device_zone
                                (Sample.today * JSDate.ms_per_day + 3600000))))).
  vm_compute. discriminate.
Defined.

(** ** The banner of the client and the list of the dashboard *)

Lemma iso_date_shift (now shift : Z) :
  - JSDate.ms_per_day < shift <= 0 ->
  JSDate.iso_date now - 1 <= JSDate.iso_date (now + shift) <= JSDate.iso_date now.
Proof.
  unfold JSDate.iso_date, JSDate.ms_per_day. intros Hs.
  pose proof (Z.div_mod now 86400000 ltac:(lia)).
  pose proof (Z.mod_pos_bound now 86400000 ltac:(lia)).
  pose proof (Z.div_mod (now + shift) 86400000 ltac:(lia)).
  pose proof (Z.mod_pos_bound (now + shift) 86400000 ltac:(lia)).
  lia.
Qed.

Lemma iso_date_mono (a b : Z) :
  a <= b -> JSDate.iso_date a <= JSDate.iso_date b.
Proof.
  unfold JSDate.iso_date, JSDate.ms_per_day. intros H.
  apply Z.div_le_mono; lia.
Qed.

(** X28. A client who sees the banner of the expiring plan is on the list
    of expiring clients that the dashboard loads at the same instant,
    whenever the client's device is not west of Brasilia (an offset from
    -840 to 180 minutes, that is from UTC+14 to UTC-3) and the clocks of
    the administrator's device are not put forward within the seven days
    that follow (the seven days that setDate adds are then at least seven
    times 24 hours).  The list is wider than the banner: on a device in
    Brasilia a client whose plan ends on the current UTC day is listed and
    sees no banner. *)
Theorem banner_implies_expiring_list :
  forall (now timezoneOffset shift : Z) (pathname : string) (p : Profile.t),
    Profile.role p = "client"%string ->
    JSDate.valid now = true ->
    JSDate.valid (JSDate.add_days now 7 + shift) = true ->
    (forall d,
        -840 <= timezoneOffset <= 180 ->
        0 <= shift ->
        ClientRoute false true false pathname now timezoneOffset
                    (Profile.plan_end_date p) = Page (Some d) ->
        Dashboard.expiring_where now shift p = Val true) /\
    (Profile.plan_end_date p = Some (JSDate.iso_date now) ->
     0 <= shift ->
     Dashboard.expiring_where now shift p = Val true /\
     ClientRoute false true false pathname now 180 (Profile.plan_end_date p)
     = Page None).
Proof.
  intros now tz shift pathname p Hrole Hnow Hend.
  unfold Dashboard.expiring_where. cbv zeta.
  rewrite (toISOString_valid _ Hnow), (toISOString_valid _ Hend).
  rewrite Hrole. simpl.
  assert (Hweek : 0 <= shift ->
                  JSDate.iso_date now + 7
                  <= JSDate.iso_date (JSDate.add_days now 7 + shift)).
  { intros Hs. rewrite <- iso_date_add_days. apply iso_date_mono. lia. }
  split.
  - intros d Htz Hs. specialize (Hweek Hs). unfold ClientRoute.
    destruct (Profile.plan_end_date p) as [e|]; [|simpl; discriminate].
    rewrite planStatus_days. simpl.
    assert (Hday : JSDate.iso_date now - 1 <= getBrasiliaDate now tz
                   <= JSDate.iso_date now).
    { unfold getBrasiliaDate.
      replace (now + tz * 60000 + -3 * 60 * 60000)
        with (now + (tz - 180) * 60000) by lia.
      apply iso_date_shift. unfold JSDate.ms_per_day. lia. }
    set (today := getBrasiliaDate now tz) in *.
    destruct ((e - today <? 0) && negb (pathname =? "/app/perfil")%string)%bool;
      [discriminate|].
    destruct (Z.leb_spec (Z.max 0 (e - today)) 7);
      destruct (Z.ltb_spec 0 (Z.max 0 (e - today))); simpl; try discriminate.
    intros _. f_equal.
    apply andb_true_intro. split; [apply Z.leb_le|apply Z.leb_le]; lia.
  - intros -> Hs. specialize (Hweek Hs). split.
    + f_equal. apply andb_true_intro. split; apply Z.leb_le; lia.
    + unfold ClientRoute. rewrite planStatus_days.
      assert (Hday : getBrasiliaDate now 180 = JSDate.iso_date now).
      { unfold getBrasiliaDate. f_equal. lia. }
      rewrite Hday. rewrite Z.sub_diag. simpl. reflexivity.
Qed.

Lemma banner_implies_expiring_list_witness :
  Dashboard.expiring_where Sample.clock 0
                           (Sample.account (Some (Sample.today + 3)))
  = Val true.
Proof.
  apply (proj1 (banner_implies_expiring_list
                  Sample.clock 180 0 "/app/dieta"
                  (Sample.account (Some (Sample.today + 3)))
                  eq_refl eq_refl eq_refl) 3).
  - lia.
  - lia.
  - reflexivity.
Defined.

(** When summer time begins on the administrator's device within the
    week, the seven days of setDate are an hour short: shortly after
    midnight UTC a client whose plan ends in seven days sees the banner and
    is not on the list. *)
Lemma banner_without_listing_when_clocks_go_forward :
  let now := Sample.today * JSDate.ms_per_day + 1800000 in   (* 00:30 UTC *)
  let p := Sample.account (Some (Sample.today + 7)) in
  ClientRoute false true false "/app/dieta" now 180 (Profile.plan_end_date p)
  = Page (Some 7) /\
  Dashboard.expiring_where now (-3600000) p = Val false.
Proof. vm_compute. split; reflexivity. Qed.

